(** * ship.py: orchestration of terraform, kops, helm and kubectl

    A shallow embedding of [ship.py].  The script is glue around external
    programs, so the model is a state-and-exception monad over an explicit
    environment: every call that leaves the process (a subprocess, a file
    system test, a prompt, the clock) asks the environment for its answer
    and is recorded in a trace.  The theorems are about the traces and the
    outcomes of the functions of the script.

    What the model takes for granted:
    - the values document has the shape of the data model of the
      specification ([values.schema] is not among the sources);
    - the clock never runs backwards and [time.sleep] lasts at least as
      long as asked; readings of the clock are exact, in microseconds;
    - a subprocess, a file access or a prompt ends, with an answer that
      may depend on everything that happened before;
    - signals are left out: nothing interrupts a call. *)

From stdpp Require Import base strings gmap list.

Set Warnings "-register-all".

Open Scope string_scope.
Open Scope Z_scope.
Open Scope list_scope.

(** ** Values *)

(** What [json.load] and [yaml.load] produce. A float keeps its literal. *)
Inductive json : Type :=
| JNull
| JBool (b : bool)
| JInt (n : Z)
| JFloat (literal : string)
| JStr (s : string)
| JArr (items : list json)
| JObj (members : gmap string json).

(** ** Exceptions *)

Inductive exn : Type :=
| CalledProcessError (returncode : Z) (cmd : list string)
| IOError (msg : string)
| YAMLError (msg : string)
| KeyError (key : string)
| IndexError
| TypeError
| Abort
| SystemExit (code : Z)
| OtherError (cls msg : string).

(** [isinstance(e, Exception)]: [SystemExit] derives from [BaseException]
    only; [click.Abort] is a [RuntimeError]. *)
Definition is_Exception (e : exn) : bool :=
  match e with
  | SystemExit _ => false
  | _ => true
  end.

Definition is_IOError (e : exn) : bool :=
  match e with
  | IOError _ => true
  | _ => false
  end.

Definition is_YAMLError (e : exn) : bool :=
  match e with
  | YAMLError _ => true
  | _ => false
  end.

(** ** Results and outcomes

    A Python expression returns a value or raises. *)
Inductive result (A : Type) : Type :=
| Ok (a : A)
| Err (e : exn).
Arguments Ok {A} a.
Arguments Err {A} e.

#[global] Instance result_ret : MRet result := @Ok.
#[global] Instance result_bind : MBind result := fun A B k r =>
  match r with
  | Ok a => k a
  | Err e => Err e
  end.

(** A statement returns, raises, or, in the model only, is cut short.

    [OutOfFuel] is not a Python outcome: it marks a run of the model cut
    short because a [while] loop was given too few iterations.  It is never
    caught. *)
Inductive outcome (A : Type) : Type :=
| Ret (a : A)
| Raise (e : exn)
| OutOfFuel.
Arguments Ret {A} a.
Arguments Raise {A} e.
Arguments OutOfFuel {A}.

(** ** Configuration *)

Record repo : Type := {
  repo_name : string;
  repo_url : string
}.

Record chart : Type := {
  chart_name : string;
  chart_release : string;
  chart_namespace : string;
  chart_overrides : option string
}.

(** Modelled from the spec: [values.schema], which fixes the shape of the
    values document, is not among the sources.  The data model of the
    specification gives the document as [paths] (file and binary
    locations), [clusterConfig], and the optional lists [chartRepos] (name
    and URL) and [charts] (name, release, namespace, optional override
    string).  [paths] and [clusterConfig] stay dictionaries, as the script
    tests and adds keys. *)
Record config : Type := {
  paths : gmap string string;
  clusterConfig : gmap string json;
  chartRepos : option (list repo);
  charts : option (list chart)
}.

(** ** The environment *)

Inductive proc_result : Type :=
| Exited (returncode : Z) (stdout : string)
| LaunchFailed (msg : string).

Inductive answer : Type := AnsYes | AnsNo | AnsEOF.

Inductive stream : Type := Stdout | Stderr.

Inductive event : Type :=
| EvExec (argv : list string) (r : proc_result)
| EvIsFile (path : string) (b : bool)
| EvIsDir (path : string) (b : bool)
| EvLoadYaml (path : string)
| EvLoadJson (path : string)
| EvGetTemplate (path : string)
| EvOpenWrite (path : string)
| EvWrite (path : string) (text : string)
| EvConfirm (prompt : string) (a : answer)
| EvPrint (f : stream) (msg : string)
| EvTraceback (e : exn)
| EvSleep (secs : Z)
| EvTime (t : Z).

(** A loaded jinja2 template: [render] on a dictionary. *)
Definition template : Type := gmap string json → result string.

(** A loaded schema: [validate(config, schema)] raises or returns. *)
Definition schema : Type := config → result unit.

(** The environment answers every request from the history of the run so
    far, so an answer may change from one call to the next.  [w_lag] is
    the time, in microseconds, that a step takes over its nominal
    duration.  [w_str] is [str()] on values and [w_str_exn] is [str()] on
    exceptions other than the [IOError]s the script builds itself. *)
Record World : Type := {
  w_exec : list event → list string → proc_result;
  w_isfile : list event → string → bool;
  w_isdir : list event → string → bool;
  w_load_yaml : list event → string → result config;
  w_load_schema : list event → string → result schema;
  w_load_json : list event → string → result json;
  w_json_loads : string → result json;
  w_get_template : list event → string → result template;
  w_open_write : list event → string → result unit;
  w_confirm : list event → string → answer;
  w_lag : list event → N;
  w_str : json → string;
  w_str_exn : exn → string
}.

(** ** The state of the process *)

(** The four module-level variables, the trace, the clock (microseconds)
    and the dictionary object [config['clusterConfig']], which
    [generate_kops_config] changes in place. *)
Record state : Type := {
  st_trace : list event;
  st_now : Z;
  terraform_bin : string;
  kops_bin : string;
  helm_bin : string;
  kubectl_bin : string;
  cluster_config : gmap string json
}.

Definition initial_state (t0 : Z) : state :=
  {| st_trace := [];
     st_now := t0;
     terraform_bin := "terraform";
     kops_bin := "kops";
     helm_bin := "helm";
     kubectl_bin := "kubectl";
     cluster_config := ∅ |}.

(** ** The monad *)

Definition M (A : Type) : Type := state → outcome A * state.

Definition ret {A} (a : A) : M A := fun s => (Ret a, s).

Definition raise {A} (e : exn) : M A := fun s => (Raise e, s).

Definition out_of_fuel {A} : M A := fun s => (OutOfFuel, s).

Definition bind {A B} (m : M A) (k : A → M B) : M B :=
  fun s =>
    match m s with
    | (Ret a, s') => k a s'
    | (Raise e, s') => (Raise e, s')
    | (OutOfFuel, s') => (OutOfFuel, s')
    end.

#[global] Instance M_ret : MRet M := @ret.
#[global] Instance M_bind : MBind M := fun A B k m => bind m k.

(** [try: m except C1 as e: h1 e except C2 as e: h2 e ...]: the first
    clause whose class test accepts the exception handles it; a bare
    [except:] is the clause that accepts everything. *)
Fixpoint find_handler {A} (hs : list ((exn → bool) * (exn → M A))) (e : exn)
  : option (exn → M A) :=
  match hs with
  | [] => None
  | (accepts, h) :: hs' => if accepts e then Some h else find_handler hs' e
  end.

Definition try_except {A} (m : M A) (hs : list ((exn → bool) * (exn → M A)))
  : M A :=
  fun s =>
    match m s with
    | (Raise e, s') =>
        match find_handler hs e with
        | Some h => h e s'
        | None => (Raise e, s')
        end
    | r => r
    end.

Definition any_exception (e : exn) : bool := true.

Definition lift {A} (r : result A) : M A := fun s =>
  match r with
  | Ok a => (Ret a, s)
  | Err e => (Raise e, s)
  end.

Definition us_per_second : Z := 1000000.

(** ** Python operations on values *)

(** [d[key]] on a dictionary *)
Definition dict_get {A} (d : gmap string A) (key : string) : result A :=
  match d !! key with
  | Some v => Ok v
  | None => Err (KeyError key)
  end.

(** [v[key]] for a string key *)
Definition getitem (v : json) (key : string) : result json :=
  match v with
  | JObj members => dict_get members key
  | _ => Err TypeError
  end.

(** [v[0]]; the keys of a JSON object are strings, so the key [0] is
    never among them *)
Definition getitem_0 (v : json) : result json :=
  match v with
  | JArr items =>
      match items with
      | x :: _ => Ok x
      | [] => Err IndexError
      end
  | JStr s =>
      match s with
      | String c _ => Ok (JStr (String c EmptyString))
      | EmptyString => Err IndexError
      end
  | JObj _ => Err (KeyError "0")
  | _ => Err TypeError
  end.

(** [prefix + v] for a string literal [prefix] *)
Definition str_add (prefix : string) (v : json) : result string :=
  match v with
  | JStr s => Ok (prefix +:+ s)
  | _ => Err TypeError
  end.

(** an element of an argument list given to [subprocess] must be a string *)
Definition as_arg (v : json) : result string :=
  match v with
  | JStr s => Ok s
  | _ => Err TypeError
  end.

Fixpoint startswith (p s : string) : bool :=
  match p, s with
  | EmptyString, _ => true
  | String a p', String b s' =>
      if Ascii.eqb a b then startswith p' s' else false
  | String _ _, EmptyString => false
  end.

Fixpoint substring_of (p s : string) : bool :=
  if startswith p s then true
  else match s with
       | EmptyString => false
       | String _ s' => substring_of p s'
       end.

(** [key in v] *)
Definition py_in (key : string) (v : json) : result bool :=
  match v with
  | JObj members => Ok (bool_decide (is_Some (members !! key)))
  | JArr items =>
      Ok (existsb (fun x => match x with
                             | JStr s => String.eqb s key
                             | _ => false
                             end) items)
  | JStr s => Ok (substring_of key s)
  | _ => Err TypeError
  end.

(** [tf_resources[name]['primary']['id']] *)
Definition resource_id (tf_resources : json) (name : string) : result json :=
  entry ← getitem tf_resources name;
  primary ← getitem entry "primary";
  getitem primary "id".

Fixpoint for_each {A} (l : list A) (body : A → M unit) : M unit :=
  match l with
  | [] => ret tt
  | x :: l' => body x;; for_each l' body
  end.

Definition sys_exit {A} (code : Z) : M A := raise (SystemExit code).

Definition gets {A} (f : state → A) : M A := fun s => (Ret (f s), s).

Definition set_trace_now (tr : list event) (t : Z) (s : state) : state :=
  {| st_trace := tr;
     st_now := t;
     terraform_bin := terraform_bin s;
     kops_bin := kops_bin s;
     helm_bin := helm_bin s;
     kubectl_bin := kubectl_bin s;
     cluster_config := cluster_config s |}.

Definition set_terraform_bin (p : string) : M unit := fun s =>
  (Ret tt, {| st_trace := st_trace s; st_now := st_now s;
              terraform_bin := p; kops_bin := kops_bin s;
              helm_bin := helm_bin s; kubectl_bin := kubectl_bin s;
              cluster_config := cluster_config s |}).

Definition set_kops_bin (p : string) : M unit := fun s =>
  (Ret tt, {| st_trace := st_trace s; st_now := st_now s;
              terraform_bin := terraform_bin s; kops_bin := p;
              helm_bin := helm_bin s; kubectl_bin := kubectl_bin s;
              cluster_config := cluster_config s |}).

Definition set_helm_bin (p : string) : M unit := fun s =>
  (Ret tt, {| st_trace := st_trace s; st_now := st_now s;
              terraform_bin := terraform_bin s; kops_bin := kops_bin s;
              helm_bin := p; kubectl_bin := kubectl_bin s;
              cluster_config := cluster_config s |}).

Definition set_kubectl_bin (p : string) : M unit := fun s =>
  (Ret tt, {| st_trace := st_trace s; st_now := st_now s;
              terraform_bin := terraform_bin s; kops_bin := kops_bin s;
              helm_bin := helm_bin s; kubectl_bin := p;
              cluster_config := cluster_config s |}).

Definition set_cluster_config (d : gmap string json) : M unit := fun s =>
  (Ret tt, {| st_trace := st_trace s; st_now := st_now s;
              terraform_bin := terraform_bin s; kops_bin := kops_bin s;
              helm_bin := helm_bin s; kubectl_bin := kubectl_bin s;
              cluster_config := d |}).

(** [cluster_config[key]], [key in cluster_config] and
    [cluster_config[key] = v] on the shared dictionary *)
Definition cc_get (key : string) : M json :=
  d ← gets cluster_config; lift (dict_get d key).

Definition cc_mem (key : string) : M bool :=
  d ← gets cluster_config; ret (bool_decide (is_Some (d !! key))).

Definition cc_set (key : string) (v : json) : M unit :=
  d ← gets cluster_config; set_cluster_config (<[key := v]> d).

Section Ship.

Context (w : World).

(** ** Calls that leave the process *)

(** Record an event; the clock moves on by the nominal duration of the
    step and by what the environment adds to it, so it never runs
    backwards and a sleep lasts at least as long as asked. *)
Definition emit (e : event) (duration : Z) : M unit := fun s =>
  let h := st_trace s ++ [e] in
  (Ret tt, set_trace_now h (st_now s + duration + Z.of_N (w_lag w h)) s).

Definition str_exn (e : exn) : string :=
  match e with
  | IOError msg => msg
  | _ => w_str_exn w e
  end.

Definition str_json (v : json) : string :=
  match v with
  | JStr s => s
  | _ => w_str w v
  end.

(** What [check_call] and [check_output] share: run the program, raise
    [CalledProcessError] on a non-zero exit status. *)
Definition run_subprocess (argv : list string) : M string :=
  h ← gets st_trace;
  let r := w_exec w h argv in
  emit (EvExec argv r) 0;;
  match r with
  | Exited 0 out => ret out
  | Exited code _ => raise (CalledProcessError code argv)
  | LaunchFailed msg => raise (IOError msg)
  end.

Definition check_call (argv : list string) : M unit :=
  run_subprocess argv;; ret tt.

Definition check_output (argv : list string) : M string :=
  run_subprocess argv.

Definition os_path_isfile (path : string) : M bool :=
  h ← gets st_trace;
  let b := w_isfile w h path in
  emit (EvIsFile path b) 0;; ret b.

Definition os_path_isdir (path : string) : M bool :=
  h ← gets st_trace;
  let b := w_isdir w h path in
  emit (EvIsDir path b) 0;; ret b.

Definition print (f : stream) (msg : string) : M unit :=
  emit (EvPrint f msg) 0.

Definition time_time : M Z :=
  t ← gets st_now; emit (EvTime t) 0;; ret t.

Definition time_sleep (secs : Z) : M unit :=
  emit (EvSleep secs) (secs * us_per_second).

(** [with open(path) as f: yaml.load(f)] *)
Definition yaml_load_file (path : string) : M config :=
  h ← gets st_trace; emit (EvLoadYaml path) 0;; lift (w_load_yaml w h path).

Definition yaml_load_schema (path : string) : M schema :=
  h ← gets st_trace; emit (EvLoadYaml path) 0;; lift (w_load_schema w h path).

(** [with open(path) as f: json.load(f)] *)
Definition json_load_file (path : string) : M json :=
  h ← gets st_trace; emit (EvLoadJson path) 0;; lift (w_load_json w h path).

Definition json_loads (text : string) : M json := lift (w_json_loads w text).

Definition env_get_template (path : string) : M template :=
  h ← gets st_trace;
  emit (EvGetTemplate path) 0;; lift (w_get_template w h path).

Definition open_write (path : string) : M unit :=
  h ← gets st_trace; emit (EvOpenWrite path) 0;; lift (w_open_write w h path).

Definition file_write (path text : string) : M unit :=
  emit (EvWrite path text) 0.

(** [click.confirm(prompt, abort=abort)]: end of input aborts whatever
    [abort] is. *)
Definition click_confirm (prompt : string) (abort : bool) : M bool :=
  h ← gets st_trace;
  let a := w_confirm w h prompt in
  emit (EvConfirm prompt a) 0;;
  match a with
  | AnsYes => ret true
  | AnsNo => if abort then raise Abort else ret false
  | AnsEOF => raise Abort
  end.

(** ** The script *)

Definition get_config (config_path : string) : M config :=
  yaml_load_file config_path.

Definition generate_terraform_config (template_path output_path : string)
  : M string :=
  terraform_template ← env_get_template template_path;
  values ← gets cluster_config;
  terraform_config ← lift (terraform_template values);
  let terraform_config_path := output_path +:+ "/networking.tf" in
  open_write terraform_config_path;;
  file_write terraform_config_path terraform_config;;
  ret terraform_config_path.

Definition generate_kops_config
  (kops_template_path terraform_state_path output_dir : string) : M string :=
  tf_state ← json_load_file terraform_state_path;
  tf_modules ← lift (getitem tf_state "modules");
  tf_module ← lift (getitem_0 tf_modules);
  tf_resources ← lift (getitem tf_module "resources");
  aws_region ← cc_get "AWSRegion";
  aws_az1 ← cc_get "AWSAZ1";
  let region := str_json aws_region +:+ str_json aws_az1 in
  present ← cc_mem "VPCID";
  (if negb present then
     short_name ← cc_get "ShortName";
     name ← lift (str_add "aws_vpc." short_name);
     id ← lift (resource_id tf_resources name);
     cc_set "VPCID" id
   else ret tt);;
  present ← cc_mem "PublicNATGatewayID";
  (if negb present then
     id ← lift (resource_id tf_resources
                  ("aws_nat_gateway.public-" +:+ region));
     cc_set "PublicNATGatewayID" id
   else ret tt);;
  present ← cc_mem "NodeSubnetID";
  (if negb present then
     id ← lift (resource_id tf_resources ("aws_subnet.nodes-" +:+ region));
     cc_set "NodeSubnetID" id
   else ret tt);;
  present ← cc_mem "PublicSubnetID";
  (if negb present then
     id ← lift (resource_id tf_resources ("aws_subnet.public-" +:+ region));
     cc_set "PublicSubnetID" id
   else ret tt);;
  kops_template ← env_get_template kops_template_path;
  let kops_config_path := output_dir +:+ "/kops.config" in
  open_write kops_config_path;;
  values ← gets cluster_config;
  kops_config ← lift (kops_template values);
  file_write kops_config_path kops_config;;
  ret kops_config_path.

Definition terraform_apply (terraform_config_dir terraform_state_path : string)
  : M unit :=
  bin ← gets terraform_bin;
  check_call [bin; "apply"; "-state=" +:+ terraform_state_path;
              terraform_config_dir].

Definition terraform_destroy (terraform_config_dir : string) : M unit :=
  bin ← gets terraform_bin;
  check_call [bin; "destroy"; "-force"; terraform_config_dir].

Definition kops_add_cluster (kops_config_path : string) (state_path : json)
  : M unit :=
  bin ← gets kops_bin;
  state ← lift (as_arg state_path);
  check_call [bin; "create"; "-f"; kops_config_path; "--state"; state].

Definition kops_add_ssh_key (cluster_name : json) (ssh_public_key_path : string)
  (state_path : json) : M unit :=
  bin ← gets kops_bin;
  name ← lift (as_arg cluster_name);
  state ← lift (as_arg state_path);
  check_call [bin; "create"; "secret"; "--name"; name; "sshpublickey";
              "admin"; "-i"; ssh_public_key_path; "--state"; state].

Definition kops_update_cluster (cluster_name state_path : json) : M unit :=
  bin ← gets kops_bin;
  name ← lift (as_arg cluster_name);
  state ← lift (as_arg state_path);
  check_call [bin; "update"; "cluster"; "--name"; name; "--state"; state;
              "--yes"].

Definition kops_replace_cluster (kops_config_path : string) (state_path : json)
  : M unit :=
  bin ← gets kops_bin;
  state ← lift (as_arg state_path);
  check_call [bin; "replace"; "cluster"; "-f"; kops_config_path; "--state";
              state].

Definition kops_rolling_update (cluster_name state_path : json) : M unit :=
  bin ← gets kops_bin;
  name ← lift (as_arg cluster_name);
  state ← lift (as_arg state_path);
  check_call [bin; "rolling-update"; "cluster"; "--name"; name; "--state";
              state; "--yes"].

Definition kops_destroy_cluster (cluster_name state_path : json) : M unit :=
  bin ← gets kops_bin;
  name ← lift (as_arg cluster_name);
  state ← lift (as_arg state_path);
  check_call [bin; "delete"; "cluster"; name; "--state"; state; "--yes"].

Definition validate_file_exists (path context : string) : M unit :=
  found ← os_path_isfile path;
  if negb found then raise (IOError (context +:+ " not found at " +:+ path))
  else ret tt.

Definition validate_config (cfg : config) : M unit :=
  values_schema ←
    try_except (yaml_load_schema "values.schema")
      [(is_Exception, fun e =>
          raise (IOError ("Failed to load config values schema file: "
                          +:+ str_exn e)))];
  lift (values_schema cfg);;
  p ← lift (dict_get (paths cfg) "sshPublicKeyPath");
  validate_file_exists p "SSH Public Key";;
  p ← lift (dict_get (paths cfg) "terraformTemplatePath");
  validate_file_exists p "Terraform Template";;
  p ← lift (dict_get (paths cfg) "kopsTemplatePath");
  validate_file_exists p "Kops Template";;
  output_dir ← lift (dict_get (paths cfg) "outputDir");
  is_dir ← os_path_isdir output_dir;
  (if negb is_dir then
     raise (IOError ("output directory '" +:+ output_dir
                     +:+ "' does not exist"))
   else ret tt);;
  (match paths cfg !! "terraform" with
   | Some p => validate_file_exists p "terraform binary"
   | None => ret tt
   end);;
  match paths cfg !! "kops" with
  | Some p => validate_file_exists p "kops binary"
  | None => ret tt
  end.

Definition set_binary_paths (cfg : config) : M unit :=
  (match paths cfg !! "terraform" with
   | Some p => set_terraform_bin p
   | None => ret tt
   end);;
  try_except
    (bin ← gets terraform_bin; check_output [bin; "--version"];; ret tt)
    [(is_Exception, fun e =>
        raise (IOError ("terraform executable not valid: " +:+ str_exn e)))];;
  (match paths cfg !! "kops" with
   | Some p => set_kops_bin p
   | None => ret tt
   end);;
  try_except (bin ← gets kops_bin; check_output [bin; "version"];; ret tt)
    [(is_Exception, fun e =>
        raise (IOError ("kops executable not valid: " +:+ str_exn e)))];;
  (match paths cfg !! "helm" with
   | Some p => set_helm_bin p
   | None => ret tt
   end);;
  try_except
    (bin ← gets helm_bin; check_output [bin; "version"; "--client"];; ret tt)
    [(is_Exception, fun e =>
        raise (IOError ("helm executable not valid: " +:+ str_exn e)))];;
  (match paths cfg !! "kubectl" with
   | Some p => set_kubectl_bin p
   | None => ret tt
   end);;
  try_except
    (bin ← gets kubectl_bin;
     check_output [bin; "version"; "--client"];; ret tt)
    [(is_Exception, fun e =>
        raise (IOError ("kubectl executable not valid: " +:+ str_exn e)))].

(** The group callback.  [ctx.obj['config'] = config] is the value
    returned; from here on the dictionary [config['clusterConfig']] is the
    object in the store. *)
Definition cli (values : string) : M config :=
  cfg ←
    try_except (get_config values)
      [(is_IOError, fun e =>
          print Stderr ("Failed to read values file: " +:+ str_exn e);;
          sys_exit 1);
       (is_YAMLError, fun e =>
          print Stderr ("Failed to parse values file: " +:+ str_exn e);;
          sys_exit 1)];
  try_except (validate_config cfg)
    [(is_Exception, fun e =>
        print Stderr ("Config validation failed: " +:+ str_exn e);;
        sys_exit 1)];;
  set_binary_paths cfg;;
  set_cluster_config (clusterConfig cfg);;
  ret cfg.

Definition install_chart (chart release_name namespace : string)
  (overrides : option string) : M unit :=
  bin ← gets helm_bin;
  let args := [bin; "install"; "--name"; release_name; chart; "--namespace";
               namespace] in
  let args :=
    match overrides with
    | Some o => if String.eqb o "" then args else args ++ ["--set"; o]
    | None => args
    end in
  check_call args.

(** One turn of the [while] of [wait_cluster_available] is one unit of
    fuel. *)
Fixpoint wait_cluster_loop (fuel : nat) (timeout_time : Z)
  (cluster_available : bool) : M bool :=
  if cluster_available then ret cluster_available
  else
    now ← time_time;
    if negb (now <? timeout_time) then ret cluster_available
    else
      match fuel with
      | O => out_of_fuel
      | S fuel' =>
          cluster_available ←
            try_except
              (bin ← gets kubectl_bin;
               out ← check_output [bin; "version"; "--output"; "json"];
               kubectl_versions ← json_loads out;
               found ← lift (py_in "serverVersion" kubectl_versions);
               ret (if found : bool then true else cluster_available))
              [(any_exception, fun _ => ret cluster_available)];
          (if negb cluster_available then
             print Stdout
               "Cluster unavailable. Waiting 30 seconds before retrying.";;
             time_sleep 30
           else ret tt);;
          wait_cluster_loop fuel' timeout_time cluster_available
      end.

Definition wait_cluster_available (fuel : nat) (timeout_minutes : Z) : M unit :=
  now ← time_time;
  let timeout_time := now + timeout_minutes * 60 * us_per_second in
  cluster_available ← wait_cluster_loop fuel timeout_time false;
  if negb cluster_available then
    print Stderr "Kubernetes server could not be contacted.";;
    sys_exit 1
  else ret tt.

Fixpoint wait_tiller_loop (fuel : nat) (timeout_time : Z)
  (tiller_available : bool) : M bool :=
  if tiller_available then ret tiller_available
  else
    now ← time_time;
    if negb (now <? timeout_time) then ret tiller_available
    else
      match fuel with
      | O => out_of_fuel
      | S fuel' =>
          tiller_available ←
            try_except
              (bin ← gets helm_bin;
               check_call [bin; "version"; "--server"];;
               ret true)
              [(any_exception, fun _ => ret tiller_available)];
          (if negb tiller_available then
             print Stdout
               "Helm Tiller unavailable. Waiting 15 seconds before retrying.";;
             time_sleep 15
           else ret tt);;
          wait_tiller_loop fuel' timeout_time tiller_available
      end.

Definition wait_tiller_available (fuel : nat) (timeout_minutes : Z) : M unit :=
  now ← time_time;
  let timeout_time := now + timeout_minutes * 60 * us_per_second in
  tiller_available ← wait_tiller_loop fuel timeout_time false;
  if negb tiller_available then
    print Stderr "Helm tiller could not be contacted.";;
    sys_exit 1
  else ret tt.

Definition install_components (fuel : nat) (cfg : config)
  (tiller_wait_timeout : Z) : M unit :=
  bin ← gets kubectl_bin;
  permissions ← lift (dict_get (paths cfg) "tillerPermissions");
  check_call [bin; "apply"; "-f"; permissions];;
  bin ← gets helm_bin;
  check_call [bin; "init"; "--service-account"; "tiller"];;
  wait_tiller_available fuel tiller_wait_timeout;;
  (match chartRepos cfg with
   | Some repos =>
       for_each repos (fun repo =>
         bin ← gets helm_bin;
         check_call [bin; "repo"; "add"; repo_name repo; repo_url repo])
   | None => ret tt
   end);;
  match charts cfg with
  | Some cs =>
      for_each cs (fun chart =>
        let overrides := chart_overrides chart in
        install_chart (chart_name chart) (chart_release chart)
          (chart_namespace chart) overrides)
  | None => ret tt
  end.

Definition create (fuel : nat) (cfg : config)
  (cluster_wait_timeout tiller_wait_timeout : Z) : M unit :=
  output_dir ← lift (dict_get (paths cfg) "outputDir");
  try_except
    (template_path ← lift (dict_get (paths cfg) "terraformTemplatePath");
     generate_terraform_config template_path output_dir;;
     let terraform_state_path := output_dir +:+ "/terraform.tfstate" in
     terraform_apply output_dir terraform_state_path;;
     template_path ← lift (dict_get (paths cfg) "kopsTemplatePath");
     kops_config_path ←
       generate_kops_config template_path terraform_state_path output_dir;
     url ← cc_get "ConfigBaseURL";
     kops_add_cluster kops_config_path url;;
     name ← cc_get "FullyQualifiedName";
     key_path ← lift (dict_get (paths cfg) "sshPublicKeyPath");
     url ← cc_get "ConfigBaseURL";
     kops_add_ssh_key name key_path url;;
     name ← cc_get "FullyQualifiedName";
     url ← cc_get "ConfigBaseURL";
     kops_update_cluster name url)
    [(is_Exception, fun e =>
        print Stderr ("Create cluster failed: " +:+ str_exn e);;
        sys_exit 1)];;
  wait_cluster_available fuel cluster_wait_timeout;;
  install_components fuel cfg tiller_wait_timeout.

Definition destroy (cfg : config) (yes : bool) : M unit :=
  (if negb yes then
     name ← cc_get "FullyQualifiedName";
     click_confirm
       ("Are you sure you want to destroy " +:+ str_json name +:+ "?") true;;
     ret tt
   else ret tt);;
  try_except
    (name ← cc_get "FullyQualifiedName";
     url ← cc_get "ConfigBaseURL";
     kops_destroy_cluster name url;;
     output_dir ← lift (dict_get (paths cfg) "outputDir");
     terraform_destroy output_dir)
    [(is_Exception, fun e =>
        print Stderr ("Destroy cluster failed: " +:+ str_exn e);;
        sys_exit 1)].

Definition update (cfg : config) (yes : bool) : M unit :=
  cluster_name ← cc_get "FullyQualifiedName";
  output_dir ← lift (dict_get (paths cfg) "outputDir");
  (if negb yes then
     click_confirm
       ("Are you sure you want to update " +:+ str_json cluster_name +:+ "?")
       true;;
     ret tt
   else ret tt);;
  try_except
    (template_path ← lift (dict_get (paths cfg) "terraformTemplatePath");
     generate_terraform_config template_path output_dir;;
     let terraform_state_path := output_dir +:+ "/terraform.tfstate" in
     terraform_apply output_dir terraform_state_path;;
     template_path ← lift (dict_get (paths cfg) "kopsTemplatePath");
     kops_config_path ←
       generate_kops_config template_path terraform_state_path output_dir;
     url ← cc_get "ConfigBaseURL";
     kops_replace_cluster kops_config_path url;;
     url ← cc_get "ConfigBaseURL";
     kops_update_cluster cluster_name url;;
     rolling ←
       (if yes then ret true
        else click_confirm "Should I initiate a rolling update?" false);
     if rolling : bool then
       url ← cc_get "ConfigBaseURL";
       kops_rolling_update cluster_name url
     else ret tt)
    [(is_Exception, fun e =>
        print Stderr ("Update cluster failed: " +:+ str_exn e);;
        sys_exit 1)].

(** ** The process *)

Inductive command : Type :=
| CmdCreate (cluster_wait_timeout tiller_wait_timeout : Z)
| CmdUpdate (yes : bool)
| CmdDestroy (yes : bool).

(** [cli(obj={})]: click runs the group callback, then the command. *)
Definition invoke (fuel : nat) (values : string) (cmd : command) : M unit :=
  cfg ← cli values;
  match cmd with
  | CmdCreate cluster_wait_timeout tiller_wait_timeout =>
      create fuel cfg cluster_wait_timeout tiller_wait_timeout
  | CmdUpdate yes => update cfg yes
  | CmdDestroy yes => destroy cfg yes
  end.

(** How the run ends.  [sys.exit(n)] gives status [n]; click answers
    [Abort] with the line [Aborted!] on the error stream and status 1; any
    other exception reaches the interpreter, which writes a traceback to
    the error stream and gives status 1.  [None]: the model ran out of
    fuel. *)
Definition main (fuel : nat) (values : string) (cmd : command) (s : state)
  : option Z * state :=
  match invoke fuel values cmd s with
  | (Ret _, s') => (Some 0, s')
  | (Raise (SystemExit code), s') => (Some code, s')
  | (Raise Abort, s') => (Some 1, snd (print Stderr "Aborted!" s'))
  | (Raise e, s') => (Some 1, snd (emit (EvTraceback e) 0 s'))
  | (OutOfFuel, s') => (None, s')
  end.

End Ship.

(** ** A concrete environment

    Every tool succeeds, every file is there, the cluster answers at once
    and the user declines every prompt.  The examples below change one
    answer at a time. *)

Definition resource_entry (id : string) : json :=
  JObj {[ "primary" := JObj {[ "id" := JStr id ]} ]}.

Definition demo_tf_state : json :=
  JObj {[ "modules" :=
    JArr [JObj {[ "resources" :=
      JObj (<[ "aws_vpc.demo" := resource_entry "vpc-1" ]>
           (<[ "aws_nat_gateway.public-eu-west-1a" := resource_entry "nat-1" ]>
           (<[ "aws_subnet.nodes-eu-west-1a" := resource_entry "subnet-n" ]>
           (<[ "aws_subnet.public-eu-west-1a" := resource_entry "subnet-p" ]>
            ∅)))) ]}] ]}.

Definition demo_cluster_config : gmap string json :=
  <[ "ShortName" := JStr "demo" ]>
  (<[ "FullyQualifiedName" := JStr "demo.example.com" ]>
  (<[ "ConfigBaseURL" := JStr "s3://demo-state" ]>
  (<[ "AWSRegion" := JStr "eu-west-1" ]>
  (<[ "AWSAZ1" := JStr "a" ]>
  (<[ "VPCID" := JStr "vpc-user" ]> ∅))))).

Definition demo_paths : gmap string string :=
  <[ "sshPublicKeyPath" := "id_rsa.pub" ]>
  (<[ "terraformTemplatePath" := "networking.tf.j2" ]>
  (<[ "kopsTemplatePath" := "kops.config.j2" ]>
  (<[ "outputDir" := "out" ]>
  (<[ "tillerPermissions" := "tiller.yaml" ]> ∅)))).

Definition demo_config : config :=
  {| paths := demo_paths;
     clusterConfig := demo_cluster_config;
     chartRepos :=
       Some [ {| repo_name := "stable"; repo_url := "https://charts" |} ];
     charts := Some [ {| chart_name := "stable/nginx"; chart_release := "web";
                         chart_namespace := "infra";
                         chart_overrides := Some "replicas=2" |} ] |}.

Definition calm : World :=
  {| w_exec := fun _ _ => Exited 0 "{}";
     w_isfile := fun _ _ => true;
     w_isdir := fun _ _ => true;
     w_load_yaml := fun _ _ => Ok demo_config;
     w_load_schema := fun _ _ => Ok (fun _ => Ok tt);
     w_load_json := fun _ _ => Ok demo_tf_state;
     w_json_loads := fun _ => Ok (JObj {[ "serverVersion" := JObj ∅ ]});
     w_get_template := fun _ _ => Ok (fun _ => Ok "rendered");
     w_open_write := fun _ _ => Ok tt;
     w_confirm := fun _ _ => AnsNo;
     w_lag := fun _ => 0%N;
     w_str := fun _ => "<value>";
     w_str_exn := fun _ => "<error>" |}.

Definition with_exec (f : list event → list string → proc_result)
  (w : World) : World :=
  {| w_exec := f;
     w_isfile := w_isfile w;
     w_isdir := w_isdir w;
     w_load_yaml := w_load_yaml w;
     w_load_schema := w_load_schema w;
     w_load_json := w_load_json w;
     w_json_loads := w_json_loads w;
     w_get_template := w_get_template w;
     w_open_write := w_open_write w;
     w_confirm := w_confirm w;
     w_lag := w_lag w;
     w_str := w_str w;
     w_str_exn := w_str_exn w |}.

(** ** Vocabulary of the statements *)

Definition succeeded (r : proc_result) : bool :=
  match r with
  | Exited 0 _ => true
  | _ => false
  end.

(** What [check_call] and [check_output] raise for a result *)
Definition proc_error (argv : list string) (r : proc_result) : option exn :=
  match r with
  | Exited 0 _ => None
  | Exited code _ => Some (CalledProcessError code argv)
  | LaunchFailed msg => Some (IOError msg)
  end.

(** The command lines of the subprocesses of a trace, in order *)
Fixpoint execs (l : list event) : list (list string) :=
  match l with
  | [] => []
  | EvExec argv _ :: l' => argv :: execs l'
  | _ :: l' => execs l'
  end.

Definition is_confirm (e : event) : bool :=
  match e with
  | EvConfirm _ _ => true
  | _ => false
  end.

(** Reading a template or writing a file, the two halves of rendering *)
Definition is_rendering (e : event) : bool :=
  match e with
  | EvGetTemplate _ | EvOpenWrite _ | EvWrite _ _ => true
  | _ => false
  end.

(** The state after an event of the given nominal duration *)
Definition logged (w : World) (e : event) (duration : Z) (s : state) : state :=
  snd (emit w e duration s).

(** *** The destroy flow *)

(** The [try] statement of [destroy] *)
Definition destroy_body (w : World) (cfg : config) : M unit :=
  try_except
    (name ← cc_get "FullyQualifiedName";
     url ← cc_get "ConfigBaseURL";
     kops_destroy_cluster w name url;;
     output_dir ← lift (dict_get (paths cfg) "outputDir");
     terraform_destroy w output_dir)
    [(is_Exception, fun e =>
        print w Stderr ("Destroy cluster failed: " +:+ str_exn w e);;
        sys_exit 1)].

(** The prompt of [destroy] *)
Definition destroy_prompt (w : World) (yes : bool) : M unit :=
  if negb yes then
    name ← cc_get "FullyQualifiedName";
    click_confirm w
      ("Are you sure you want to destroy " +:+ str_json w name +:+ "?") true;;
    ret tt
  else ret tt.


Definition terraform_destroy_argv (s : state) (dir : string) : list string :=
  [terraform_bin s; "destroy"; "-force"; dir].

(** *** Relations between the state before and the state after *)

(** A relation between the state before and the state after holds for
    every run of a computation, however it ends. *)
Definition preserves {A} (R : relation state) (m : M A) : Prop :=
  ∀ s, R s (snd (m s)).

(** The trace is only ever extended, by events that satisfy [P]. *)
Definition extends_with (P : event → Prop) : relation state :=
  fun s s' => ∃ l, st_trace s' = st_trace s ++ l ∧ Forall P l.

(** The four module-level paths of the tools *)
Definition tools (s : state) : string * string * string * string :=
  (terraform_bin s, kops_bin s, helm_bin s, kubectl_bin s).

(** None of the four module-level variables is assigned. *)
Definition same_tools : relation state :=
  fun s s' => tools s' = tools s.

Definition is_exec (e : event) : bool :=
  match e with
  | EvExec _ _ => true
  | _ => false
  end.

(** Only events that are not subprocesses are added to the trace. *)
Definition no_exec : relation state :=
  extends_with (fun e => is_exec e = false).

(** *** The pollers *)

(** The [try] statement in the loop of [wait_cluster_available] *)
Definition cluster_probe (w : World) (cluster_available : bool) : M bool :=
  try_except
    (bin ← gets kubectl_bin;
     out ← check_output w [bin; "version"; "--output"; "json"];
     kubectl_versions ← json_loads w out;
     found ← lift (py_in "serverVersion" kubectl_versions);
     ret (if found : bool then true else cluster_available))
    [(any_exception, fun _ => ret cluster_available)].

(** The [try] statement in the loop of [wait_tiller_available] *)
Definition tiller_probe (w : World) (tiller_available : bool) : M bool :=
  try_except
    (bin ← gets helm_bin;
     check_call w [bin; "version"; "--server"];;
     ret true)
    [(any_exception, fun _ => ret tiller_available)].

(** The loop that the two pollers share, with the [try] statement, the
    message and the pause left open. *)
Fixpoint poll_loop (w : World) (probe : bool → M bool) (msg : string)
  (interval : Z) (fuel : nat) (timeout_time : Z) (available : bool) : M bool :=
  if available then ret available
  else
    now ← time_time w;
    if negb (now <? timeout_time) then ret available
    else
      match fuel with
      | O => out_of_fuel
      | S fuel' =>
          available ← probe available;
          (if negb available then
             print w Stdout msg;;
             time_sleep w interval
           else ret tt);;
          poll_loop w probe msg interval fuel' timeout_time available
      end.

Definition cluster_probe_argv (s : state) : list string :=
  [kubectl_bin s; "version"; "--output"; "json"].

Definition tiller_probe_argv (s : state) : list string :=
  [helm_bin s; "version"; "--server"].

(** Whether the answer of [kubectl version --output json] makes the
    cluster available: exit status zero, output that parses, and
    ['serverVersion' in] the parsed value without an error. *)
Definition cluster_answer (w : World) (r : proc_result) : bool :=
  match r with
  | Exited 0 out =>
      match w_json_loads w out with
      | Ok v =>
          match py_in "serverVersion" v with
          | Ok found => found
          | Err _ => false
          end
      | Err _ => false
      end
  | _ => false
  end.

Definition cluster_retry_message : string :=
  "Cluster unavailable. Waiting 30 seconds before retrying.".

Definition tiller_retry_message : string :=
  "Helm Tiller unavailable. Waiting 15 seconds before retrying.".

(** The deadline of a poller that starts in [s]: the clock at the start
    and the timeout, in microseconds *)
Definition deadline (s : state) (timeout_minutes : Z) : Z :=
  st_now s + timeout_minutes * 60 * us_per_second.

(** The events of a polling loop with the deadline [timeout_time]: each
    turn reads the clock and, when the reading is before the deadline,
    probes; a probe that does not make the service available is followed
    by the retry message and the pause; the loop ends with an answer that
    does, or with a reading of the clock at or past the deadline, and in
    no other way. *)
Inductive poll_trace (argv : list string) (answer : proc_result → bool)
  (msg : string) (interval : Z) (timeout_time : Z)
  : bool → list event → Prop :=
| poll_deadline (t : Z) :
    timeout_time ≤ t →
    poll_trace argv answer msg interval timeout_time false [EvTime t]
| poll_answer (t : Z) (r : proc_result) :
    t < timeout_time →
    answer r = true →
    poll_trace argv answer msg interval timeout_time true
      [EvTime t; EvExec argv r]
| poll_retry (t : Z) (r : proc_result) (b : bool) (l : list event) :
    t < timeout_time →
    answer r = false →
    poll_trace argv answer msg interval timeout_time b l →
    poll_trace argv answer msg interval timeout_time b
      (EvTime t :: EvExec argv r :: EvPrint Stdout msg :: EvSleep interval
         :: l).

Definition cluster_unreachable_message : string :=
  "Kubernetes server could not be contacted.".

Definition tiller_unreachable_message : string :=
  "Helm tiller could not be contacted.".

(** The events of a poller: the reading of the clock that fixes the
    deadline, the loop, and on a timeout the message on the error
    stream. *)
Definition poller_events (s : state) (loop : list event) (available : bool)
  (unreachable : string) : list event :=
  EvTime (st_now s) :: loop
    ++ (if available then [] else [EvPrint Stderr unreachable]).

(** How a poller ends: it returns, or it calls [sys.exit(1)]. *)
Definition poller_outcome (available : bool) : outcome unit :=
  if available then Ret tt else Raise (SystemExit 1).

(** The statements of [create] before the pollers: the assignment of
    [output_dir] and the [try] statement. *)
Definition create_setup (w : World) (cfg : config) : M unit :=
  output_dir ← lift (dict_get (paths cfg) "outputDir");
  try_except
    (template_path ← lift (dict_get (paths cfg) "terraformTemplatePath");
     generate_terraform_config w template_path output_dir;;
     let terraform_state_path := output_dir +:+ "/terraform.tfstate" in
     terraform_apply w output_dir terraform_state_path;;
     template_path ← lift (dict_get (paths cfg) "kopsTemplatePath");
     kops_config_path ←
       generate_kops_config w template_path terraform_state_path output_dir;
     url ← cc_get "ConfigBaseURL";
     kops_add_cluster w kops_config_path url;;
     name ← cc_get "FullyQualifiedName";
     key_path ← lift (dict_get (paths cfg) "sshPublicKeyPath");
     url ← cc_get "ConfigBaseURL";
     kops_add_ssh_key w name key_path url;;
     name ← cc_get "FullyQualifiedName";
     url ← cc_get "ConfigBaseURL";
     kops_update_cluster w name url)
    [(is_Exception, fun e =>
        print w Stderr ("Create cluster failed: " +:+ str_exn w e);;
        sys_exit 1)].

(** *** The chart installer *)

Definition repo_add_argv (bin : string) (r : repo) : list string :=
  [bin; "repo"; "add"; repo_name r; repo_url r].

(** [--set] and the override string are passed only for an override
    string that is present and not empty. *)
Definition chart_install_argv (bin : string) (c : chart) : list string :=
  [bin; "install"; "--name"; chart_release c; chart_name c; "--namespace";
   chart_namespace c]
  ++ match chart_overrides c with
     | Some o => if String.eqb o "" then [] else ["--set"; o]
     | None => []
     end.

(** The command lines of the configured repositories, then of the
    configured charts, each in the order of the configuration *)
Definition chart_commands (bin : string) (cfg : config) : list (list string) :=
  map (repo_add_argv bin) (default [] (chartRepos cfg))
  ++ map (chart_install_argv bin) (default [] (charts cfg)).

(** [check_call] on each command line in turn *)
Definition check_call_each (w : World) (cmds : list (list string)) : M unit :=
  for_each cmds (check_call w).

(** The statements of [install_components] before the poller *)
Definition install_tools (w : World) (cfg : config) : M unit :=
  bin ← gets kubectl_bin;
  permissions ← lift (dict_get (paths cfg) "tillerPermissions");
  check_call w [bin; "apply"; "-f"; permissions];;
  bin ← gets helm_bin;
  check_call w [bin; "init"; "--service-account"; "tiller"].

(** The statements of [install_components] up to the poller *)
Definition install_setup (w : World) (fuel : nat) (cfg : config)
  (tiller_wait_timeout : Z) : M unit :=
  bin ← gets kubectl_bin;
  permissions ← lift (dict_get (paths cfg) "tillerPermissions");
  check_call w [bin; "apply"; "-f"; permissions];;
  bin ← gets helm_bin;
  check_call w [bin; "init"; "--service-account"; "tiller"];;
  wait_tiller_available w fuel tiller_wait_timeout.

(** The two [for] statements of [install_components] *)
Definition install_loops (w : World) (cfg : config) : M unit :=
  (match chartRepos cfg with
   | Some repos =>
       for_each repos (fun repo =>
         bin ← gets helm_bin;
         check_call w [bin; "repo"; "add"; repo_name repo; repo_url repo])
   | None => ret tt
   end);;
  match charts cfg with
  | Some cs =>
      for_each cs (fun chart =>
        let overrides := chart_overrides chart in
        install_chart w (chart_name chart) (chart_release chart)
          (chart_namespace chart) overrides)
  | None => ret tt
  end.

(** A run of command lines that stops at the first failure: the results
    are those of a prefix of the command lines, all but possibly the last
    successful; the run returns when every command line was run and
    succeeded, and raises the error of the last result otherwise. *)
Definition stops_at_first_failure (cmds : list (list string))
  (results : list proc_result) (o : outcome unit) : Prop :=
  match o with
  | Ret _ =>
      length results = length cmds
      ∧ Forall (fun r => succeeded r = true) results
  | Raise e =>
      ∃ before r cmd,
        results = before ++ [r]
        ∧ Forall (fun r => succeeded r = true) before
        ∧ cmds !! length before = Some cmd
        ∧ proc_error cmd r = Some e
  | OutOfFuel => False
  end.

(** *** Binary resolution *)

Inductive tool : Type := Terraform | Kops | Helm | Kubectl.

Definition all_tools : list tool := [Terraform; Kops; Helm; Kubectl].

(** The key of the override in [paths], which is also the name in the
    error message *)
Definition tool_name (t : tool) : string :=
  match t with
  | Terraform => "terraform"
  | Kops => "kops"
  | Helm => "helm"
  | Kubectl => "kubectl"
  end.

Definition tool_bin (t : tool) (s : state) : string :=
  match t with
  | Terraform => terraform_bin s
  | Kops => kops_bin s
  | Helm => helm_bin s
  | Kubectl => kubectl_bin s
  end.

Definition set_tool_bin (t : tool) (p : string) : M unit :=
  match t with
  | Terraform => set_terraform_bin p
  | Kops => set_kops_bin p
  | Helm => set_helm_bin p
  | Kubectl => set_kubectl_bin p
  end.

(** The override of the configuration if there is one, else the value
    the variable has *)
Definition resolved (cfg : config) (s : state) (t : tool) : string :=
  default (tool_bin t s) (paths cfg !! tool_name t).

(** The version invocation of each tool *)
Definition probe_argv (t : tool) (bin : string) : list string :=
  match t with
  | Terraform => [bin; "--version"]
  | Kops => [bin; "version"]
  | Helm => [bin; "version"; "--client"]
  | Kubectl => [bin; "version"; "--client"]
  end.

Definition probe_commands (cfg : config) (s : state) (ts : list tool)
  : list (list string) :=
  map (fun t => probe_argv t (resolved cfg s t)) ts.

(** The two statements of [set_binary_paths] for one tool *)
Definition probe_tool (w : World) (cfg : config) (t : tool) : M unit :=
  (match paths cfg !! tool_name t with
   | Some p => set_tool_bin t p
   | None => ret tt
   end);;
  try_except
    (bin ← gets (tool_bin t); check_output w (probe_argv t bin);; ret tt)
    [(is_Exception, fun e =>
        raise (IOError (tool_name t +:+ " executable not valid: "
                        +:+ str_exn w e)))].

(** The probes stop at the first that fails: the results are those of
    the version invocations of a prefix of the tools, all but possibly
    the last successful; the probing returns when every tool answered,
    and otherwise raises an [IOError] whose message starts with the name
    of the tool that failed. *)
Definition probes_stop (w : World) (cfg : config) (s : state) (ts : list tool)
  (results : list proc_result) (o : outcome unit) : Prop :=
  match o with
  | Ret _ =>
      length results = length ts
      ∧ Forall (fun r => succeeded r = true) results
  | Raise e =>
      ∃ before r t cause,
        results = before ++ [r]
        ∧ Forall (fun r => succeeded r = true) before
        ∧ ts !! length before = Some t
        ∧ proc_error (probe_argv t (resolved cfg s t)) r = Some cause
        ∧ e = IOError (tool_name t +:+ " executable not valid: "
                       +:+ str_exn w cause)
  | OutOfFuel => False
  end.

(** The statements of [cli] before [set_binary_paths] *)
Definition load_and_validate (w : World) (values : string) : M config :=
  cfg ←
    try_except (get_config w values)
      [(is_IOError, fun e =>
          print w Stderr ("Failed to read values file: " +:+ str_exn w e);;
          sys_exit 1);
       (is_YAMLError, fun e =>
          print w Stderr ("Failed to parse values file: " +:+ str_exn w e);;
          sys_exit 1)];
  try_except (validate_config w cfg)
    [(is_Exception, fun e =>
        print w Stderr ("Config validation failed: " +:+ str_exn w e);;
        sys_exit 1)];;
  ret cfg.

(** *** The update flow *)

Definition update_prompt (w : World) (cluster_name : json) : string :=
  "Are you sure you want to update " +:+ str_json w cluster_name +:+ "?".

(** Neither a subprocess nor a step of rendering *)
Definition is_check (e : event) : Prop :=
  is_exec e = false ∧ is_rendering e = false.

(** *** The state file *)

Definition state_file_path (output_dir : string) : string :=
  output_dir +:+ "/terraform.tfstate".

(** A subprocess whose first argument is [apply] is [apply] on the output
    directory with [-state=<output_dir>/terraform.tfstate], or [apply -f]
    on a file (the manifest given to kubectl). *)
Definition apply_shape (output_dir : string) (e : event) : Prop :=
  ∀ argv r,
    e = EvExec argv r →
    argv !! 1%nat = Some "apply" →
    (∃ bin,
       argv = [bin; "apply"; "-state=" +:+ state_file_path output_dir;
               output_dir])
    ∨ ∃ bin file, argv = [bin; "apply"; "-f"; file].

(** A subprocess whose first argument is [destroy] has [-force] and the
    output directory as its only other arguments. *)
Definition destroy_shape (output_dir : string) (e : event) : Prop :=
  ∀ argv r,
    e = EvExec argv r →
    argv !! 1%nat = Some "destroy" →
    ∃ bin, argv = [bin; "destroy"; "-force"; output_dir].

(** The events of a poller: the clock, messages, pauses, and subprocesses
    whose first argument is [version] *)
Definition poller_event (e : event) : Prop :=
  match e with
  | EvTime _ | EvPrint _ _ | EvSleep _ => True
  | EvExec argv _ => argv !! 1%nat = Some "version"
  | _ => False
  end.

(** *** Enrichment from the infrastructure state *)

Definition enriched_keys : list string :=
  ["VPCID"; "PublicNATGatewayID"; "NodeSubnetID"; "PublicSubnetID"].

(** The region and the availability zone, one after the other *)
Definition region_of (w : World) (cc : gmap string json) : option string :=
  match cc !! "AWSRegion", cc !! "AWSAZ1" with
  | Some region, Some az => Some (str_json w region +:+ str_json w az)
  | _, _ => None
  end.

(** The name of the resource entry that holds the identifier for a key:
    [aws_vpc.<ShortName>] for the VPC, resource type and a name that ends
    in the region for the other three *)
Definition resource_name (w : World) (cc : gmap string json) (key : string)
  : option string :=
  if decide (key = "VPCID") then
    match cc !! "ShortName" with
    | Some (JStr short_name) => Some ("aws_vpc." +:+ short_name)
    | _ => None
    end
  else if decide (key = "PublicNATGatewayID") then
    (fun region => "aws_nat_gateway.public-" +:+ region) <$> region_of w cc
  else if decide (key = "NodeSubnetID") then
    (fun region => "aws_subnet.nodes-" +:+ region) <$> region_of w cc
  else if decide (key = "PublicSubnetID") then
    (fun region => "aws_subnet.public-" +:+ region) <$> region_of w cc
  else None.

(** The resources of the first module of a state file *)
Definition state_resources (tf_state : json) : option json :=
  match tf_state with
  | JObj top =>
      match top !! "modules" with
      | Some (JArr (JObj first_module :: _)) => first_module !! "resources"
      | _ => None
      end
  | _ => None
  end.

(** The identifier of a resource entry: its [primary.id] *)
Definition entry_id (tf_resources : json) (name : string) : option json :=
  match tf_resources with
  | JObj entries =>
      match entries !! name with
      | Some (JObj entry) =>
          match entry !! "primary" with
          | Some (JObj primary) => primary !! "id"
          | _ => None
          end
      | _ => None
      end
  | _ => None
  end.

Definition state_resource_id (tf_state : json) (name : string)
  : option json :=
  match state_resources tf_state with
  | Some tf_resources => entry_id tf_resources name
  | None => None
  end.

(** The state file has what the enrichment of a dictionary reads: the
    resources of a first module, and, when one of the four keys is
    absent, the region fields and the entry for each absent key. *)
Definition enrichable (w : World) (tf_state : json) (cc : gmap string json)
  : Prop :=
  is_Some (state_resources tf_state)
  ∧ is_Some (region_of w cc)
  ∧ ∀ key, key ∈ enriched_keys → cc !! key = None →
      ∃ name id,
        resource_name w cc key = Some name
        ∧ state_resource_id tf_state name = Some id.

(** One [if] statement of the enrichment *)
Definition fill_absent (key : string) (name : M string) (tf_resources : json)
  : M unit :=
  present ← cc_mem key;
  if negb present then
    n ← name;
    id ← lift (resource_id tf_resources n);
    cc_set key id
  else ret tt.

(** The statements of [generate_kops_config] on the loaded state *)
Definition enrichment (w : World) (tf_state : json) : M unit :=
  tf_modules ← lift (getitem tf_state "modules");
  tf_module ← lift (getitem_0 tf_modules);
  tf_resources ← lift (getitem tf_module "resources");
  aws_region ← cc_get "AWSRegion";
  aws_az1 ← cc_get "AWSAZ1";
  let region := str_json w aws_region +:+ str_json w aws_az1 in
  fill_absent "VPCID"
    (short_name ← cc_get "ShortName"; lift (str_add "aws_vpc." short_name))
    tf_resources;;
  fill_absent "PublicNATGatewayID"
    (ret ("aws_nat_gateway.public-" +:+ region)) tf_resources;;
  fill_absent "NodeSubnetID"
    (ret ("aws_subnet.nodes-" +:+ region)) tf_resources;;
  fill_absent "PublicSubnetID"
    (ret ("aws_subnet.public-" +:+ region)) tf_resources.

(** The statements of [generate_kops_config] after the enrichment *)
Definition render_kops_config (w : World)
  (kops_template_path output_dir : string) : M string :=
  kops_template ← env_get_template w kops_template_path;
  let kops_config_path := output_dir +:+ "/kops.config" in
  open_write w kops_config_path;;
  values ← gets cluster_config;
  kops_config ← lift (kops_template values);
  file_write w kops_config_path kops_config;;
  ret kops_config_path.

(** The dictionary [config['clusterConfig']] is left as it is. *)
Definition same_cluster_config : relation state :=
  fun s s' => cluster_config s' = cluster_config s.

(** *** Validation *)

(** The keys of [paths] whose files [validate_config] looks for *)
Definition validated_keys : list string :=
  ["sshPublicKeyPath"; "terraformTemplatePath"; "kopsTemplatePath";
   "terraform"; "kops"].

(** A test for a file is a test of the path under one of these keys. *)
Definition validated_path (cfg : config) (e : event) : Prop :=
  ∀ path found,
    e = EvIsFile path found →
    ∃ key, key ∈ validated_keys ∧ paths cfg !! key = Some path.

(** *** Variations of the concrete environment *)

Definition with_isfile (f : list event → string → bool) (w : World)
  : World :=
  {| w_exec := w_exec w;
     w_isfile := f;
     w_isdir := w_isdir w;
     w_load_yaml := w_load_yaml w;
     w_load_schema := w_load_schema w;
     w_load_json := w_load_json w;
     w_json_loads := w_json_loads w;
     w_get_template := w_get_template w;
     w_open_write := w_open_write w;
     w_confirm := w_confirm w;
     w_lag := w_lag w;
     w_str := w_str w;
     w_str_exn := w_str_exn w |}.

Definition with_paths (p : gmap string string) (cfg : config) : config :=
  {| paths := p;
     clusterConfig := clusterConfig cfg;
     chartRepos := chartRepos cfg;
     charts := charts cfg |}.

(** A configuration that overrides the path of one tool *)
Definition override (key path : string) : config :=
  with_paths (<[ key := path ]> demo_paths) demo_config.

(** Every file is there but one *)
Definition missing (path : string) : World :=
  with_isfile (fun _ p => negb (String.eqb p path)) calm.

(** Every tool succeeds but [kubectl apply], which exits with status 1 *)
Definition apply_fails : World :=
  with_exec
    (fun _ argv =>
       if bool_decide (argv !! 1%nat = Some "apply"
                       ∧ argv !! 2%nat = Some "-f")
       then Exited 1 ""
       else Exited 0 "{}")
    calm.

(** No tool can be launched *)
Definition unreachable : World :=
  with_exec (fun _ _ => LaunchFailed "No such file or directory") calm.

(** What the script itself printed on the error stream *)
Fixpoint stderr_lines (l : list event) : list string :=
  match l with
  | [] => []
  | EvPrint Stderr msg :: l' => msg :: stderr_lines l'
  | _ :: l' => stderr_lines l'
  end.

(** The uncaught exceptions that reached the interpreter *)
Fixpoint tracebacks (l : list event) : list exn :=
  match l with
  | [] => []
  | EvTraceback e :: l' => e :: tracebacks l'
  | _ :: l' => tracebacks l'
  end.

(** *** The group callback *)

Definition with_load_yaml (f : list event → string → result config)
  (w : World) : World :=
  {| w_exec := w_exec w;
     w_isfile := w_isfile w;
     w_isdir := w_isdir w;
     w_load_yaml := f;
     w_load_schema := w_load_schema w;
     w_load_json := w_load_json w;
     w_json_loads := w_json_loads w;
     w_get_template := w_get_template w;
     w_open_write := w_open_write w;
     w_confirm := w_confirm w;
     w_lag := w_lag w;
     w_str := w_str w;
     w_str_exn := w_str_exn w |}.

(** The values file cannot be opened *)
Definition no_values_file : World :=
  with_load_yaml (fun _ _ => Err (IOError "No such file or directory")) calm.

(** A test of the file system *)
Definition is_path_test (e : event) : bool :=
  match e with
  | EvIsFile _ _ | EvIsDir _ _ => true
  | _ => false
  end.

(** *** The tests of validation *)

(** The tests of the overridden binaries that [validate_config] makes
    when it returns *)
Definition override_tests (cfg : config) : list event :=
  match paths cfg !! "terraform" with
  | Some p => [EvIsFile p true]
  | None => []
  end
  ++ match paths cfg !! "kops" with
     | Some p => [EvIsFile p true]
     | None => []
     end.

(** What [validate_file_exists] is given as the context of its message *)
Definition file_contexts : list string :=
  ["SSH Public Key"; "Terraform Template"; "Kops Template";
   "terraform binary"; "kops binary"].

(** The output directory is not there *)
Definition no_output_dir : World :=
  {| w_exec := w_exec calm;
     w_isfile := w_isfile calm;
     w_isdir := fun _ _ => false;
     w_load_yaml := w_load_yaml calm;
     w_load_schema := w_load_schema calm;
     w_load_json := w_load_json calm;
     w_json_loads := w_json_loads calm;
     w_get_template := w_get_template calm;
     w_open_write := w_open_write calm;
     w_confirm := w_confirm calm;
     w_lag := w_lag calm;
     w_str := w_str calm;
     w_str_exn := w_str_exn calm |}.

(** *** Rendering *)

Definition terraform_config_path (output_path : string) : string :=
  output_path +:+ "/networking.tf".

Definition kops_config_path (output_dir : string) : string :=
  output_dir +:+ "/kops.config".

(** A cluster configuration that gives the four identifiers itself *)
Definition given_cluster_config : gmap string json :=
  <[ "VPCID" := JStr "vpc-user" ]>
  (<[ "PublicNATGatewayID" := JStr "nat-user" ]>
  (<[ "NodeSubnetID" := JStr "subnet-n-user" ]>
  (<[ "PublicSubnetID" := JStr "subnet-p-user" ]> demo_cluster_config))).

Definition with_load_json (f : list event → string → result json)
  (w : World) : World :=
  {| w_exec := w_exec w;
     w_isfile := w_isfile w;
     w_isdir := w_isdir w;
     w_load_yaml := w_load_yaml w;
     w_load_schema := w_load_schema w;
     w_load_json := f;
     w_json_loads := w_json_loads w;
     w_get_template := w_get_template w;
     w_open_write := w_open_write w;
     w_confirm := w_confirm w;
     w_lag := w_lag w;
     w_str := w_str w;
     w_str_exn := w_str_exn w |}.

(** The state file of an infrastructure without modules *)
Definition empty_tf_state : World :=
  with_load_json (fun _ _ => Ok (JObj {[ "modules" := JArr [] ]})) calm.

(** *** Command lines carried out in order *)

(** The subprocesses of a trace with their results, in order *)
Fixpoint runs (l : list event) : list (list string * proc_result) :=
  match l with
  | [] => []
  | EvExec argv r :: l' => (argv, r) :: runs l'
  | _ :: l' => runs l'
  end.

(** [in_order cmds rs complete]: the subprocesses [rs] are the command
    lines [cmds] taken in order, each started only after the one before
    it exited with status zero, and none started after one that failed.
    [complete] tells whether every command line was run and succeeded. *)
Inductive in_order :
  list (list string) → list (list string * proc_result) → bool → Prop :=
| in_order_done : in_order [] [] true
| in_order_stop (cmds : list (list string)) : in_order cmds [] false
| in_order_fail (cmd : list string) (cmds : list (list string))
    (r : proc_result) :
    succeeded r = false → in_order (cmd :: cmds) [(cmd, r)] false
| in_order_next (cmd : list string) (cmds : list (list string))
    (r : proc_result) (rs : list (list string * proc_result)) (b : bool) :
    succeeded r = true →
    in_order cmds rs b →
    in_order (cmd :: cmds) ((cmd, r) :: rs) b.

Definition is_ret {A} (o : outcome A) : bool :=
  match o with
  | Ret _ => true
  | _ => false
  end.

(** Every key of the cluster configuration keeps its value. *)
Definition keeps_keys : relation state :=
  fun s s' =>
    ∀ key v, cluster_config s !! key = Some v →
             cluster_config s' !! key = Some v.

(** What holds of the state all along a flow that started in [s0]: the
    paths of the tools are those of [s0], and so are the values of the
    keys that the cluster configuration had in [s0]. *)
Definition settled (s0 s : state) : Prop :=
  tools s = tools s0 ∧ keeps_keys s0 s.

(** From a state of a flow that started in [s0], the computation runs
    the command lines [cmds] in order until one fails, it returns only
    when all of them succeeded, and what it returns satisfies [post]. *)
Definition carries_out {A} (s0 : state) (cmds : list (list string))
  (m : M A) (post : A → Prop) : Prop :=
  ∀ s, settled s0 s →
    ∃ l, st_trace (snd (m s)) = st_trace s ++ l
         ∧ settled s0 (snd (m s))
         ∧ in_order cmds (runs l) (is_ret (fst (m s)))
         ∧ ∀ a, fst (m s) = Ret a → post a.

Definition terraform_apply_argv (s : state) (out : string) : list string :=
  [terraform_bin s; "apply"; "-state=" +:+ state_file_path out; out].

Definition kops_create_argv (s : state) (out url : string) : list string :=
  [kops_bin s; "create"; "-f"; kops_config_path out; "--state"; url].

Definition kops_secret_argv (s : state) (name key_path url : string)
  : list string :=
  [kops_bin s; "create"; "secret"; "--name"; name; "sshpublickey"; "admin";
   "-i"; key_path; "--state"; url].

Definition kops_update_argv (s : state) (name url : string) : list string :=
  [kops_bin s; "update"; "cluster"; "--name"; name; "--state"; url; "--yes"].

Definition kops_replace_argv (s : state) (out url : string) : list string :=
  [kops_bin s; "replace"; "cluster"; "-f"; kops_config_path out; "--state";
   url].

Definition kops_rolling_update_argv (s : state) (name url : string)
  : list string :=
  [kops_bin s; "rolling-update"; "cluster"; "--name"; name; "--state"; url;
   "--yes"].

(** The command lines of the [try] statement of [create] *)
Definition create_commands (s : state) (out key_path name url : string)
  : list (list string) :=
  [terraform_apply_argv s out; kops_create_argv s out url;
   kops_secret_argv s name key_path url; kops_update_argv s name url].

(** The command lines of [update] before the rolling update *)
Definition update_commands (s : state) (out name url : string)
  : list (list string) :=
  [terraform_apply_argv s out; kops_replace_argv s out url;
   kops_update_argv s name url].

Definition kubectl_apply_argv (s : state) (permissions : string)
  : list string :=
  [kubectl_bin s; "apply"; "-f"; permissions].

Definition helm_init_argv (s : state) : list string :=
  [helm_bin s; "init"; "--service-account"; "tiller"].

(** *** The rolling update of the update flow *)



Definition rolling_update_prompt : string :=
  "Should I initiate a rolling update?".


Definition with_confirm (f : list event → string → answer) (w : World)
  : World :=
  {| w_exec := w_exec w;
     w_isfile := w_isfile w;
     w_isdir := w_isdir w;
     w_load_yaml := w_load_yaml w;
     w_load_schema := w_load_schema w;
     w_load_json := w_load_json w;
     w_json_loads := w_json_loads w;
     w_get_template := w_get_template w;
     w_open_write := w_open_write w;
     w_confirm := f;
     w_lag := w_lag w;
     w_str := w_str w;
     w_str_exn := w_str_exn w |}.

(** The user accepts the update and declines the rolling update *)
Definition cautious : World :=
  with_confirm
    (fun _ prompt =>
       if String.eqb prompt rolling_update_prompt then AnsNo else AnsYes)
    calm.

(** *** How the flows end *)

(** The computation is never cut short: it has no loop. *)
Definition ends {A} (m : M A) : Prop :=
  ∀ s, fst (m s) ≠ OutOfFuel.

Definition is_traceback (e : event) : bool :=
  match e with
  | EvTraceback _ => true
  | _ => false
  end.

Definition destroy_question (w : World) (cluster_name : json) : string :=
  "Are you sure you want to destroy " +:+ str_json w cluster_name +:+ "?".

(** The commands that ask nothing *)
Definition unattended (cmd : command) : bool :=
  match cmd with
  | CmdCreate _ _ => true
  | CmdUpdate yes => yes
  | CmdDestroy yes => yes
  end.

(** The files that [create] and [update] touch: they write the two
    rendered files of the output directory, read the state file there,
    and load no YAML file and test no path. *)
Definition file_access (out : string) (e : event) : Prop :=
  match e with
  | EvOpenWrite p | EvWrite p _ =>
      p = terraform_config_path out ∨ p = kops_config_path out
  | EvLoadJson p => p = state_file_path out
  | EvLoadYaml _ | EvIsFile _ _ | EvIsDir _ _ => False
  | _ => True
  end.

(** Neither a file nor a template is read, written or tested. *)
Definition touches_no_file (e : event) : Prop :=
  match e with
  | EvOpenWrite _ | EvWrite _ _ | EvLoadJson _ | EvLoadYaml _ | EvIsFile _ _
  | EvIsDir _ _ | EvGetTemplate _ => False
  | _ => True
  end.

(** The user answers yes to every question *)
Definition agreeing : World := with_confirm (fun _ _ => AnsYes) calm.

(** The state in which a command starts when the values are those of the
    concrete configuration *)
Definition demo_state : state :=
  snd (set_cluster_config demo_cluster_config (initial_state 0)).

(** * Proofs *)

(** ** Running the monad *)

Lemma execs_app (l1 l2 : list event) : execs (l1 ++ l2) = execs l1 ++ execs l2.
Proof.
  induction l1 as [|e l1 IH]; [reflexivity|].
  destruct e; simpl; rewrite ?IH; reflexivity.
Qed.

Lemma succeeded_proc_error (argv : list string) (r : proc_result) :
  succeeded r = true ↔ proc_error argv r = None.
Proof. destruct r as [[| |]|]; simpl; split; congruence. Qed.

Ltac mrun :=
  unfold mbind, M_bind, bind, mret, M_ret, ret, raise, lift, gets, sys_exit,
    out_of_fuel in *; simpl in *.



Section Running.

Context (w : World).

Lemma run_subprocess_eq (argv : list string) (s : state) :
  run_subprocess w argv s =
    let r := w_exec w (st_trace s) argv in
    (match r with
     | Exited 0 out => Ret out
     | Exited code _ => Raise (CalledProcessError code argv)
     | LaunchFailed msg => Raise (IOError msg)
     end, logged w (EvExec argv r) 0 s).
Proof.
  unfold run_subprocess, logged. mrun.
  destruct (w_exec w (st_trace s) argv) as [[| |]|]; reflexivity.
Qed.

Lemma check_call_eq (argv : list string) (s : state) :
  check_call w argv s =
    let r := w_exec w (st_trace s) argv in
    (match proc_error argv r with
     | None => Ret tt
     | Some e => Raise e
     end, logged w (EvExec argv r) 0 s).
Proof.
  unfold check_call. mrun. rewrite run_subprocess_eq. simpl.
  destruct (w_exec w (st_trace s) argv) as [[| |]|]; reflexivity.
Qed.

End Running.

(** ** The destroy flow *)

Section Destroy.

Context (w : World).

Lemma destroy_unfold (cfg : config) (yes : bool) :
  destroy w cfg yes = (destroy_prompt w yes;; destroy_body w cfg).
Proof. reflexivity. Qed.





End Destroy.

(** ** Relations that every step of a computation keeps *)

#[global] Instance extends_with_preorder (P : event → Prop) :
  PreOrder (extends_with P).
Proof.
  split.
  - intros s. exists []. rewrite app_nil_r. split; [reflexivity|constructor].
  - intros s1 s2 s3 (l1 & H1 & HP1) (l2 & H2 & HP2).
    exists (l1 ++ l2). rewrite H2, H1, app_assoc. split; [reflexivity|].
    apply Forall_app; auto.
Qed.

#[global] Instance same_cluster_config_preorder :
  PreOrder same_cluster_config.
Proof.
  split.
  - intros s. reflexivity.
  - intros s1 s2 s3 H1 H2. unfold same_cluster_config in *. congruence.
Qed.

#[global] Instance same_tools_preorder : PreOrder same_tools.
Proof.
  split.
  - intros s. reflexivity.
  - intros s1 s2 s3 H1 H2. unfold same_tools in *. congruence.
Qed.

Section Preserves.

Context (w : World) (R : relation state) `{!PreOrder R}.

Lemma preserves_ret {A} (a : A) : preserves R (mret a).
Proof. intros s. reflexivity. Qed.

Lemma preserves_ret' {A} (a : A) : preserves R (ret a).
Proof. intros s. reflexivity. Qed.

Lemma preserves_raise {A} (e : exn) : preserves R (raise e : M A).
Proof. intros s. reflexivity. Qed.

Lemma preserves_sys_exit {A} (code : Z) : preserves R (sys_exit code : M A).
Proof. intros s. reflexivity. Qed.

Lemma preserves_out_of_fuel {A} : preserves R (out_of_fuel : M A).
Proof. intros s. reflexivity. Qed.

Lemma preserves_lift {A} (r : result A) : preserves R (lift r).
Proof. intros s. destruct r; reflexivity. Qed.

Lemma preserves_gets {A} (f : state → A) : preserves R (gets f).
Proof. intros s. reflexivity. Qed.

Lemma preserves_bind {A B} (m : M A) (k : A → M B) :
  preserves R m → (∀ a, preserves R (k a)) → preserves R (m ≫= k).
Proof.
  intros Hm Hk s. unfold mbind, M_bind, bind.
  specialize (Hm s).
  destruct (m s) as [[a|e|] s1]; simpl in *; try assumption.
  etransitivity; [exact Hm|apply Hk].
Qed.

Lemma preserves_try_except {A} (m : M A)
  (hs : list ((exn → bool) * (exn → M A))) :
  preserves R m → Forall (fun ah => ∀ e, preserves R (snd ah e)) hs →
  preserves R (try_except m hs).
Proof.
  intros Hm Hhs s. unfold try_except.
  specialize (Hm s).
  destruct (m s) as [[a|e|] s1]; simpl in *; try assumption.
  assert (Hh : ∀ h, find_handler hs e = Some h → preserves R (h e)).
  { clear -Hhs. induction Hhs as [|[accepts h0] hs Hh0 _ IH]; simpl;
      [discriminate|].
    intros h. destruct (accepts e); [|apply IH].
    intros [= <-]. apply Hh0. }
  destruct (find_handler hs e) as [h|]; simpl; try assumption.
  etransitivity; [exact Hm|apply (Hh h eq_refl)].
Qed.

Lemma preserves_lift_ok {A B} (a : A) (k : A → M B) :
  preserves R (k a) → preserves R (lift (Ok a) ≫= k).
Proof. intros Hk s. apply Hk. Qed.

Lemma preserves_lift_err {A B} (e : exn) (k : A → M B) :
  preserves R (lift (Err e) ≫= k).
Proof. intros s. reflexivity. Qed.

Lemma preserves_lift_bind {A B} (r : result A) (k : A → M B) :
  (∀ a, r = Ok a → preserves R (k a)) → preserves R (lift r ≫= k).
Proof.
  intros Hk s. unfold mbind, M_bind, bind, lift.
  destruct r as [a|e]; [apply (Hk a eq_refl)|reflexivity].
Qed.

Lemma preserves_emit (e : event) (d : Z) :
  (∀ s, R s (logged w e d s)) → preserves R (emit w e d).
Proof. intros He s. apply He. Qed.

Lemma preserves_for_each {A} (l : list A) (body : A → M unit) :
  (∀ x, preserves R (body x)) → preserves R (for_each l body).
Proof.
  intros Hb. induction l as [|x l IH]; simpl.
  - apply preserves_ret'.
  - apply preserves_bind; auto.
Qed.

End Preserves.

Lemma extends_logged (w : World) (P : event → Prop) (e : event) (d : Z)
  (s : state) : P e → extends_with P s (logged w e d s).
Proof.
  intros He. exists [e]. split; [reflexivity|]. repeat constructor. exact He.
Qed.

Lemma extends_same_trace (P : event → Prop) (s s' : state) :
  st_trace s' = st_trace s → extends_with P s s'.
Proof.
  intros H. exists []. rewrite app_nil_r. split; [assumption|constructor].
Qed.

Create HintDb ship discriminated.

#[global] Hint Unfold
  get_config generate_terraform_config generate_kops_config terraform_apply
  terraform_destroy kops_add_cluster kops_add_ssh_key kops_update_cluster
  kops_replace_cluster kops_rolling_update kops_destroy_cluster
  validate_file_exists validate_config set_binary_paths cli install_chart
  install_components create destroy update invoke
  run_subprocess check_call check_output os_path_isfile os_path_isdir print
  time_time time_sleep yaml_load_file yaml_load_schema json_load_file
  json_loads env_get_template open_write file_write click_confirm
  cc_get cc_mem cc_set : ship.

(** Take a computation apart down to the events it records. *)
Ltac preserves_step :=
  lazymatch goal with
  | |- preserves _ (mbind _ (lift (Ok _))) =>
      apply preserves_lift_ok
  | |- preserves _ (mbind _ _) => apply preserves_bind; [apply _| |intros]
  | |- preserves _ (mret _) => apply preserves_ret; apply _
  | |- preserves _ (ret _) => apply preserves_ret'; apply _
  | |- preserves _ (raise _) => apply preserves_raise; apply _
  | |- preserves _ (sys_exit _) => apply preserves_sys_exit; apply _
  | |- preserves _ out_of_fuel => apply preserves_out_of_fuel; apply _
  | |- preserves _ (lift _) => apply preserves_lift; apply _
  | |- preserves _ (gets _) => apply preserves_gets; apply _
  | |- preserves _ (try_except _ _) =>
      apply preserves_try_except;
      [apply _| |repeat constructor; simpl; intros]
  | |- preserves _ (for_each _ _) =>
      apply preserves_for_each; [apply _|intros]
  | |- preserves _ (emit _ _ _) => apply preserves_emit; intros
  | |- preserves _ (if ?b then _ else _) => destruct b
  | |- preserves _ (match ?x with _ => _ end) => destruct x
  | |- preserves _ (set_cluster_config _) => intros ?
  | |- preserves _ (set_terraform_bin _) => intros ?
  | |- preserves _ (set_kops_bin _) => intros ?
  | |- preserves _ (set_helm_bin _) => intros ?
  | |- preserves _ (set_kubectl_bin _) => intros ?
  end.

Ltac preserves_all := autounfold with ship; cbv zeta; repeat preserves_step.

(** The leaves: an event that satisfies the predicate, or no event. *)
Ltac extends_leaf :=
  first [ apply extends_logged; simpl; try reflexivity
        | apply extends_same_trace; reflexivity ].

Ltac quiet := preserves_all; try extends_leaf.

Ltac framed := preserves_all; try reflexivity.

(** ** Steps that start no subprocess *)

Section Quiet.

Context (w : World).

Lemma generate_terraform_config_quiet (template_path output_path : string) :
  preserves no_exec (generate_terraform_config w template_path output_path).
Proof. unfold no_exec. quiet. Qed.

Lemma generate_terraform_config_tools (template_path output_path : string) :
  preserves same_tools (generate_terraform_config w template_path output_path).
Proof. framed. Qed.

Lemma generate_kops_config_quiet (template_path state_path dir : string) :
  preserves no_exec (generate_kops_config w template_path state_path dir).
Proof. unfold no_exec. quiet. Qed.

Lemma generate_kops_config_tools (template_path state_path dir : string) :
  preserves same_tools (generate_kops_config w template_path state_path dir).
Proof. framed. Qed.

Lemma validate_config_quiet (cfg : config) :
  preserves no_exec (validate_config w cfg).
Proof. unfold no_exec. quiet. Qed.

Lemma validate_config_tools (cfg : config) :
  preserves same_tools (validate_config w cfg).
Proof. framed. Qed.

End Quiet.

(** ** The polling loops *)

Lemma mbind_ext {A B} (m : M A) (k1 k2 : A → M B) (s : state) :
  (∀ a s', k1 a s' = k2 a s') → (m ≫= k1) s = (m ≫= k2) s.
Proof.
  intros H. unfold mbind, M_bind, bind.
  destruct (m s) as [[a|e|] s']; auto.
Qed.

Lemma mbind_run {A B} (m : M A) (k : A → M B) (s : state) :
  (m ≫= k) s =
    match m s with
    | (Ret a, s') => k a s'
    | (Raise e, s') => (Raise e, s')
    | (OutOfFuel, s') => (OutOfFuel, s')
    end.
Proof. reflexivity. Qed.

Lemma mbind_assoc {A B C} (m : M A) (f : A → M B) (g : B → M C)
  (s : state) :
  ((m ≫= f) ≫= g) s = (m ≫= (fun a => f a ≫= g)) s.
Proof.
  unfold mbind, M_bind, bind. destruct (m s) as [[a|e|] s']; reflexivity.
Qed.

Lemma mbind_unit (m : M unit) (s : state) : (m;; ret tt) s = m s.
Proof.
  unfold mbind, M_bind, bind. destruct (m s) as [[[]|e|] s']; reflexivity.
Qed.

Section Pollers.

Context (w : World).

Lemma wait_cluster_loop_poll (fuel : nat) (timeout_time : Z) (b : bool)
  (s : state) :
  wait_cluster_loop w fuel timeout_time b s =
  poll_loop w (cluster_probe w) cluster_retry_message 30 fuel timeout_time b s.
Proof.
  revert b s. induction fuel as [|fuel IH]; intros b s; simpl.
  - reflexivity.
  - destruct b; [reflexivity|].
    apply mbind_ext. intros now s1.
    destruct (negb (now <? timeout_time)); [reflexivity|].
    apply mbind_ext. intros b s2.
    apply mbind_ext. intros _ s3. apply IH.
Qed.

Lemma wait_tiller_loop_poll (fuel : nat) (timeout_time : Z) (b : bool)
  (s : state) :
  wait_tiller_loop w fuel timeout_time b s =
  poll_loop w (tiller_probe w) tiller_retry_message 15 fuel timeout_time b s.
Proof.
  revert b s. induction fuel as [|fuel IH]; intros b s; simpl.
  - reflexivity.
  - destruct b; [reflexivity|].
    apply mbind_ext. intros now s1.
    destruct (negb (now <? timeout_time)); [reflexivity|].
    apply mbind_ext. intros b s2.
    apply mbind_ext. intros _ s3. apply IH.
Qed.

Lemma cluster_probe_eq (s : state) :
  cluster_probe w false s =
    let r := w_exec w (st_trace s) (cluster_probe_argv s) in
    (Ret (cluster_answer w r), logged w (EvExec (cluster_probe_argv s) r) 0 s).
Proof.
  unfold cluster_probe, try_except, check_output, json_loads,
    cluster_answer, cluster_probe_argv.
  mrun. rewrite run_subprocess_eq. simpl.
  destruct (w_exec w (st_trace s) _) as [[| |] out|msg]; simpl; try reflexivity.
  destruct (w_json_loads w out) as [v|e]; simpl; [|reflexivity].
  destruct (py_in "serverVersion" v) as [[]|e]; reflexivity.
Qed.

Lemma tiller_probe_eq (s : state) :
  tiller_probe w false s =
    let r := w_exec w (st_trace s) (tiller_probe_argv s) in
    (Ret (succeeded r), logged w (EvExec (tiller_probe_argv s) r) 0 s).
Proof.
  unfold tiller_probe, try_except, tiller_probe_argv.
  mrun. rewrite check_call_eq. simpl.
  destruct (w_exec w (st_trace s) _) as [[| |] out|msg]; reflexivity.
Qed.

End Pollers.

Section PollLoop.

Context (w : World) (probe : bool → M bool) (argv : state → list string)
  (answer : proc_result → bool) (msg : string) (interval : Z).

Hypothesis probe_eq : ∀ s,
  probe false s =
    let r := w_exec w (st_trace s) (argv s) in
    (Ret (answer r), logged w (EvExec (argv s) r) 0 s).

Hypothesis argv_tools : ∀ s s', tools s' = tools s → argv s' = argv s.

Lemma poll_loop_available (fuel : nat) (timeout_time : Z) (s : state) :
  poll_loop w probe msg interval fuel timeout_time true s = (Ret true, s).
Proof. destruct fuel; reflexivity. Qed.

Lemma argv_set (tr : list event) (t : Z) (s : state) :
  argv (set_trace_now tr t s) = argv s.
Proof. apply argv_tools. reflexivity. Qed.

(** With [n] pauses enough to reach the deadline, [n] turns are enough
    fuel, and the loop probes at most [n] times. *)
Lemma poll_loop_spec (n : nat) :
  ∀ (fuel : nat) (timeout_time : Z) (s : state),
    timeout_time - st_now s ≤ Z.of_nat n * (interval * us_per_second) →
    (n ≤ fuel)%nat →
    ∃ b l,
      let run := (poll_loop w probe msg interval fuel timeout_time false s) in
      fst run = Ret b
      ∧ st_trace (snd run) = st_trace s ++ l
      ∧ tools (snd run) = tools s
      ∧ cluster_config (snd run) = cluster_config s
      ∧ poll_trace (argv s) answer msg interval timeout_time b l
      ∧ (length (execs l) ≤ n)%nat
      ∧ (b = true → ∃ h, answer (w_exec w h (argv s)) = true).
Proof.
  unfold us_per_second.
  induction n as [|n IH]; intros fuel timeout_time s Hn Hfuel.
  - exists false, [EvTime (st_now s)].
    assert (Hlt : (st_now s <? timeout_time) = false)
      by (apply Z.ltb_ge; lia).
    destruct fuel; simpl; unfold time_time; mrun; rewrite Hlt; simpl;
      (repeat split; [constructor; lia|lia|discriminate]).
  - destruct fuel as [|fuel]; [lia|].
    simpl. unfold time_time. mrun.
    destruct (st_now s <? timeout_time) eqn:Hlt; simpl.
    + rewrite probe_eq. unfold logged. simpl. rewrite !argv_set.
      match goal with
      | |- context [answer ?r] => destruct (answer r) eqn:Hr
      end; simpl.
      * rewrite poll_loop_available. simpl.
        eexists true, [EvTime (st_now s); EvExec (argv s) _].
        rewrite <- app_assoc. simpl.
        repeat split;
          [constructor; [apply Z.ltb_lt; exact Hlt|exact Hr]|lia|].
        intros _. eexists. exact Hr.
      * unfold print, time_sleep. mrun.
        match goal with
        | |- context [poll_loop _ _ _ _ _ _ _ ?s'] => set (s4 := s')
        end.
        destruct (IH fuel timeout_time s4)
          as (b & l & H1 & H2 & H3 & H4 & H5 & H6 & H7).
        { subst s4. simpl. unfold us_per_second.
          apply Z.ltb_lt in Hlt. lia. }
        { lia. }
        assert (Hargv4 : argv s4 = argv s) by (apply argv_tools; reflexivity).
        rewrite Hargv4 in *.
        eexists b, (EvTime (st_now s) :: EvExec (argv s) _
                    :: EvPrint Stdout msg :: EvSleep interval :: l).
        simpl in *. rewrite H1, H2, H3, H4. subst s4. simpl.
        rewrite <- !app_assoc. simpl.
        repeat split;
          [constructor; [apply Z.ltb_lt; exact Hlt|exact Hr|assumption]
          |lia|assumption].
    + exists false, [EvTime (st_now s)].
      repeat split;
        [constructor; apply Z.ltb_ge; exact Hlt|simpl; lia|discriminate].
Qed.

End PollLoop.

Section PollerSpecs.

Context (w : World).

Lemma cluster_probe_argv_tools (s s' : state) :
  tools s' = tools s → cluster_probe_argv s' = cluster_probe_argv s.
Proof. unfold tools, cluster_probe_argv. intros [= _ _ _ ->]. reflexivity. Qed.

Lemma tiller_probe_argv_tools (s s' : state) :
  tools s' = tools s → tiller_probe_argv s' = tiller_probe_argv s.
Proof. unfold tools, tiller_probe_argv. intros [= _ _ -> _]. reflexivity. Qed.

Lemma wait_cluster_available_spec (fuel : nat) (timeout_minutes : Z)
  (s : state) :
  (Z.to_nat (2 * timeout_minutes) ≤ fuel)%nat →
  ∃ b l,
    let run := (wait_cluster_available w fuel timeout_minutes s) in
    fst run = poller_outcome b
    ∧ st_trace (snd run)
      = st_trace s ++ poller_events s l b cluster_unreachable_message
    ∧ tools (snd run) = tools s
    ∧ cluster_config (snd run) = cluster_config s
    ∧ poll_trace (cluster_probe_argv s) (cluster_answer w)
        cluster_retry_message 30 (deadline s timeout_minutes) b l
    ∧ (length (execs l) ≤ Z.to_nat (2 * timeout_minutes))%nat
    ∧ (b = true →
       ∃ h, cluster_answer w (w_exec w h (cluster_probe_argv s)) = true).
Proof.
  intros Hfuel.
  unfold wait_cluster_available, time_time, poller_events. mrun.
  rewrite wait_cluster_loop_poll.
  match goal with
  | |- context [poll_loop _ _ _ _ _ ?T _ ?s'] =>
      set (s1 := s');
      destruct (poll_loop_spec w (cluster_probe w) cluster_probe_argv
                  (cluster_answer w) cluster_retry_message 30
                  (cluster_probe_eq w) cluster_probe_argv_tools
                  (Z.to_nat (2 * timeout_minutes)) fuel T s1)
        as (b & l & H1 & H2 & H3 & H4 & H5 & H6 & H7)
  end.
  { subst s1. simpl. unfold us_per_second. lia. }
  { exact Hfuel. }
  exists b, l. simpl in *.
  destruct (poll_loop _ _ _ _ _ _ _ s1) as [o s2]. simpl in *. subst o.
  assert (Hargv : cluster_probe_argv s1 = cluster_probe_argv s)
    by (apply cluster_probe_argv_tools; reflexivity).
  rewrite Hargv in *.
  destruct b; unfold print; mrun; rewrite H2; subst s1; simpl;
    rewrite <- ?app_assoc; simpl; rewrite ?app_nil_r; repeat split; auto.
Qed.

Lemma wait_tiller_available_spec (fuel : nat) (timeout_minutes : Z)
  (s : state) :
  (Z.to_nat (4 * timeout_minutes) ≤ fuel)%nat →
  ∃ b l,
    let run := (wait_tiller_available w fuel timeout_minutes s) in
    fst run = poller_outcome b
    ∧ st_trace (snd run)
      = st_trace s ++ poller_events s l b tiller_unreachable_message
    ∧ tools (snd run) = tools s
    ∧ cluster_config (snd run) = cluster_config s
    ∧ poll_trace (tiller_probe_argv s) succeeded tiller_retry_message 15
        (deadline s timeout_minutes) b l
    ∧ (length (execs l) ≤ Z.to_nat (4 * timeout_minutes))%nat
    ∧ (b = true →
       ∃ h, succeeded (w_exec w h (tiller_probe_argv s)) = true).
Proof.
  intros Hfuel.
  unfold wait_tiller_available, time_time, poller_events. mrun.
  rewrite wait_tiller_loop_poll.
  match goal with
  | |- context [poll_loop _ _ _ _ _ ?T _ ?s'] =>
      set (s1 := s');
      destruct (poll_loop_spec w (tiller_probe w) tiller_probe_argv
                  succeeded tiller_retry_message 15
                  (tiller_probe_eq w) tiller_probe_argv_tools
                  (Z.to_nat (4 * timeout_minutes)) fuel T s1)
        as (b & l & H1 & H2 & H3 & H4 & H5 & H6 & H7)
  end.
  { subst s1. simpl. unfold us_per_second. lia. }
  { exact Hfuel. }
  exists b, l. simpl in *.
  destruct (poll_loop _ _ _ _ _ _ _ s1) as [o s2]. simpl in *. subst o.
  assert (Hargv : tiller_probe_argv s1 = tiller_probe_argv s)
    by (apply tiller_probe_argv_tools; reflexivity).
  rewrite Hargv in *.
  destruct b; unfold print; mrun; rewrite H2; subst s1; simpl;
    rewrite <- ?app_assoc; simpl; rewrite ?app_nil_r; repeat split; auto.
Qed.

End PollerSpecs.

(** ** The pollers in the create flow *)

Section CreatePollers.

Context (w : World).

Lemma create_unfold (fuel : nat) (cfg : config) (t1 t2 : Z) (s : state) :
  create w fuel cfg t1 t2 s =
    match create_setup w cfg s with
    | (Ret _, s1) =>
        (wait_cluster_available w fuel t1;;
         install_components w fuel cfg t2) s1
    | (Raise e, s1) => (Raise e, s1)
    | (OutOfFuel, s1) => (OutOfFuel, s1)
    end.
Proof.
  unfold create, create_setup. mrun.
  destruct (dict_get (paths cfg) "outputDir") as [dir|e]; simpl; [|reflexivity].
  match goal with
  | |- context [try_except ?m ?hs s] =>
      destruct (try_except m hs s) as [[[]|e|] s1]
  end; reflexivity.
Qed.

Lemma main_exit_status (fuel : nat) (values : string) (cmd : command)
  (s : state) (code : Z) :
  fst (invoke w fuel values cmd s) = Raise (SystemExit code) →
  fst (main w fuel values cmd s) = Some code.
Proof.
  unfold main. destruct (invoke w fuel values cmd s) as [o s'].
  simpl. intros ->. reflexivity.
Qed.

(** C2. The cluster poller with its pause of 30 seconds and a timeout of
    one minute, against a cluster that never answers: the loop probes at
    most twice, the poller then writes its message to the error stream
    and calls [sys.exit(1)], and a [create] that reached the poller ends
    the process with status 1.  Two turns of the loop are enough fuel.
    The bound rests on the clock of the model, which never runs
    backwards and on which a pause lasts at least 30 seconds. *)
Theorem cluster_poller_two_attempts (fuel : nat) (s : state) :
  (2 ≤ fuel)%nat →
  (∀ h, cluster_answer w (w_exec w h (cluster_probe_argv s)) = false) →
  ∃ l,
    fst (wait_cluster_available w fuel 1 s) = Raise (SystemExit 1)
    ∧ st_trace (snd (wait_cluster_available w fuel 1 s))
      = st_trace s ++ EvTime (st_now s) :: l
          ++ [EvPrint Stderr cluster_unreachable_message]
    ∧ poll_trace (cluster_probe_argv s) (cluster_answer w)
        cluster_retry_message 30 (deadline s 1) false l
    ∧ (length (execs l) ≤ 2)%nat
    ∧ ∀ values cfg tiller_wait_timeout s0 s1,
        cli w values s0 = (Ret cfg, s1) →
        create_setup w cfg s1 = (Ret tt, s) →
        fst (main w fuel values (CmdCreate 1 tiller_wait_timeout) s0)
        = Some 1.
Proof.
  intros Hfuel Hnever.
  destruct (wait_cluster_available_spec w fuel 1 s Hfuel)
    as (b & l & H1 & H2 & _ & _ & H5 & H6 & H7).
  destruct b.
  { destruct (H7 eq_refl) as [h Hh]. rewrite Hnever in Hh. discriminate. }
  exists l. simpl in *. repeat split; try assumption.
  intros values cfg t2 s0 s1 Hcli Hsetup.
  apply main_exit_status. unfold invoke. mrun. rewrite Hcli.
  rewrite create_unfold, Hsetup. mrun.
  destruct (wait_cluster_available w fuel 1 s) as [o s2].
  simpl in H1. subst o. reflexivity.
Qed.

Lemma install_components_poller (fuel : nat) (cfg : config) (t : Z)
  (s : state) :
  install_components w fuel cfg t s =
    match install_tools w cfg s with
    | (Ret _, s1) =>
        (wait_tiller_available w fuel t;; install_loops w cfg) s1
    | (Raise e, s1) => (Raise e, s1)
    | (OutOfFuel, s1) => (OutOfFuel, s1)
    end.
Proof.
  unfold install_components, install_tools, install_loops. mrun.
  destruct (dict_get (paths cfg) "tillerPermissions") as [p|e]; simpl;
    [|reflexivity].
  destruct (check_call w _ s) as [[[]|e|] s1]; simpl; reflexivity.
Qed.

(** Nothing in [create] catches what a poller raises. *)
Lemma create_cluster_poller_raises (fuel : nat) (cfg : config) (t1 t2 : Z)
  (s0 s : state) (e : exn) :
  create_setup w cfg s0 = (Ret tt, s) →
  fst (wait_cluster_available w fuel t1 s) = Raise e →
  fst (create w fuel cfg t1 t2 s0) = Raise e.
Proof.
  intros Hsetup Hwait. rewrite create_unfold, Hsetup, mbind_run.
  destruct (wait_cluster_available w fuel t1 s) as [o s1].
  simpl in Hwait. subst o. reflexivity.
Qed.

Lemma create_tiller_poller_raises (fuel : nat) (cfg : config) (t1 t2 : Z)
  (s0 s1 s2 s : state) (e : exn) :
  create_setup w cfg s0 = (Ret tt, s1) →
  wait_cluster_available w fuel t1 s1 = (Ret tt, s2) →
  install_tools w cfg s2 = (Ret tt, s) →
  fst (wait_tiller_available w fuel t2 s) = Raise e →
  fst (create w fuel cfg t1 t2 s0) = Raise e.
Proof.
  intros Hsetup Hcluster Htools Hwait.
  rewrite create_unfold, Hsetup, mbind_run, Hcluster.
  rewrite install_components_poller, Htools, mbind_run.
  destruct (wait_tiller_available w fuel t2 s) as [o s3].
  simpl in Hwait. subst o. reflexivity.
Qed.

Lemma main_create_exit (fuel : nat) (values : string) (cfg : config)
  (t1 t2 : Z) (s00 s0 : state) (code : Z) :
  cli w values s00 = (Ret cfg, s0) →
  fst (create w fuel cfg t1 t2 s0) = Raise (SystemExit code) →
  fst (main w fuel values (CmdCreate t1 t2) s00) = Some code.
Proof.
  intros Hcli Hcreate. apply main_exit_status.
  unfold invoke. rewrite mbind_run, Hcli. exact Hcreate.
Qed.

(** A loop that gives up has just read the clock, at or past the
    deadline. *)
Lemma poll_trace_gives_up (argv : list string) (answer : proc_result → bool)
  (msg : string) (interval timeout_time : Z) (l : list event) :
  poll_trace argv answer msg interval timeout_time false l →
  ∃ before t, l = before ++ [EvTime t] ∧ timeout_time ≤ t.
Proof.
  intros H. remember false as b eqn:Hb.
  induction H as [t Ht|t r Ht Hr|t r b l Ht Hr H IH]; try discriminate.
  - exists [], t. split; [reflexivity|exact Ht].
  - destruct (IH Hb) as (before & t' & -> & Ht').
    exists (EvTime t :: EvExec argv r :: EvPrint Stdout msg
              :: EvSleep interval :: before), t'.
    split; [reflexivity|exact Ht'].
Qed.

(** C6. Both pollers, for every environment, every timeout and enough
    fuel: the [try] statement of the loop never raises, whatever the probe
    does (a non-zero exit status, a launch failure, output that does not
    parse, a value on which [in] fails all count as not available); the
    loop probes only after a reading of the clock before the deadline,
    which is the clock at the start plus the timeout; every probe that
    leaves the service unavailable is followed by the retry message and
    the pause of the poller (30 and 15 seconds); the poller either
    returns, after an answer that makes the service available, or gives
    up, and it gives up only when the last reading of the clock is at or
    past the deadline: it then writes its own message to the error stream
    and calls [sys.exit(1)], which nothing in [create] catches, so the
    process exits with status 1. *)
Theorem pollers_tolerate_errors_until_timeout (timeout_minutes : Z)
  (s : state) :
  (∀ fuel, (Z.to_nat (2 * timeout_minutes) ≤ fuel)%nat →
     ∃ b l,
       fst (wait_cluster_available w fuel timeout_minutes s)
       = poller_outcome b
       ∧ st_trace (snd (wait_cluster_available w fuel timeout_minutes s))
         = st_trace s ++ poller_events s l b cluster_unreachable_message
       ∧ poll_trace (cluster_probe_argv s) (cluster_answer w)
           cluster_retry_message 30 (deadline s timeout_minutes) b l
       ∧ (b = false →
          ∃ before t,
            l = before ++ [EvTime t] ∧ deadline s timeout_minutes ≤ t))
  ∧ (∀ fuel, (Z.to_nat (4 * timeout_minutes) ≤ fuel)%nat →
     ∃ b l,
       fst (wait_tiller_available w fuel timeout_minutes s)
       = poller_outcome b
       ∧ st_trace (snd (wait_tiller_available w fuel timeout_minutes s))
         = st_trace s ++ poller_events s l b tiller_unreachable_message
       ∧ poll_trace (tiller_probe_argv s) succeeded
           tiller_retry_message 15 (deadline s timeout_minutes) b l
       ∧ (b = false →
          ∃ before t,
            l = before ++ [EvTime t] ∧ deadline s timeout_minutes ≤ t))
  ∧ (∀ s',
       fst (cluster_probe w false s')
       = Ret (cluster_answer w
                (w_exec w (st_trace s') (cluster_probe_argv s'))))
  ∧ (∀ s',
       fst (tiller_probe w false s')
       = Ret (succeeded (w_exec w (st_trace s') (tiller_probe_argv s'))))
  ∧ (∀ fuel values cfg t2 s00 s0,
       cli w values s00 = (Ret cfg, s0) →
       create_setup w cfg s0 = (Ret tt, s) →
       fst (wait_cluster_available w fuel timeout_minutes s)
       = Raise (SystemExit 1) →
       fst (main w fuel values (CmdCreate timeout_minutes t2) s00) = Some 1)
  ∧ (∀ fuel values cfg t1 s00 s0 s1 s2,
       cli w values s00 = (Ret cfg, s0) →
       create_setup w cfg s0 = (Ret tt, s1) →
       wait_cluster_available w fuel t1 s1 = (Ret tt, s2) →
       install_tools w cfg s2 = (Ret tt, s) →
       fst (wait_tiller_available w fuel timeout_minutes s)
       = Raise (SystemExit 1) →
       fst (main w fuel values (CmdCreate t1 timeout_minutes) s00) = Some 1).
Proof.
  split; [|split; [|split; [|split; [|split]]]].
  - intros fuel Hfuel.
    destruct (wait_cluster_available_spec w fuel timeout_minutes s Hfuel)
      as (b & l & H1 & H2 & _ & _ & H5 & _).
    exists b, l. repeat (split; [assumption|]).
    intros ->. apply (poll_trace_gives_up _ _ _ _ _ _ H5).
  - intros fuel Hfuel.
    destruct (wait_tiller_available_spec w fuel timeout_minutes s Hfuel)
      as (b & l & H1 & H2 & _ & _ & H5 & _).
    exists b, l. repeat (split; [assumption|]).
    intros ->. apply (poll_trace_gives_up _ _ _ _ _ _ H5).
  - intros s'. rewrite cluster_probe_eq. reflexivity.
  - intros s'. rewrite tiller_probe_eq. reflexivity.
  - intros fuel values cfg t2 s00 s0 Hcli Hsetup Hwait.
    apply (main_create_exit fuel values cfg _ _ s00 s0 1 Hcli).
    apply (create_cluster_poller_raises fuel cfg _ _ s0 s _ Hsetup Hwait).
  - intros fuel values cfg t1 s00 s0 s1 s2 Hcli Hsetup Hcluster Htools Hwait.
    apply (main_create_exit fuel values cfg _ _ s00 s0 1 Hcli).
    apply (create_tiller_poller_raises fuel cfg _ _ s0 s1 s2 s _
             Hsetup Hcluster Htools Hwait).
Qed.

End CreatePollers.

(** ** The chart installer *)

Section Charts.

Context (w : World).

Lemma check_call_each_spec (cmds : list (list string)) (s : state) :
  ∃ results,
    st_trace (snd (check_call_each w cmds s))
    = st_trace s ++ zip_with EvExec cmds results
    ∧ tools (snd (check_call_each w cmds s)) = tools s
    ∧ stops_at_first_failure cmds results (fst (check_call_each w cmds s)).
Proof.
  unfold check_call_each.
  revert s. induction cmds as [|cmd cmds IH]; intros s; simpl.
  - exists []. rewrite app_nil_r. repeat split. constructor.
  - mrun. rewrite check_call_eq. simpl.
    set (r := w_exec w (st_trace s) cmd).
    destruct (proc_error cmd r) as [e|] eqn:He; simpl.
    + exists [r]. repeat split; [destruct cmds; reflexivity|].
      exists [], r, cmd. repeat split; [constructor|assumption].
    + destruct (IH (logged w (EvExec cmd r) 0 s)) as (rs & H1 & H2 & H3).
      exists (r :: rs). rewrite H1, H2. simpl. rewrite <- app_assoc.
      repeat split.
      apply succeeded_proc_error in He.
      destruct (fst (for_each cmds (check_call w) _)) as [[]|e|]; simpl in *.
      * destruct H3 as [Hlen Hall]. split; [congruence|].
        constructor; assumption.
      * destruct H3 as (pre & r' & cmd' & -> & Hpre & Hcmd & Herr).
        exists (r :: pre), r', cmd'. repeat split; try assumption.
        constructor; assumption.
      * assumption.
Qed.

Lemma for_each_app {A} (l1 l2 : list A) (body : A → M unit) (s : state) :
  for_each (l1 ++ l2) body s = (for_each l1 body;; for_each l2 body) s.
Proof.
  revert s. induction l1 as [|x l1 IH]; intros s; simpl.
  - reflexivity.
  - mrun. destruct (body x s) as [[[]|e|] s1]; simpl; try reflexivity.
    rewrite IH. reflexivity.
Qed.

Lemma for_each_helm {A} (g : string → A → list string) (body : A → M unit)
  (l : list A) (s : state) :
  (∀ x s', body x s' = check_call w (g (helm_bin s') x) s') →
  for_each l body s = check_call_each w (map (g (helm_bin s)) l) s.
Proof.
  intros Hbody. unfold check_call_each.
  revert s. induction l as [|x l IH]; intros s; simpl.
  - reflexivity.
  - mrun. rewrite Hbody, check_call_eq. simpl.
    destruct (proc_error _ _); [reflexivity|].
    rewrite IH. reflexivity.
Qed.

Lemma install_chart_eq (c : chart) (s : state) :
  install_chart w (chart_name c) (chart_release c) (chart_namespace c)
    (chart_overrides c) s
  = check_call w (chart_install_argv (helm_bin s) c) s.
Proof.
  unfold install_chart, chart_install_argv. mrun.
  destruct (chart_overrides c) as [o|]; simpl; [|reflexivity].
  destruct (String.eqb o ""); reflexivity.
Qed.

Lemma install_loops_eq (cfg : config) (s : state) :
  install_loops w cfg s
  = check_call_each w (chart_commands (helm_bin s) cfg) s.
Proof.
  unfold chart_commands, check_call_each. rewrite for_each_app.
  assert (Hrepos :
    (match chartRepos cfg with
     | Some repos =>
         for_each repos (fun repo =>
           bin ← gets helm_bin;
           check_call w [bin; "repo"; "add"; repo_name repo; repo_url repo])
     | None => ret tt
     end) s
    = check_call_each w
        (map (repo_add_argv (helm_bin s)) (default [] (chartRepos cfg))) s).
  { destruct (chartRepos cfg) as [repos|]; simpl; [|reflexivity].
    apply for_each_helm. reflexivity. }
  assert (Hcharts : ∀ s1,
    (match charts cfg with
     | Some cs =>
         for_each cs (fun chart =>
           let overrides := chart_overrides chart in
           install_chart w (chart_name chart) (chart_release chart)
             (chart_namespace chart) overrides)
     | None => ret tt
     end) s1
    = check_call_each w
        (map (chart_install_argv (helm_bin s1)) (default [] (charts cfg))) s1).
  { intros s1. destruct (charts cfg) as [cs|]; simpl; [|reflexivity].
    apply for_each_helm. intros c s'. apply install_chart_eq. }
  unfold install_loops. rewrite !mbind_run, Hrepos.
  destruct (check_call_each_spec
              (map (repo_add_argv (helm_bin s)) (default [] (chartRepos cfg)))
              s) as (rs & _ & Htools & _).
  unfold check_call_each in *.
  destruct (for_each _ (check_call w) s) as [[[]|e|] s1];
    simpl in *; try reflexivity.
  rewrite Hcharts. unfold tools in Htools.
  injection Htools as _ _ -> _. reflexivity.
Qed.

Lemma install_components_unfold (fuel : nat) (cfg : config) (t : Z)
  (s : state) :
  install_components w fuel cfg t s =
    match install_setup w fuel cfg t s with
    | (Ret _, s1) => install_loops w cfg s1
    | (Raise e, s1) => (Raise e, s1)
    | (OutOfFuel, s1) => (OutOfFuel, s1)
    end.
Proof.
  unfold install_components, install_setup, install_loops. mrun.
  destruct (dict_get (paths cfg) "tillerPermissions") as [p|e]; simpl;
    [|reflexivity].
  destruct (check_call w _ s) as [[[]|e|] s1]; simpl; try reflexivity.
  destruct (check_call w _ s1) as [[[]|e|] s2]; simpl; reflexivity.
Qed.

(** C9. The two loops of [install_components] run [helm repo add] for
    the configured repositories in their order, then [helm install] for
    the configured charts in their order, and nothing else: the
    subprocesses are a prefix of that list.  The loops return when every
    command was run and succeeded; otherwise the last command run is the
    first that failed, its error is raised, no later command is attempted
    and nothing is run to undo the earlier ones. *)
Theorem charts_installed_in_order (cfg : config) (s : state) :
  (∃ results,
     st_trace (snd (install_loops w cfg s))
     = st_trace s
         ++ zip_with EvExec (chart_commands (helm_bin s) cfg) results
     ∧ stops_at_first_failure (chart_commands (helm_bin s) cfg) results
         (fst (install_loops w cfg s)))
  ∧ ∀ fuel tiller_wait_timeout s0,
      install_components w fuel cfg tiller_wait_timeout s0 =
        match install_setup w fuel cfg tiller_wait_timeout s0 with
        | (Ret _, s1) => install_loops w cfg s1
        | (Raise e, s1) => (Raise e, s1)
        | (OutOfFuel, s1) => (OutOfFuel, s1)
        end.
Proof.
  split.
  - rewrite install_loops_eq.
    destruct (check_call_each_spec (chart_commands (helm_bin s) cfg) s)
      as (results & H1 & _ & H3).
    exists results. split; assumption.
  - intros fuel t s0. apply install_components_unfold.
Qed.

End Charts.

(** ** Binary resolution and the version probes *)

Section Probes.

Context (w : World).

Lemma set_binary_paths_for_each (cfg : config) (s : state) :
  set_binary_paths w cfg s = for_each all_tools (probe_tool w cfg) s.
Proof.
  unfold set_binary_paths, all_tools, for_each, probe_tool.
  do 3 (rewrite mbind_assoc; apply mbind_ext; intros _ ?;
        apply mbind_ext; intros _ ?).
  rewrite mbind_assoc; apply mbind_ext; intros _ ?.
  rewrite mbind_unit. reflexivity.
Qed.

Lemma probe_tool_eq (cfg : config) (t : tool) (s : state) :
  ∃ s',
    probe_tool w cfg t s =
      (let argv := probe_argv t (resolved cfg s t) in
       match proc_error argv (w_exec w (st_trace s) argv) with
       | None => Ret tt
       | Some cause =>
           Raise (IOError (tool_name t +:+ " executable not valid: "
                           +:+ str_exn w cause))
       end, s')
    ∧ st_trace s'
      = st_trace s
          ++ [EvExec (probe_argv t (resolved cfg s t))
                (w_exec w (st_trace s) (probe_argv t (resolved cfg s t)))]
    ∧ ∀ t', resolved cfg s' t' = resolved cfg s t'.
Proof.
  unfold probe_tool, resolved, try_except, check_output.
  destruct t; simpl;
    (destruct (paths cfg !! _) as [p|] eqn:Hp; mrun;
     rewrite run_subprocess_eq; simpl;
     destruct (w_exec w (st_trace s) _) as [[| |] out|msg]; simpl;
     (eexists; split; [reflexivity|]; split; [reflexivity|];
      intros []; simpl; rewrite ?Hp; reflexivity)).
Qed.

Lemma probes_spec (cfg : config) (ts : list tool) (s : state) :
  ∃ results,
    st_trace (snd (for_each ts (probe_tool w cfg) s))
    = st_trace s ++ zip_with EvExec (probe_commands cfg s ts) results
    ∧ probes_stop w cfg s ts results
        (fst (for_each ts (probe_tool w cfg) s)).
Proof.
  revert s. induction ts as [|t ts IH]; intros s; simpl.
  - exists []. rewrite app_nil_r. repeat split. constructor.
  - rewrite mbind_run.
    destruct (probe_tool_eq cfg t s) as (s' & -> & Htrace & Hres).
    simpl.
    set (argv := probe_argv t (resolved cfg s t)) in *.
    set (r := w_exec w (st_trace s) argv) in *.
    destruct (proc_error argv r) as [cause|] eqn:He; simpl.
    + exists [r]. rewrite Htrace.
      split; [destruct ts; reflexivity|].
      exists [], r, t, cause. repeat split; [constructor|assumption].
    + destruct (IH s') as (rs & H1 & H2).
      exists (r :: rs). rewrite H1, Htrace. simpl. rewrite <- app_assoc.
      assert (Hcmds : probe_commands cfg s' ts = probe_commands cfg s ts).
      { unfold probe_commands. apply map_ext. intros t'. rewrite Hres.
        reflexivity. }
      rewrite Hcmds. split; [reflexivity|].
      apply succeeded_proc_error in He.
      destruct (fst (for_each ts (probe_tool w cfg) s')) as [[]|e|];
        simpl in *.
      * destruct H2 as [Hlen Hall]. split; [congruence|].
        constructor; assumption.
      * destruct H2 as (pre & r' & t' & cause & -> & Hpre & Ht & Herr & ->).
        exists (r :: pre), r', t', cause. rewrite Hres in Herr.
        repeat split; try assumption. constructor; assumption.
      * assumption.
Qed.

Lemma cli_unfold (values : string) (s : state) :
  cli w values s =
    match load_and_validate w values s with
    | (Ret cfg, s1) =>
        (set_binary_paths w cfg;;
         set_cluster_config (clusterConfig cfg);;
         ret cfg) s1
    | (Raise e, s1) => (Raise e, s1)
    | (OutOfFuel, s1) => (OutOfFuel, s1)
    end.
Proof.
  unfold cli, load_and_validate. rewrite !mbind_run.
  destruct (try_except (get_config w values) _ s) as [[cfg|e|] s1];
    try reflexivity.
  rewrite !mbind_run.
  destruct (try_except (validate_config w cfg) _ s1) as [[[]|e|] s2];
    reflexivity.
Qed.

Lemma load_and_validate_quiet (values : string) :
  preserves no_exec (load_and_validate w values).
Proof. unfold load_and_validate, no_exec. quiet. Qed.

Lemma load_and_validate_tools (values : string) :
  preserves same_tools (load_and_validate w values).
Proof. unfold load_and_validate. framed. Qed.

Lemma execs_no_exec (l : list event) :
  Forall (fun e => is_exec e = false) l → execs l = [].
Proof.
  induction 1 as [|e l He _ IH]; [reflexivity|].
  destruct e; simpl in *; try assumption. discriminate.
Qed.

(** C5. After the values file is loaded and validated, which starts no
    subprocess, [set_binary_paths] runs the version invocation of
    terraform, kops, helm and kubectl in that order, each on the path the
    configuration gives for the tool or else on the value of its
    variable.  It stops at the first probe that exits with a non-zero
    status or cannot be launched, with an [IOError] whose message starts
    with the name of that tool; the error is not caught, so the process
    ends with a traceback and status 1 without running the command.  The
    only subprocesses of such a run are version invocations: no apply,
    create or install was attempted. *)
Theorem probe_failure_aborts_before_mutation (values : string) (s0 : state) :
  (∃ pre,
     st_trace (snd (load_and_validate w values s0)) = st_trace s0 ++ pre
     ∧ execs pre = [])
  ∧ ∀ cfg s,
      load_and_validate w values s0 = (Ret cfg, s) →
      ∃ results,
        st_trace (snd (set_binary_paths w cfg s))
        = st_trace s ++ zip_with EvExec (probe_commands cfg s all_tools) results
        ∧ probes_stop w cfg s all_tools results
            (fst (set_binary_paths w cfg s))
        ∧ ∀ e,
            fst (set_binary_paths w cfg s) = Raise e →
            ∀ fuel cmd,
              main w fuel values cmd s0
              = (Some 1,
                 logged w (EvTraceback e) 0 (snd (set_binary_paths w cfg s))).
Proof.
  split.
  - destruct (load_and_validate_quiet values s0) as (pre & Hpre & Hquiet).
    exists pre. split; [assumption|]. apply execs_no_exec. assumption.
  - intros cfg s Hload.
    rewrite set_binary_paths_for_each.
    destruct (probes_spec cfg all_tools s) as (results & Htrace & Hstop).
    exists results. repeat split; try assumption.
    intros e He fuel cmd.
    unfold main, invoke. rewrite mbind_run, cli_unfold, Hload, mbind_run.
    rewrite set_binary_paths_for_each.
    destruct (for_each all_tools (probe_tool w cfg) s) as [o s1].
    simpl in *. subst o.
    destruct Hstop as (pre & r & t & cause & _ & _ & _ & _ & ->).
    reflexivity.
Qed.

End Probes.

(** ** The confirmation of the update flow *)

Section UpdateGate.

Context (w : World).

Lemma load_and_validate_checks (values : string) :
  preserves (extends_with is_check) (load_and_validate w values).
Proof.
  unfold load_and_validate. preserves_all;
    first [ apply extends_logged; split; reflexivity
          | apply extends_same_trace; reflexivity ].
Qed.

Lemma resolved_tools (cfg : config) (s s' : state) (t : tool) :
  tools s' = tools s → resolved cfg s' t = resolved cfg s t.
Proof.
  unfold tools, resolved. intros [= H1 H2 H3 H4].
  destruct t; simpl; congruence.
Qed.

(** Validation reads the output directory, so a configuration that
    passes has one. *)
Lemma validate_config_output_dir (cfg : config) (s : state) :
  fst (validate_config w cfg s) = Ret tt → is_Some (paths cfg !! "outputDir").
Proof.
  destruct (paths cfg !! "outputDir") as [out|] eqn:Hout; [eauto|].
  unfold validate_config, try_except, yaml_load_schema, validate_file_exists,
    os_path_isfile, os_path_isdir, dict_get.
  mrun. rewrite Hout.
  repeat (match goal with
          | |- context [match ?x with _ => _ end] => destruct x; simpl
          end);
    discriminate.
Qed.

Lemma load_and_validate_output_dir (values : string) (cfg : config)
  (s0 s : state) :
  load_and_validate w values s0 = (Ret cfg, s) →
  is_Some (paths cfg !! "outputDir").
Proof.
  unfold load_and_validate. rewrite mbind_run.
  destruct (try_except (get_config w values) _ s0) as [[cfg'|e|] s1];
    try discriminate.
  rewrite mbind_run. unfold try_except at 1.
  pose proof (validate_config_output_dir cfg' s1) as Hdir.
  destruct (validate_config w cfg' s1) as [[[]|e|] s2]; simpl in *.
  - intros [= <- _]. apply Hdir. reflexivity.
  - destruct (is_Exception e); discriminate.
  - discriminate.
Qed.

(** What a [cli] that returns has done: checks, then the four version
    probes. *)
Lemma cli_trace (values : string) (cfg : config) (s0 s : state) :
  cli w values s0 = (Ret cfg, s) →
  ∃ pre results,
    st_trace s
    = st_trace s0 ++ pre
        ++ zip_with EvExec (probe_commands cfg s0 all_tools) results
    ∧ Forall is_check pre
    ∧ cluster_config s = clusterConfig cfg
    ∧ is_Some (paths cfg !! "outputDir").
Proof.
  rewrite cli_unfold.
  destruct (load_and_validate_checks values s0) as (pre & Hpre & Hchecks).
  pose proof (load_and_validate_tools w values s0) as Htools.
  pose proof (fun c s' => load_and_validate_output_dir values c s0 s')
    as Hdir.
  destruct (load_and_validate w values s0) as [[cfg'|e|] s1];
    [|discriminate..].
  specialize (Hdir cfg' s1 eq_refl).
  simpl in Hpre, Htools. rewrite mbind_run, set_binary_paths_for_each.
  destruct (probes_spec w cfg' all_tools s1) as (results & Htrace & _).
  assert (Hcmds : probe_commands cfg' s1 all_tools
                  = probe_commands cfg' s0 all_tools).
  { unfold probe_commands. apply map_ext. intros t.
    rewrite (resolved_tools cfg' s0 s1 t Htools). reflexivity. }
  rewrite Hcmds in Htrace.
  destruct (for_each all_tools (probe_tool w cfg') s1) as [[[]|e|] s2];
    [|discriminate..].
  cbn [fst snd] in Htrace. intros [= -> <-].
  exists pre, results. cbn [st_trace cluster_config set_cluster_config snd].
  rewrite Htrace, Hpre, <- app_assoc. auto.
Qed.

(** C8, as the code has it.  [update] without [--yes], with a user who
    declines: the command raises [click.Abort] straight after the prompt,
    so the command itself renders nothing and starts no subprocess, and
    the process writes [Aborted!] and exits with status 1.  The group
    callback ran before the prompt: the trace of the whole process up to
    the prompt is made of checks followed by the four version probes,
    which are the only subprocesses of the run. *)
Theorem update_declined_aborts (fuel : nat) (values : string)
  (cfg : config) (s0 s : state) (name : json) :
  cli w values s0 = (Ret cfg, s) →
  cluster_config s !! "FullyQualifiedName" = Some name →
  w_confirm w (st_trace s) (update_prompt w name) = AnsNo →
  update w cfg false s
  = (Raise Abort, logged w (EvConfirm (update_prompt w name) AnsNo) 0 s)
  ∧ main w fuel values (CmdUpdate false) s0
    = (Some 1,
       logged w (EvPrint Stderr "Aborted!") 0
         (logged w (EvConfirm (update_prompt w name) AnsNo) 0 s))
  ∧ ∃ pre results,
      st_trace s
      = st_trace s0 ++ pre
          ++ zip_with EvExec (probe_commands cfg s0 all_tools) results
      ∧ Forall is_check pre.
Proof.
  intros Hcli Hname Hno.
  destruct (cli_trace values cfg s0 s Hcli)
    as (pre & results & Htrace & Hchecks & _ & [out Hout]).
  assert (Hupdate : update w cfg false s
    = (Raise Abort, logged w (EvConfirm (update_prompt w name) AnsNo) 0 s)).
  { unfold update, cc_get, dict_get, click_confirm, update_prompt in *.
    mrun. rewrite Hname, Hout. simpl. rewrite Hno. reflexivity. }
  split; [exact Hupdate|]. split.
  - unfold main, invoke. rewrite mbind_run, Hcli, Hupdate. reflexivity.
  - exists pre, results. auto.
Qed.

End UpdateGate.

(** C8, as the specification has it, fails: the environment [calm]
    declines the prompt of [update], and four subprocesses have been
    started by then. *)
Lemma update_declined_after_probes :
  fst (main calm 0 "values.yaml" (CmdUpdate false) (initial_state 0))
  = Some 1
  ∧ st_trace
      (snd (main calm 0 "values.yaml" (CmdUpdate false) (initial_state 0)))
    = [EvLoadYaml "values.yaml"; EvLoadYaml "values.schema";
       EvIsFile "id_rsa.pub" true; EvIsFile "networking.tf.j2" true;
       EvIsFile "kops.config.j2" true; EvIsDir "out" true;
       EvExec ["terraform"; "--version"] (Exited 0 "{}");
       EvExec ["kops"; "version"] (Exited 0 "{}");
       EvExec ["helm"; "version"; "--client"] (Exited 0 "{}");
       EvExec ["kubectl"; "version"; "--client"] (Exited 0 "{}");
       EvConfirm "Are you sure you want to update demo.example.com?" AnsNo;
       EvPrint Stderr "Aborted!"]
  ∧ execs
      (st_trace
         (snd (main calm 0 "values.yaml" (CmdUpdate false) (initial_state 0))))
    ≠ [].
Proof. vm_compute. repeat split. discriminate. Qed.

(** ** Whole flows *)

Lemma dict_get_some {A} (d : gmap string A) (key : string) (v : A) :
  d !! key = Some v → dict_get d key = Ok v.
Proof. unfold dict_get. intros ->. reflexivity. Qed.

Section Flows.

Context (w : World) (R : relation state) `{!PreOrder R}.

Hypothesis poller_events_kept :
  ∀ e d s, poller_event e → R s (logged w e d s).

Lemma wait_cluster_loop_preserves (fuel : nat) (timeout_time : Z) (b : bool) :
  preserves R (wait_cluster_loop w fuel timeout_time b).
Proof.
  revert b. induction fuel as [|fuel IH]; intros b; simpl;
    preserves_all; try apply IH;
    apply poller_events_kept; simpl; auto.
Qed.

Lemma wait_tiller_loop_preserves (fuel : nat) (timeout_time : Z) (b : bool) :
  preserves R (wait_tiller_loop w fuel timeout_time b).
Proof.
  revert b. induction fuel as [|fuel IH]; intros b; simpl;
    preserves_all; try apply IH;
    apply poller_events_kept; simpl; auto.
Qed.

Lemma wait_cluster_available_preserves (fuel : nat) (timeout_minutes : Z) :
  preserves R (wait_cluster_available w fuel timeout_minutes).
Proof.
  unfold wait_cluster_available. preserves_all;
    try apply wait_cluster_loop_preserves;
    apply poller_events_kept; simpl; auto.
Qed.

Lemma wait_tiller_available_preserves (fuel : nat) (timeout_minutes : Z) :
  preserves R (wait_tiller_available w fuel timeout_minutes).
Proof.
  unfold wait_tiller_available. preserves_all;
    try apply wait_tiller_loop_preserves;
    apply poller_events_kept; simpl; auto.
Qed.

End Flows.

Ltac flow_step :=
  lazymatch goal with
  | |- preserves _ (wait_cluster_available _ _ _) =>
      apply wait_cluster_available_preserves; [apply _|intros ? ? ? ?]
  | |- preserves _ (wait_tiller_available _ _ _) =>
      apply wait_tiller_available_preserves; [apply _|intros ? ? ? ?]
  | |- _ => preserves_step
  end.

Ltac flow_all := autounfold with ship; cbv zeta; repeat flow_step.

(** A leaf of a flow for a predicate on the subprocesses whose first
    argument is a given word *)
Ltac shape_leaf :=
  first
    [ apply extends_same_trace; reflexivity
    | apply extends_logged; intros argv r Heq Hsnd;
      first
        [ discriminate Heq
        | subst; match goal with
                 | H : poller_event _ |- _ => simpl in H; congruence
                 end
        | injection Heq as <- <-;
          repeat match type of Hsnd with
                 | context [match ?x with _ => _ end] => destruct x
                 end;
          simpl in Hsnd;
          first [ discriminate Hsnd
                | left; eexists; reflexivity
                | right; do 2 eexists; reflexivity
                | eexists; reflexivity ] ] ].

Lemma string_length_app (a b : string) :
  String.length (a +:+ b) = (String.length a + String.length b)%nat.
Proof.
  induction a as [|c a IH]; simpl; [reflexivity|]. rewrite IH. reflexivity.
Qed.

Section StateFile.

Context (w : World).

(** C10. [terraform_apply] always passes [-state=] with the path it is
    given, and [create] and [update] give it the file [terraform.tfstate]
    of the output directory: in these flows every subprocess whose first
    argument is [apply] is that invocation (or [kubectl apply -f]).
    [terraform_destroy] runs [destroy -force] on the directory and
    nothing more, and that is the only [destroy] of the destroy flow: the
    [-state=] argument of apply is not among its arguments. *)
Theorem state_file_passed_to_apply_only (cfg : config) (out : string) :
  paths cfg !! "outputDir" = Some out →
  (∀ dir state_path s,
     st_trace (snd (terraform_apply w dir state_path s))
     = st_trace s
         ++ [EvExec [terraform_bin s; "apply"; "-state=" +:+ state_path; dir]
               (w_exec w (st_trace s)
                  [terraform_bin s; "apply"; "-state=" +:+ state_path; dir])])
  ∧ (∀ fuel cluster_wait_timeout tiller_wait_timeout,
       preserves (extends_with (apply_shape out))
         (create w fuel cfg cluster_wait_timeout tiller_wait_timeout))
  ∧ (∀ yes, preserves (extends_with (apply_shape out)) (update w cfg yes))
  ∧ (∀ dir s,
       st_trace (snd (terraform_destroy w dir s))
       = st_trace s
           ++ [EvExec (terraform_destroy_argv s dir)
                 (w_exec w (st_trace s) (terraform_destroy_argv s dir))])
  ∧ (∀ yes,
       preserves (extends_with (destroy_shape out)) (destroy w cfg yes))
  ∧ "-state=" +:+ state_file_path out ∉ ["destroy"; "-force"; out].
Proof.
  intros Hout. repeat split.
  - intros dir state_path s. unfold terraform_apply. mrun.
    rewrite check_call_eq. reflexivity.
  - intros fuel t1 t2. unfold create.
    rewrite (dict_get_some _ _ _ Hout). flow_all; shape_leaf.
  - intros yes. unfold update.
    rewrite (dict_get_some _ _ _ Hout). flow_all; shape_leaf.
  - intros dir s. unfold terraform_destroy, terraform_destroy_argv. mrun.
    rewrite check_call_eq. reflexivity.
  - intros yes. unfold destroy.
    rewrite (dict_get_some _ _ _ Hout). flow_all; shape_leaf.
  - unfold state_file_path. intros Hin.
    apply elem_of_cons in Hin as [Hin|Hin];
      [simpl in Hin; discriminate Hin|].
    apply elem_of_cons in Hin as [Hin|Hin];
      [simpl in Hin; discriminate Hin|].
    apply elem_of_cons in Hin as [Hin|Hin].
    + apply (f_equal String.length) in Hin.
      rewrite !string_length_app in Hin. simpl in Hin. lia.
    + apply elem_of_nil in Hin. exact Hin.
Qed.

End StateFile.

(** ** Enrichment of the cluster configuration *)

Section Enrichment.

Context (w : World).

Lemma generate_kops_config_eq (tpl tfp out : string) (s : state) :
  generate_kops_config w tpl tfp out s =
    (tf_state ← json_load_file w tfp;
     enrichment w tf_state;;
     render_kops_config w tpl out) s.
Proof.
  unfold generate_kops_config, enrichment, render_kops_config, fill_absent.
  apply mbind_ext. intros tf s1.
  do 5 (rewrite mbind_assoc; apply mbind_ext; intros ? ?).
  cbv zeta.
  do 3 (rewrite !mbind_assoc; apply mbind_ext; intros [] ?; simpl negb;
        cbv iota;
        (apply mbind_ext || (rewrite !mbind_assoc; apply mbind_ext));
        intros ? ?).
  all: rewrite !mbind_assoc; apply mbind_ext; intros [] ?; reflexivity.
Qed.

Lemma state_resources_chain (tf rs : json) :
  state_resources tf = Some rs ↔
  ∃ tf_modules tf_module,
    getitem tf "modules" = Ok tf_modules
    ∧ getitem_0 tf_modules = Ok tf_module
    ∧ getitem tf_module "resources" = Ok rs.
Proof.
  unfold state_resources, getitem, dict_get. split.
  - destruct tf as [| | | | | |top]; try discriminate.
    destruct (top !! "modules") as [[| | | | |[|[| | | | | |m] ?]|]|];
      try discriminate.
    intros H. do 2 eexists. repeat split. simpl. rewrite H. reflexivity.
  - intros (a & m0 & H1 & H2 & H3).
    destruct tf as [| | | | | |top]; try discriminate.
    destruct (top !! "modules") as [v|]; [|discriminate].
    injection H1 as ->.
    destruct a as [| | | |[|]|[|x ?]|]; simpl in H2; try discriminate;
      injection H2 as <-; try discriminate.
    destruct x as [| | | | | |m]; try discriminate.
    destruct (m !! "resources"); congruence.
Qed.

Lemma resource_id_entry (rs : json) (name : string) (id : json) :
  resource_id rs name = Ok id ↔ entry_id rs name = Some id.
Proof.
  unfold resource_id, entry_id, getitem, dict_get, mbind, result_bind.
  destruct rs as [| | | | | |entries]; try (split; discriminate).
  destruct (entries !! name) as [[| | | | | |entry]|];
    try (split; discriminate).
  destruct (entry !! "primary") as [[| | | | | |primary]|];
    try (split; discriminate).
  destruct (primary !! "id"); split; congruence.
Qed.

Lemma fill_absent_run (key : string) (name : M string) (rs : json)
  (s : state) (rn : outcome string) :
  name s = (rn, s) →
  fill_absent key name rs s =
    match cluster_config s !! key with
    | Some _ => (Ret tt, s)
    | None =>
        match rn with
        | Ret n =>
            match resource_id rs n with
            | Ok id =>
                set_cluster_config (<[key := id]> (cluster_config s)) s
            | Err e => (Raise e, s)
            end
        | Raise e => (Raise e, s)
        | OutOfFuel => (OutOfFuel, s)
        end
    end.
Proof.
  intros Hname. unfold fill_absent, cc_mem, cc_set. rewrite !mbind_run.
  unfold gets, mret, M_ret, ret.
  destruct (cluster_config s !! key) as [v|]; simpl; [reflexivity|].
  rewrite mbind_run, Hname. destruct rn as [n|e|]; try reflexivity.
  rewrite mbind_run. unfold lift.
  destruct (resource_id rs n) as [id|e]; reflexivity.
Qed.

Lemma fill_ret_run (key : string) (n : string) (rs : json) (s : state) :
  fill_absent key (ret n) rs s =
    match cluster_config s !! key with
    | Some _ => (Ret tt, s)
    | None =>
        match resource_id rs n with
        | Ok id => set_cluster_config (<[key := id]> (cluster_config s)) s
        | Err e => (Raise e, s)
        end
    end.
Proof. apply (fill_absent_run key (ret n) rs s (Ret n)). reflexivity. Qed.

Lemma lift_bind_run {A B} (r : result A) (k : A → M B) (s : state) :
  (lift r ≫= k) s =
    match r with
    | Ok a => k a s
    | Err e => (Raise e, s)
    end.
Proof. destruct r; reflexivity. Qed.

Lemma cc_get_bind_run {B} (key : string) (k : json → M B) (s : state) :
  (cc_get key ≫= k) s =
    match cluster_config s !! key with
    | Some v => k v s
    | None => (Raise (KeyError key), s)
    end.
Proof.
  unfold cc_get, dict_get. rewrite mbind_assoc, mbind_run. unfold gets.
  rewrite lift_bind_run. destruct (cluster_config s !! key); reflexivity.
Qed.

Lemma vpc_name_run (s : state) :
  (short_name ← cc_get "ShortName"; lift (str_add "aws_vpc." short_name)) s
  = (match cluster_config s !! "ShortName" with
     | Some v =>
         match str_add "aws_vpc." v with
         | Ok n => Ret n
         | Err e => Raise e
         end
     | None => Raise (KeyError "ShortName")
     end, s).
Proof.
  rewrite cc_get_bind_run.
  destruct (cluster_config s !! "ShortName") as [v|]; [|reflexivity].
  unfold lift. destruct (str_add "aws_vpc." v); reflexivity.
Qed.

Lemma lookup_insert_absent (m : gmap string json) (k key : string)
  (x v : json) :
  m !! k = None → m !! key = Some v → <[k := x]> m !! key = Some v.
Proof.
  intros Hk Hkey. rewrite lookup_insert_ne; [assumption|]. congruence.
Qed.

Lemma resource_name_vpc (cc : gmap string json) :
  resource_name w cc "VPCID" =
    match cc !! "ShortName" with
    | Some (JStr short_name) => Some ("aws_vpc." +:+ short_name)
    | _ => None
    end.
Proof. reflexivity. Qed.

Lemma resource_name_nat (cc : gmap string json) :
  resource_name w cc "PublicNATGatewayID" =
    (fun region => "aws_nat_gateway.public-" +:+ region) <$> region_of w cc.
Proof. reflexivity. Qed.

Lemma resource_name_nodes (cc : gmap string json) :
  resource_name w cc "NodeSubnetID" =
    (fun region => "aws_subnet.nodes-" +:+ region) <$> region_of w cc.
Proof. reflexivity. Qed.

Lemma resource_name_public (cc : gmap string json) :
  resource_name w cc "PublicSubnetID" =
    (fun region => "aws_subnet.public-" +:+ region) <$> region_of w cc.
Proof. reflexivity. Qed.

Lemma str_add_ok (prefix : string) (v : json) (n : string) :
  str_add prefix v = Ok n → ∃ x, v = JStr x ∧ n = prefix +:+ x.
Proof. destruct v; simpl; intros [= <-]. eauto. Qed.

Ltac fill_step K :=
  rewrite ?mbind_run; rewrite (fill_ret_run K); cbn [cluster_config];
  rewrite ?lookup_insert_ne by discriminate;
  let HK := fresh "HK" in
  let Hid := fresh "Hid" in
  destruct (cluster_config _ !! K) as [?|] eqn:HK;
  [|match goal with
    | |- context [match resource_id ?rs ?n with _ => _ end] =>
        destruct (resource_id rs n) as [?|?] eqn:Hid
    end];
  cbn [set_cluster_config].

(** the name of the resource entry of the key in the goal *)
Ltac name_of_key :=
  rewrite ?resource_name_vpc, ?resource_name_nat, ?resource_name_nodes,
    ?resource_name_public;
  first
    [ match goal with
      | H : region_of _ _ = Some _ |- _ => rewrite H; reflexivity
      end
    | match goal with
      | Hsn : _ !! "ShortName" = Some _ |- _ => rewrite Hsn; reflexivity
      end ].

(** the enrichment stopped although the state has an entry for the key *)
Ltac fails_at K :=
  match goal with
  | Hall : ∀ key, key ∈ enriched_keys → _ |- _ =>
      let Hin := fresh in
      assert (Hin : K ∈ enriched_keys)
        by (unfold enriched_keys; repeat constructor);
      destruct (Hall K Hin ltac:(assumption))
        as (name & id & Hname & Hentry);
      rewrite ?resource_name_vpc, ?resource_name_nat, ?resource_name_nodes,
        ?resource_name_public in Hname;
      unfold state_resource_id in Hentry;
      match goal with
      | Hres : state_resources _ = Some _ |- _ => rewrite Hres in Hentry
      end;
      apply resource_id_entry in Hentry;
      repeat match goal with
             | H : region_of _ _ = Some _ |- _ => rewrite H in Hname
             | H : _ !! "ShortName" = _ |- _ => rewrite H in Hname
             end;
      simpl in Hname;
      repeat match type of Hname with
             | context [match ?x with _ => _ end] => destruct x
             end;
      simpl in *; congruence
  end.

Lemma enrichment_spec (tf : json) (s : state) :
  st_trace (snd (enrichment w tf s)) = st_trace s
  ∧ (∀ key v,
       cluster_config s !! key = Some v →
       cluster_config (snd (enrichment w tf s)) !! key = Some v)
  ∧ (fst (enrichment w tf s) = Ret tt →
     ∀ key,
       key ∈ enriched_keys →
       cluster_config s !! key = None →
       ∃ name id,
         resource_name w (cluster_config s) key = Some name
         ∧ state_resource_id tf name = Some id
         ∧ cluster_config (snd (enrichment w tf s)) !! key = Some id)
  ∧ (enrichable w tf (cluster_config s) → fst (enrichment w tf s) = Ret tt).
Proof.
  unfold enrichment.
  rewrite lift_bind_run.
  destruct (getitem tf "modules") as [a|e] eqn:H1.
  2:{ simpl. repeat split; auto; try discriminate.
      intros ([rs Hrs] & _). apply state_resources_chain in Hrs.
      destruct Hrs as (? & ? & ? & _). congruence. }
  rewrite lift_bind_run.
  destruct (getitem_0 a) as [m0|e] eqn:H2.
  2:{ simpl. repeat split; auto; try discriminate.
      intros ([rs Hrs] & _). apply state_resources_chain in Hrs.
      destruct Hrs as (? & ? & ? & ? & _). congruence. }
  rewrite lift_bind_run.
  destruct (getitem m0 "resources") as [rs|e] eqn:H3.
  2:{ simpl. repeat split; auto; try discriminate.
      intros ([rs Hrs] & _). apply state_resources_chain in Hrs.
      destruct Hrs as (? & ? & ? & ? & ?). congruence. }
  assert (Hres : state_resources tf = Some rs).
  { apply state_resources_chain. eauto. }
  clear H1 H2 H3.
  rewrite cc_get_bind_run.
  destruct (cluster_config s !! "AWSRegion") as [region|] eqn:Hregion.
  2:{ simpl. repeat split; auto; try discriminate.
      intros (_ & [r Hr] & _). unfold region_of in Hr.
      rewrite Hregion in Hr. discriminate. }
  rewrite cc_get_bind_run.
  destruct (cluster_config s !! "AWSAZ1") as [az|] eqn:Haz.
  2:{ simpl. repeat split; auto; try discriminate.
      intros (_ & [r Hr] & _). unfold region_of in Hr.
      rewrite Hregion, Haz in Hr. discriminate. }
  cbv zeta.
  set (R := str_json w region +:+ str_json w az).
  assert (Hreg : region_of w (cluster_config s) = Some R).
  { unfold region_of. rewrite Hregion, Haz. reflexivity. }
  clearbody R. clear Hregion Haz.
  rewrite mbind_run, (fill_absent_run _ _ _ _ _ (vpc_name_run s)).
  destruct (cluster_config s !! "VPCID") as [v1|] eqn:HK1;
    [|destruct (cluster_config s !! "ShortName") as [sn|] eqn:Hsn;
      [destruct (str_add "aws_vpc." sn) as [n1|e1] eqn:Hn1;
       [apply str_add_ok in Hn1 as (x & -> & ->);
        destruct (resource_id rs ("aws_vpc." +:+ x)) as [id1|e1] eqn:Hid1
       |]|]];
    cbn [set_cluster_config].
  all: try fill_step "PublicNATGatewayID".
  all: try fill_step "NodeSubnetID".
  all: try fill_step "PublicSubnetID".
  all: cbn [fst snd st_trace cluster_config set_cluster_config].
  all: split; [reflexivity|].
  all: split;
    [intros key v Hkv;
     repeat (apply lookup_insert_absent;
             [rewrite ?lookup_insert_ne by discriminate; assumption|]);
     exact Hkv|].
  all: split;
    [intros Hret key Hin Hnone;
     first
       [ discriminate Hret
       | unfold enriched_keys in Hin;
         repeat (apply elem_of_cons in Hin as [->|Hin]);
         [..|apply elem_of_nil in Hin; destruct Hin];
         try congruence;
         try (eexists _, _; split; [name_of_key|]; split;
             [unfold state_resource_id; rewrite Hres;
              apply resource_id_entry; eassumption
             |rewrite ?lookup_insert_ne by discriminate;
              apply lookup_insert_eq]) ]
    |].
  all: try (intros _; reflexivity).
  all: intros (_ & _ & Hall).
  all: first [ fails_at "VPCID" | fails_at "PublicNATGatewayID"
             | fails_at "NodeSubnetID" | fails_at "PublicSubnetID" ].
Qed.

Lemma render_kops_config_same (tpl out : string) :
  preserves same_cluster_config (render_kops_config w tpl out).
Proof. unfold render_kops_config. framed. Qed.

Lemma render_kops_config_returns (tpl out : string) (t : template)
  (s : state) :
  (∀ h, w_get_template w h tpl = Ok t) →
  (∀ h, w_open_write w h (out +:+ "/kops.config") = Ok tt) →
  (∀ values, ∃ text, t values = Ok text) →
  fst (render_kops_config w tpl out s) = Ret (out +:+ "/kops.config").
Proof.
  intros Ht Hopen Hrender.
  unfold render_kops_config, env_get_template, open_write, file_write.
  mrun. rewrite Ht. simpl. rewrite Hopen. simpl.
  destruct (Hrender (cluster_config s)) as [text ->]. reflexivity.
Qed.

(** C1. [generate_kops_config] never changes a key that the cluster
    configuration already has.  When it returns, each of [VPCID],
    [PublicNATGatewayID], [NodeSubnetID] and [PublicSubnetID] that was
    absent holds the [primary.id] of the resource entry of the state file
    named by the convention.  It does return when the state file loads
    and has those entries, and the template is found, rendered and
    written. *)
Theorem enrichment_keeps_explicit_identifiers (tpl tfp out : string)
  (s : state) :
  (∀ key v,
     cluster_config s !! key = Some v →
     cluster_config (snd (generate_kops_config w tpl tfp out s)) !! key
     = Some v)
  ∧ (∀ path,
       fst (generate_kops_config w tpl tfp out s) = Ret path →
       ∃ tf,
         w_load_json w (st_trace s) tfp = Ok tf
         ∧ ∀ key,
             key ∈ enriched_keys →
             cluster_config s !! key = None →
             ∃ name id,
               resource_name w (cluster_config s) key = Some name
               ∧ state_resource_id tf name = Some id
               ∧ cluster_config (snd (generate_kops_config w tpl tfp out s))
                   !! key = Some id)
  ∧ (∀ tf t,
       w_load_json w (st_trace s) tfp = Ok tf →
       enrichable w tf (cluster_config s) →
       (∀ h, w_get_template w h tpl = Ok t) →
       (∀ h, w_open_write w h (out +:+ "/kops.config") = Ok tt) →
       (∀ values, ∃ text, t values = Ok text) →
       fst (generate_kops_config w tpl tfp out s)
       = Ret (out +:+ "/kops.config")).
Proof.
  rewrite generate_kops_config_eq.
  unfold json_load_file. rewrite mbind_assoc, mbind_run. unfold gets.
  rewrite mbind_assoc, mbind_run. cbn [emit].
  set (s1 := set_trace_now _ _ s).
  rewrite lift_bind_run.
  destruct (w_load_json w (st_trace s) tfp) as [tf|e].
  2:{ repeat split; try discriminate. intros key v Hkv. exact Hkv. }
  destruct (enrichment_spec tf s1) as (_ & Hkeep & Hfill & Hreturns).
  change (cluster_config s1) with (cluster_config s) in *.
  rewrite mbind_run.
  destruct (enrichment w tf s1) as [[[]|e|] s2]; cbn [fst snd] in *.
  - pose proof (render_kops_config_same tpl out s2) as Hsame.
    unfold same_cluster_config in Hsame. rewrite Hsame.
    split; [exact Hkeep|]. split.
    + intros path _. exists tf. split; [reflexivity|].
      intros key Hin Hnone. apply (Hfill eq_refl key Hin Hnone).
    + intros tf' t [= <-] _ Ht Hopen Hrender.
      apply (render_kops_config_returns tpl out t s2 Ht Hopen Hrender).
  - split; [exact Hkeep|]. split; [discriminate|].
    intros tf' t [= <-] Hen _ _ _. specialize (Hreturns Hen). discriminate.
  - split; [exact Hkeep|]. split; [discriminate|].
    intros tf' t [= <-] Hen _ _ _. specialize (Hreturns Hen). discriminate.
Qed.

End Enrichment.

(** ** The checks of overridden binaries *)

Section Validation.

Context (w : World).

(** The only files that [validate_config] looks for are those of the
    three required paths and of the overrides of terraform and kops. *)
Lemma validate_config_tested_paths (cfg : config) :
  preserves (extends_with (validated_path cfg)) (validate_config w cfg).
Proof.
  unfold validate_config, dict_get.
  autounfold with ship. cbv zeta.
  repeat
    lazymatch goal with
    | |- preserves _ (mbind _ (lift (match ?x with _ => _ end))) =>
        destruct x eqn:?
    | |- preserves _ (mbind _ (lift (Ok _))) => apply preserves_lift_ok
    | |- preserves _ (mbind _ (lift (Err _))) =>
        apply preserves_lift_err; apply _
    | |- preserves _ (match ?x with _ => _ end) => destruct x eqn:?
    | |- _ => preserves_step
    end.
  all: first
    [ apply extends_same_trace; reflexivity
    | apply extends_logged; intros path found Heq;
      first
        [ discriminate Heq
        | injection Heq as <- <-; eexists; split; [|eassumption];
          unfold validated_keys; repeat (first [left|right]) ] ].
Qed.

End Validation.

(** C4, where the code departs from it.  The configuration overrides
    the path of helm with a file that does not exist: [validate_config]
    returns all the same, and never looks at that path; so for kubectl.
    The same override for terraform or kops makes it raise, as the
    specification has it for all four tools; [set_binary_paths] reads
    all four overrides. *)
Theorem validate_config_skips_helm_and_kubectl :
  w_isfile (missing "/opt/helm") [] "/opt/helm" = false
  ∧ fst (validate_config (missing "/opt/helm") (override "helm" "/opt/helm")
           (initial_state 0)) = Ret tt
  ∧ fst (validate_config (missing "/opt/kubectl")
           (override "kubectl" "/opt/kubectl") (initial_state 0)) = Ret tt
  ∧ st_trace (snd (validate_config (missing "/opt/helm")
                     (override "helm" "/opt/helm") (initial_state 0)))
    = [EvLoadYaml "values.schema"; EvIsFile "id_rsa.pub" true;
       EvIsFile "networking.tf.j2" true; EvIsFile "kops.config.j2" true;
       EvIsDir "out" true]
  ∧ fst (validate_config (missing "/opt/terraform")
           (override "terraform" "/opt/terraform") (initial_state 0))
    = Raise (IOError "terraform binary not found at /opt/terraform")
  ∧ fst (validate_config (missing "/opt/kops")
           (override "kops" "/opt/kops") (initial_state 0))
    = Raise (IOError "kops binary not found at /opt/kops").
Proof. vm_compute. repeat split. Qed.

(** ** Errors after the pollers of the create flow *)

(** Whatever [install_components] raises leaves [create] as it is, with
    nothing added to the trace: no statement of [create] encloses the
    call. *)
Lemma create_install_error_propagates (w : World) (fuel : nat) (cfg : config)
  (t1 t2 : Z) (s0 s1 s2 s3 : state) (e : exn) :
  create_setup w cfg s0 = (Ret tt, s1) →
  wait_cluster_available w fuel t1 s1 = (Ret tt, s2) →
  install_components w fuel cfg t2 s2 = (Raise e, s3) →
  create w fuel cfg t1 t2 s0 = (Raise e, s3).
Proof.
  intros Hsetup Hwait Hinstall.
  rewrite create_unfold, Hsetup, mbind_run, Hwait, Hinstall. reflexivity.
Qed.

(** C7, where the code departs from it.  Everything succeeds up to
    [kubectl apply] in [install_components], which exits with status 1:
    the [CalledProcessError] is caught nowhere, the script writes no line
    of its own on the error stream, and the process ends with the
    traceback of the interpreter and status 1. *)
Theorem create_install_error_is_not_reported :
  fst (main apply_fails 20 "values.yaml" (CmdCreate 5 5) (initial_state 0))
  = Some 1
  ∧ stderr_lines
      (st_trace (snd (main apply_fails 20 "values.yaml" (CmdCreate 5 5)
                        (initial_state 0))))
    = []
  ∧ tracebacks
      (st_trace (snd (main apply_fails 20 "values.yaml" (CmdCreate 5 5)
                        (initial_state 0))))
    = [CalledProcessError 1 ["kubectl"; "apply"; "-f"; "tiller.yaml"]].
Proof. vm_compute. repeat split. Qed.

(** The same failure inside the [try] statement is reported: when
    [terraform apply] cannot be launched in [update --yes], the script
    writes one line and calls [sys.exit(1)]. *)
Example update_error_is_reported :
  fst (update unreachable demo_config true
         (snd (set_cluster_config demo_cluster_config (initial_state 0))))
  = Raise (SystemExit 1)
  ∧ stderr_lines
      (st_trace
         (snd (update unreachable demo_config true
                 (snd (set_cluster_config demo_cluster_config
                         (initial_state 0))))))
    = ["Update cluster failed: No such file or directory"].
Proof. vm_compute. repeat split. Qed.

(** ** The theorems on concrete runs *)

(** The state in which a command starts, in the environment [calm] *)
Lemma cli_calm :
  cli calm "values.yaml" (initial_state 0)
  = (Ret demo_config, snd (cli calm "values.yaml" (initial_state 0))).
Proof. vm_compute. reflexivity. Defined.

(** No tool can be launched: the cluster poller with a timeout of one
    minute gives up, having probed at most twice. *)
Lemma cluster_poller_two_attempts_unreachable :
  ∃ l,
    fst (wait_cluster_available unreachable 2 1 (initial_state 0))
    = Raise (SystemExit 1)
    ∧ st_trace
        (snd (wait_cluster_available unreachable 2 1 (initial_state 0)))
      = st_trace (initial_state 0) ++ EvTime (st_now (initial_state 0)) :: l
          ++ [EvPrint Stderr cluster_unreachable_message]
    ∧ poll_trace (cluster_probe_argv (initial_state 0))
        (cluster_answer unreachable) cluster_retry_message 30
        (deadline (initial_state 0) 1) false l
    ∧ (length (execs l) ≤ 2)%nat
    ∧ ∀ values cfg tiller_wait_timeout s0 s1,
        cli unreachable values s0 = (Ret cfg, s1) →
        create_setup unreachable cfg s1 = (Ret tt, initial_state 0) →
        fst (main unreachable 2 values (CmdCreate 1 tiller_wait_timeout) s0)
        = Some 1.
Proof.
  apply (cluster_poller_two_attempts unreachable 2 (initial_state 0)).
  - lia.
  - intros h. reflexivity.
Defined.

Example cluster_poller_unreachable_trace :
  st_trace (snd (wait_cluster_available unreachable 2 1 (initial_state 0)))
  = [EvTime 0;
     EvTime 0;
     EvExec ["kubectl"; "version"; "--output"; "json"]
       (LaunchFailed "No such file or directory");
     EvPrint Stdout cluster_retry_message; EvSleep 30;
     EvTime 30000000;
     EvExec ["kubectl"; "version"; "--output"; "json"]
       (LaunchFailed "No such file or directory");
     EvPrint Stdout cluster_retry_message; EvSleep 30;
     EvTime 60000000;
     EvPrint Stderr cluster_unreachable_message].
Proof. vm_compute. reflexivity. Qed.

(** [update] in the environment [calm], which declines the prompt *)
Lemma update_declined_aborts_calm :
  update calm demo_config false
    (snd (cli calm "values.yaml" (initial_state 0)))
  = (Raise Abort,
     logged calm
       (EvConfirm (update_prompt calm (JStr "demo.example.com")) AnsNo) 0
       (snd (cli calm "values.yaml" (initial_state 0)))).
Proof.
  apply (update_declined_aborts calm 0 "values.yaml" demo_config
           (initial_state 0) (snd (cli calm "values.yaml" (initial_state 0)))
           (JStr "demo.example.com")).
  - exact cli_calm.
  - vm_compute. reflexivity.
  - vm_compute. reflexivity.
Defined.

(** The output directory of the concrete configuration *)
Lemma state_file_passed_to_apply_only_calm :
  paths demo_config !! "outputDir" = Some "out"
  ∧ preserves (extends_with (apply_shape "out"))
      (update calm demo_config true).
Proof.
  split.
  - vm_compute. reflexivity.
  - apply (state_file_passed_to_apply_only calm demo_config "out").
    vm_compute. reflexivity.
Defined.

(** Enrichment on the concrete state file: the identifier given by the
    user stays, the three others come from the state. *)
Example enrichment_on_demo :
  let s := snd (set_cluster_config demo_cluster_config (initial_state 0)) in
  let run :=
    generate_kops_config calm "kops.config.j2" "out/terraform.tfstate" "out" s
  in
  fst run = Ret "out/kops.config"
  ∧ cluster_config (snd run) !! "VPCID" = Some (JStr "vpc-user")
  ∧ cluster_config (snd run) !! "PublicNATGatewayID" = Some (JStr "nat-1")
  ∧ cluster_config (snd run) !! "NodeSubnetID" = Some (JStr "subnet-n")
  ∧ cluster_config (snd run) !! "PublicSubnetID" = Some (JStr "subnet-p").
Proof. vm_compute. repeat split. Qed.

(** [destroy --yes] when the cluster delete cannot be launched *)
Example destroy_delete_fails :
  let s := snd (set_cluster_config demo_cluster_config (initial_state 0)) in
  let run := destroy unreachable demo_config true s in
  fst run = Raise (SystemExit 1)
  ∧ st_trace (snd run)
    = [EvExec ["kops"; "delete"; "cluster"; "demo.example.com"; "--state";
               "s3://demo-state"; "--yes"]
         (LaunchFailed "No such file or directory");
       EvPrint Stderr "Destroy cluster failed: No such file or directory"].
Proof. vm_compute. repeat split. Qed.

(** A probe that cannot be launched stops the process at the first
    tool. *)
Example probe_fails_at_terraform :
  let run :=
    main unreachable 0 "values.yaml" (CmdCreate 5 5) (initial_state 0) in
  fst run = Some 1
  ∧ execs (st_trace (snd run)) = [["terraform"; "--version"]]
  ∧ tracebacks (st_trace (snd run))
    = [IOError
         "terraform executable not valid: No such file or directory"].
Proof. vm_compute. repeat split. Qed.

(** The charts of the concrete configuration *)
Example charts_of_demo :
  execs (st_trace (snd (install_loops calm demo_config (initial_state 0))))
  = [["helm"; "repo"; "add"; "stable"; "https://charts"];
     ["helm"; "install"; "--name"; "web"; "stable/nginx"; "--namespace";
      "infra"; "--set"; "replicas=2"]].
Proof. vm_compute. reflexivity. Qed.

(** ** The group callback *)

Section GroupCallback.

Context (w : World).

Lemma get_config_eq (values : string) (s : state) :
  get_config w values s =
    (match w_load_yaml w (st_trace s) values with
     | Ok cfg => Ret cfg
     | Err e => Raise e
     end, logged w (EvLoadYaml values) 0 s).
Proof.
  unfold get_config, yaml_load_file, logged. mrun.
  destruct (w_load_yaml w (st_trace s) values); reflexivity.
Qed.

(** X1. When the values file cannot be loaded, [cli] stops before any
    validation: an [IOError] is answered with the line [Failed to read
    values file: ...] and a [YAMLError] with [Failed to parse values
    file: ...], both on the error stream and followed by [sys.exit(1)],
    so the process exits with status 1 and nothing more is recorded; any
    other exception of the load is not caught and leaves [cli] as it
    is. *)
Theorem cli_values_file_errors (values : string) (s : state) (e : exn) :
  w_load_yaml w (st_trace s) values = Err e →
  cli w values s =
    (if is_IOError e then
       (Raise (SystemExit 1),
        logged w
          (EvPrint Stderr ("Failed to read values file: " +:+ str_exn w e)) 0
          (logged w (EvLoadYaml values) 0 s))
     else if is_YAMLError e then
       (Raise (SystemExit 1),
        logged w
          (EvPrint Stderr ("Failed to parse values file: " +:+ str_exn w e)) 0
          (logged w (EvLoadYaml values) 0 s))
     else (Raise e, logged w (EvLoadYaml values) 0 s))
  ∧ (is_IOError e || is_YAMLError e = true →
     ∀ fuel cmd,
       main w fuel values cmd s = (Some 1, snd (cli w values s))).
Proof.
  intros Hload.
  assert (Hcli : cli w values s =
    (if is_IOError e then
       (Raise (SystemExit 1),
        logged w
          (EvPrint Stderr ("Failed to read values file: " +:+ str_exn w e)) 0
          (logged w (EvLoadYaml values) 0 s))
     else if is_YAMLError e then
       (Raise (SystemExit 1),
        logged w
          (EvPrint Stderr ("Failed to parse values file: " +:+ str_exn w e)) 0
          (logged w (EvLoadYaml values) 0 s))
     else (Raise e, logged w (EvLoadYaml values) 0 s))).
  { unfold cli. rewrite mbind_run. unfold try_except at 1.
    rewrite get_config_eq, Hload. simpl.
    destruct (is_IOError e); [reflexivity|].
    destruct (is_YAMLError e); reflexivity. }
  split; [exact Hcli|].
  intros Hcaught fuel cmd. unfold main, invoke. rewrite mbind_run, Hcli.
  destruct (is_IOError e); [reflexivity|].
  destruct (is_YAMLError e); [reflexivity|discriminate].
Qed.

(** X2. Whatever [Exception] the validation raises, [cli] writes the
    line [Config validation failed: ...] with its text to the error
    stream and calls [sys.exit(1)].  No subprocess has been started by
    then and the paths of the tools are as they were: the version probes
    are never reached, and the process exits with status 1. *)
Theorem cli_validation_failure (values : string) (cfg : config)
  (s s1 : state) (e : exn) :
  w_load_yaml w (st_trace s) values = Ok cfg →
  validate_config w cfg (logged w (EvLoadYaml values) 0 s) = (Raise e, s1) →
  is_Exception e = true →
  cli w values s =
    (Raise (SystemExit 1),
     logged w (EvPrint Stderr ("Config validation failed: " +:+ str_exn w e))
       0 s1)
  ∧ (∃ l, st_trace s1 = st_trace s ++ l ∧ execs l = [])
  ∧ tools s1 = tools s
  ∧ ∀ fuel cmd, fst (main w fuel values cmd s) = Some 1.
Proof.
  intros Hload Hval He.
  assert (Hcli : cli w values s =
    (Raise (SystemExit 1),
     logged w (EvPrint Stderr ("Config validation failed: " +:+ str_exn w e))
       0 s1)).
  { unfold cli. rewrite mbind_run. unfold try_except at 1.
    rewrite get_config_eq, Hload. rewrite mbind_run.
    unfold try_except at 1. rewrite Hval. simpl. rewrite He. reflexivity. }
  split; [exact Hcli|].
  pose proof (validate_config_quiet w cfg (logged w (EvLoadYaml values) 0 s))
    as (l & Hl & Hquiet).
  pose proof (validate_config_tools w cfg (logged w (EvLoadYaml values) 0 s))
    as Htools.
  rewrite Hval in Hl, Htools. simpl in Hl, Htools.
  split; [|split; [exact Htools|]].
  - exists (EvLoadYaml values :: l). split.
    + rewrite Hl, <- app_assoc. reflexivity.
    + simpl. apply execs_no_exec. exact Hquiet.
  - intros fuel cmd. unfold main, invoke. rewrite mbind_run, Hcli. reflexivity.
Qed.

End GroupCallback.

(** ** The order of the tests of validation *)

Section ValidationOrder.

Context (w : World).

(** run [validate_config] on every answer of the environment *)
Ltac validate_cases w cfg :=
  unfold validate_config, try_except, yaml_load_schema, validate_file_exists,
    os_path_isfile, os_path_isdir, dict_get;
  mrun;
  repeat
    (match goal with
     | |- context [w_load_schema w ?h ?p] =>
         destruct (w_load_schema w h p) eqn:?
     | |- context [is_Exception ?e] => destruct (is_Exception e) eqn:?
     | |- context [match ?f cfg with _ => _ end] => destruct (f cfg) eqn:?
     | |- context [paths cfg !! ?k] => destruct (paths cfg !! k) eqn:?
     | |- context [w_isfile w ?h ?p] => destruct (w_isfile w h p) eqn:?
     | |- context [w_isdir w ?h ?p] => destruct (w_isdir w h p) eqn:?
     end;
     simpl).

(** X3. [validate_config] tests no path before the schema is loaded and
    accepts the configuration.  A schema file that cannot be loaded
    gives an [IOError] whose message starts with [Failed to load config
    values schema file: ], and a configuration that the schema rejects
    gives the error of the schema; in both cases the loading of the
    schema is the only event. *)
Theorem validate_config_schema_first (cfg : config) (s : state) :
  (∀ l,
     st_trace (snd (validate_config w cfg s)) = st_trace s ++ l →
     Exists (fun e => is_path_test e = true) l →
     ∃ values_schema,
       w_load_schema w (st_trace s) "values.schema" = Ok values_schema
       ∧ values_schema cfg = Ok tt)
  ∧ (∀ e,
       w_load_schema w (st_trace s) "values.schema" = Err e →
       is_Exception e = true →
       validate_config w cfg s
       = (Raise (IOError ("Failed to load config values schema file: "
                          +:+ str_exn w e)),
          logged w (EvLoadYaml "values.schema") 0 s))
  ∧ (∀ values_schema e,
       w_load_schema w (st_trace s) "values.schema" = Ok values_schema →
       values_schema cfg = Err e →
       validate_config w cfg s
       = (Raise e, logged w (EvLoadYaml "values.schema") 0 s)).
Proof.
  assert (Hone : ∀ l : list event,
            st_trace s ++ [EvLoadYaml "values.schema"] = st_trace s ++ l →
            Exists (fun e => is_path_test e = true) l → False).
  { intros l Hl Hex. apply app_inv_head in Hl. subst l.
    apply Exists_cons in Hex as [Hex|Hex]; [discriminate Hex|].
    apply Exists_nil in Hex. exact Hex. }
  unfold validate_config, try_except, yaml_load_schema, logged.
  repeat split.
  - mrun.
    destruct (w_load_schema w (st_trace s) "values.schema") as [sch|e];
      simpl.
    + destruct (sch cfg) as [[]|e] eqn:Hsch; simpl.
      * intros l _ _. exists sch. split; [reflexivity|exact Hsch].
      * intros l Hl Hex. destruct (Hone l Hl Hex).
    + destruct (is_Exception e); simpl; intros l Hl Hex;
        destruct (Hone l Hl Hex).
  - intros e He Hexn. mrun. rewrite He. simpl. rewrite Hexn. reflexivity.
  - intros sch e Hsch He. mrun. rewrite Hsch. simpl. rewrite He. reflexivity.
Qed.

(** X4. When [validate_config] returns, the configuration has the four
    required paths, and the function has tested, in this order and each
    with a positive answer, the public key, the terraform template and
    the kops template as files, the output directory as a directory,
    and then the overrides of terraform and kops that are given. *)
Theorem validate_config_passes (cfg : config) (s : state) :
  fst (validate_config w cfg s) = Ret tt →
  ∃ key_path terraform_template kops_template output_dir,
    paths cfg !! "sshPublicKeyPath" = Some key_path
    ∧ paths cfg !! "terraformTemplatePath" = Some terraform_template
    ∧ paths cfg !! "kopsTemplatePath" = Some kops_template
    ∧ paths cfg !! "outputDir" = Some output_dir
    ∧ st_trace (snd (validate_config w cfg s))
      = st_trace s
          ++ [EvLoadYaml "values.schema"; EvIsFile key_path true;
              EvIsFile terraform_template true; EvIsFile kops_template true;
              EvIsDir output_dir true]
          ++ override_tests cfg.
Proof.
  unfold override_tests. validate_cases w cfg.
  all: try discriminate.
  all: intros _; do 4 eexists; repeat (split; [reflexivity|]).
  all: rewrite <- ?app_assoc; reflexivity.
Qed.

(** the event after [pre] in a list given in full *)
Ltac find_event H pre :=
  repeat (destruct pre as [|? pre]; simpl in H;
          [try discriminate H|injection H as <- H]);
  try (destruct pre; discriminate H).

(** X5. A test that answers no ends the validation at once: a file that
    is not there is the last event, and the [IOError] raised names the
    context and the path ([<context> not found at <path>]); an output
    directory that is not there is the last event too, with the message
    [output directory '<path>' does not exist]. *)
Theorem validate_config_first_missing (cfg : config) (s : state) :
  (∀ pre post path,
     st_trace (snd (validate_config w cfg s))
     = st_trace s ++ pre ++ EvIsFile path false :: post →
     post = []
     ∧ ∃ context,
         context ∈ file_contexts
         ∧ fst (validate_config w cfg s)
           = Raise (IOError (context +:+ " not found at " +:+ path)))
  ∧ (∀ pre post path,
       st_trace (snd (validate_config w cfg s))
       = st_trace s ++ pre ++ EvIsDir path false :: post →
       post = []
       ∧ fst (validate_config w cfg s)
         = Raise (IOError ("output directory '" +:+ path
                           +:+ "' does not exist"))).
Proof.
  split.
  - validate_cases w cfg.
    all: intros pre post path H; rewrite <- ?app_assoc in H;
      apply app_inv_head in H; simpl in H.
    all: find_event H pre.
    all: injection H as <- <-.
    all: split; [reflexivity|].
    all: eexists; split; [|reflexivity].
    all: unfold file_contexts; repeat constructor.
  - validate_cases w cfg.
    all: intros pre post path H; rewrite <- ?app_assoc in H;
      apply app_inv_head in H; simpl in H.
    all: find_event H pre.
    all: injection H as <- <-.
    all: split; reflexivity.
Qed.

End ValidationOrder.

(** ** The variables of the binaries *)

Section ToolVariables.

Context (w : World).

Lemma probe_tool_bins (cfg : config) (t : tool) (s : state) :
  tool_bin t (snd (probe_tool w cfg t s)) = resolved cfg s t
  ∧ (∀ t', t' ≠ t → tool_bin t' (snd (probe_tool w cfg t s)) = tool_bin t' s)
  ∧ cluster_config (snd (probe_tool w cfg t s)) = cluster_config s.
Proof.
  unfold probe_tool, resolved, try_except, check_output.
  destruct t; simpl;
    (destruct (paths cfg !! _) as [p|] eqn:Hp; mrun;
     rewrite run_subprocess_eq; simpl;
     destruct (w_exec w (st_trace s) _) as [[| |] out|msg]; simpl;
     (repeat split; intros [] Hne; try reflexivity; destruct Hne;
      reflexivity)).
Qed.

Lemma resolved_same (cfg : config) (s s' : state) (t : tool) :
  tool_bin t s' = tool_bin t s → resolved cfg s' t = resolved cfg s t.
Proof. unfold resolved. intros ->. reflexivity. Qed.

Lemma probes_assign (cfg : config) (s : state) :
  cluster_config (snd (for_each all_tools (probe_tool w cfg) s))
  = cluster_config s
  ∧ (∀ t,
       tool_bin t (snd (for_each all_tools (probe_tool w cfg) s))
       = resolved cfg s t
       ∨ tool_bin t (snd (for_each all_tools (probe_tool w cfg) s))
         = tool_bin t s)
  ∧ (fst (for_each all_tools (probe_tool w cfg) s) = Ret tt →
     ∀ t,
       tool_bin t (snd (for_each all_tools (probe_tool w cfg) s))
       = resolved cfg s t).
Proof.
  unfold all_tools. simpl for_each.
  rewrite mbind_run.
  destruct (probe_tool_bins cfg Terraform s) as (Ht1 & Ho1 & Hc1).
  destruct (probe_tool w cfg Terraform s) as [[[]|e|] s1]; cbn [fst snd] in *.
  2,3: split; [assumption|]; split; [|discriminate];
    intros []; first [left; assumption|right; apply Ho1; discriminate].
  rewrite mbind_run.
  destruct (probe_tool_bins cfg Kops s1) as (Ht2 & Ho2 & Hc2).
  destruct (probe_tool w cfg Kops s1) as [[[]|e|] s2]; cbn [fst snd] in *.
  2,3: split; [congruence|]; split; [|discriminate];
    intros [];
    first [ left; rewrite Ho2 by discriminate; assumption
          | left; rewrite Ht2; apply resolved_same; apply Ho1; discriminate
          | right; rewrite Ho2, Ho1 by discriminate; reflexivity ].
  rewrite mbind_run.
  destruct (probe_tool_bins cfg Helm s2) as (Ht3 & Ho3 & Hc3).
  destruct (probe_tool w cfg Helm s2) as [[[]|e|] s3]; cbn [fst snd] in *.
  2,3: split; [congruence|]; split; [|discriminate];
    intros [];
    first [ left; rewrite Ho3, Ho2 by discriminate; assumption
          | left; rewrite Ho3 by discriminate; rewrite Ht2;
            apply resolved_same; apply Ho1; discriminate
          | left; rewrite Ht3; apply resolved_same;
            rewrite Ho2, Ho1 by discriminate; reflexivity
          | right; rewrite Ho3, Ho2, Ho1 by discriminate; reflexivity ].
  rewrite mbind_run.
  destruct (probe_tool_bins cfg Kubectl s3) as (Ht4 & Ho4 & Hc4).
  assert (Hall : ∀ t,
            tool_bin t (snd (probe_tool w cfg Kubectl s3)) = resolved cfg s t).
  { intros [].
    - rewrite Ho4, Ho3, Ho2 by discriminate. assumption.
    - rewrite Ho4, Ho3 by discriminate. rewrite Ht2.
      apply resolved_same. apply Ho1. discriminate.
    - rewrite Ho4 by discriminate. rewrite Ht3.
      apply resolved_same. rewrite Ho2, Ho1 by discriminate. reflexivity.
    - rewrite Ht4. apply resolved_same.
      rewrite Ho3, Ho2, Ho1 by discriminate. reflexivity. }
  destruct (probe_tool w cfg Kubectl s3) as [[[]|e|] s4]; unfold ret;
    cbn [fst snd] in *;
    (split; [congruence|]; split; [intros t; left; apply Hall|]);
    intros _; exact Hall.
Qed.

(** X6. [set_binary_paths] leaves the cluster configuration alone and
    assigns to the variable of each tool nothing but the override of the
    configuration.  When it returns, every variable holds the override
    if the configuration gives one and its former value otherwise; so
    does the state in which a command starts after [cli] returned. *)
Theorem set_binary_paths_assigns (cfg : config) (s : state) :
  cluster_config (snd (set_binary_paths w cfg s)) = cluster_config s
  ∧ (∀ t,
       tool_bin t (snd (set_binary_paths w cfg s)) = resolved cfg s t
       ∨ tool_bin t (snd (set_binary_paths w cfg s)) = tool_bin t s)
  ∧ (fst (set_binary_paths w cfg s) = Ret tt →
     ∀ t, tool_bin t (snd (set_binary_paths w cfg s)) = resolved cfg s t)
  ∧ (∀ values s0 s',
       cli w values s0 = (Ret cfg, s') →
       ∀ t, tool_bin t s' = resolved cfg s0 t).
Proof.
  rewrite set_binary_paths_for_each.
  destruct (probes_assign cfg s) as (Hcc & Hsome & Hall).
  repeat split; try assumption.
  intros values s0 s' Hcli t.
  rewrite cli_unfold in Hcli.
  pose proof (load_and_validate_tools w values s0) as Htools.
  destruct (load_and_validate w values s0) as [[cfg'|e|] s1];
    [|discriminate..].
  simpl in Htools. rewrite mbind_run, set_binary_paths_for_each in Hcli.
  destruct (probes_assign cfg' s1) as (_ & _ & Hall').
  destruct (for_each all_tools (probe_tool w cfg') s1) as [[[]|e|] s2];
    [|discriminate..].
  simpl in Hall'. injection Hcli as -> <-.
  specialize (Hall' eq_refl t).
  rewrite (resolved_tools cfg s0 s1 t Htools) in Hall'.
  destruct t; simpl; exact Hall'.
Qed.

End ToolVariables.

(** ** Rendering *)

Section Rendering.

Context (w : World).

(** X7. [generate_terraform_config] does not change the cluster
    configuration.  It returns [<output_path>/networking.tf], and only
    after it has found the template, rendered it on the cluster
    configuration as it stands, opened that file and written the
    rendering to it.  When it raises, nothing was written, and the file
    was opened only if the template had been found and rendered. *)
Theorem generate_terraform_config_writes (template_path output_path : string)
  (s : state) :
  cluster_config (snd (generate_terraform_config w template_path output_path s))
  = cluster_config s
  ∧ (∀ p,
       fst (generate_terraform_config w template_path output_path s) = Ret p →
       p = terraform_config_path output_path
       ∧ ∃ t text,
           w_get_template w (st_trace s) template_path = Ok t
           ∧ t (cluster_config s) = Ok text
           ∧ st_trace
               (snd (generate_terraform_config w template_path output_path s))
             = st_trace s
                 ++ [EvGetTemplate template_path; EvOpenWrite p;
                     EvWrite p text])
  ∧ (∀ e,
       fst (generate_terraform_config w template_path output_path s)
       = Raise e →
       st_trace (snd (generate_terraform_config w template_path output_path s))
       = st_trace s ++ [EvGetTemplate template_path]
       ∨ (st_trace
            (snd (generate_terraform_config w template_path output_path s))
          = st_trace s
              ++ [EvGetTemplate template_path;
                  EvOpenWrite (terraform_config_path output_path)]
          ∧ ∃ t text,
              w_get_template w (st_trace s) template_path = Ok t
              ∧ t (cluster_config s) = Ok text)).
Proof.
  unfold generate_terraform_config, env_get_template, open_write, file_write,
    terraform_config_path.
  mrun.
  destruct (w_get_template w (st_trace s) template_path) as [t|e0]; simpl.
  2:{ split; [reflexivity|]. split; [discriminate|].
      intros e _. left. reflexivity. }
  destruct (t (cluster_config s)) as [text|e0] eqn:Htext; simpl.
  2:{ split; [reflexivity|]. split; [discriminate|].
      intros e _. left. reflexivity. }
  destruct (w_open_write w _ _) as [[]|e0]; simpl.
  - split; [reflexivity|]. split; [|discriminate].
    intros p [= <-]. split; [reflexivity|].
    exists t, text. rewrite <- !app_assoc. auto.
  - split; [reflexivity|]. split; [discriminate|].
    intros e _. right. rewrite <- !app_assoc. eauto.
Qed.

Lemma render_kops_config_run (tpl out : string) (s : state) :
  render_kops_config w tpl out s =
    match w_get_template w (st_trace s) tpl with
    | Err e => (Raise e, logged w (EvGetTemplate tpl) 0 s)
    | Ok t =>
        let s1 := logged w (EvGetTemplate tpl) 0 s in
        let s2 := logged w (EvOpenWrite (kops_config_path out)) 0 s1 in
        match w_open_write w (st_trace s1) (kops_config_path out) with
        | Err e => (Raise e, s2)
        | Ok _ =>
            match t (cluster_config s) with
            | Err e => (Raise e, s2)
            | Ok text =>
                (Ret (kops_config_path out),
                 logged w (EvWrite (kops_config_path out) text) 0 s2)
            end
        end
    end.
Proof.
  unfold render_kops_config, env_get_template, open_write, file_write,
    kops_config_path, logged.
  mrun.
  destruct (w_get_template w (st_trace s) tpl) as [t|e]; simpl;
    [|reflexivity].
  destruct (w_open_write w _ _) as [[]|e]; simpl; [|reflexivity].
  destruct (t (cluster_config s)); reflexivity.
Qed.

Lemma json_load_file_bind_run {B} (path : string) (k : json → M B)
  (s : state) :
  (json_load_file w path ≫= k) s =
    match w_load_json w (st_trace s) path with
    | Ok v => k v (logged w (EvLoadJson path) 0 s)
    | Err e => (Raise e, logged w (EvLoadJson path) 0 s)
    end.
Proof.
  unfold json_load_file, logged. mrun.
  destruct (w_load_json w (st_trace s) path); reflexivity.
Qed.


Lemma all_enriched_keys (P : string → Prop) :
  (∀ key, key ∈ enriched_keys → P key) →
  P "VPCID" ∧ P "PublicNATGatewayID" ∧ P "NodeSubnetID" ∧ P "PublicSubnetID".
Proof.
  intros H. unfold enriched_keys in H.
  repeat split; apply H; repeat constructor.
Qed.

(** With the four identifiers given, the enrichment changes nothing, and
    returns exactly when the state has resources and the configuration
    has the two region fields. *)
Lemma enrichment_present (tf : json) (s : state) :
  (∀ key, key ∈ enriched_keys → is_Some (cluster_config s !! key)) →
  snd (enrichment w tf s) = s
  ∧ (fst (enrichment w tf s) = Ret tt
     ↔ is_Some (state_resources tf)
       ∧ is_Some (region_of w (cluster_config s)))
  ∧ (fst (enrichment w tf s) = Ret tt ∨ ∃ e, fst (enrichment w tf s) = Raise e).
Proof.
  intros Hall.
  apply all_enriched_keys in Hall as ([v1 H1] & [v2 H2] & [v3 H3] & [v4 H4]).
  unfold enrichment.
  rewrite lift_bind_run.
  destruct (getitem tf "modules") as [a|e] eqn:G1.
  2:{ simpl. split; [reflexivity|]. split; [|eauto].
      split; [discriminate|].
      intros ([rs Hrs] & _). apply state_resources_chain in Hrs.
      destruct Hrs as (? & ? & ? & _). congruence. }
  rewrite lift_bind_run.
  destruct (getitem_0 a) as [m0|e] eqn:G2.
  2:{ simpl. split; [reflexivity|]. split; [|eauto].
      split; [discriminate|].
      intros ([rs Hrs] & _). apply state_resources_chain in Hrs.
      destruct Hrs as (? & ? & ? & ? & _). congruence. }
  rewrite lift_bind_run.
  destruct (getitem m0 "resources") as [rs|e] eqn:G3.
  2:{ simpl. split; [reflexivity|]. split; [|eauto].
      split; [discriminate|].
      intros ([rs Hrs] & _). apply state_resources_chain in Hrs.
      destruct Hrs as (? & ? & ? & ? & ?). congruence. }
  assert (Hres : state_resources tf = Some rs).
  { apply state_resources_chain. eauto. }
  rewrite cc_get_bind_run. unfold region_of.
  destruct (cluster_config s !! "AWSRegion") as [region|].
  2:{ simpl. split; [reflexivity|]. split; [|eauto].
      split; [discriminate|].
      intros (_ & [r Hr]). discriminate. }
  rewrite cc_get_bind_run.
  destruct (cluster_config s !! "AWSAZ1") as [az|].
  2:{ simpl. split; [reflexivity|]. split; [|eauto].
      split; [discriminate|].
      intros (_ & [r Hr]). discriminate. }
  cbv zeta.
  rewrite mbind_run, (fill_absent_run _ _ _ _ _ (vpc_name_run s)), H1.
  rewrite mbind_run, fill_ret_run, H2.
  rewrite mbind_run, fill_ret_run, H3.
  rewrite fill_ret_run, H4.
  simpl. split; [reflexivity|]. split; [|left; reflexivity].
  split; [|reflexivity].
  intros _. rewrite Hres. split; eauto.
Qed.

(** X9. With the four identifiers given in the configuration,
    [generate_kops_config] leaves the dictionary exactly as it is.  It
    still reads the state file: it returns only if the file loads and
    has the resources of a first module and the configuration has the
    two region fields, and it raises right after the load, before the
    template is fetched, on a state file without them. *)
Theorem enrichment_given_identifiers (tpl tfp out : string) (s : state) :
  (∀ key, key ∈ enriched_keys → is_Some (cluster_config s !! key)) →
  cluster_config (snd (generate_kops_config w tpl tfp out s))
  = cluster_config s
  ∧ (∀ p,
       fst (generate_kops_config w tpl tfp out s) = Ret p →
       ∃ tf,
         w_load_json w (st_trace s) tfp = Ok tf
         ∧ is_Some (state_resources tf)
         ∧ is_Some (region_of w (cluster_config s)))
  ∧ (∀ tf,
       w_load_json w (st_trace s) tfp = Ok tf →
       state_resources tf = None →
       snd (generate_kops_config w tpl tfp out s)
       = logged w (EvLoadJson tfp) 0 s
       ∧ ∃ e, fst (generate_kops_config w tpl tfp out s) = Raise e).
Proof.
  intros Hall.
  rewrite generate_kops_config_eq, json_load_file_bind_run.
  destruct (w_load_json w (st_trace s) tfp) as [tf|e0].
  2:{ split; [reflexivity|]. split; discriminate. }
  set (s1 := logged w (EvLoadJson tfp) 0 s).
  destruct (enrichment_present tf s1 Hall) as (Hsame & Hret & Hends).
  rewrite mbind_run.
  destruct (enrichment w tf s1) as [[[]|e0|] s2]; cbn [fst snd] in *;
    subst s2.
  - pose proof (render_kops_config_same w tpl out s1) as Hrender.
    unfold same_cluster_config in Hrender.
    split; [rewrite Hrender; reflexivity|]. split.
    + intros p _. exists tf. split; [reflexivity|]. apply Hret. reflexivity.
    + intros tf' [= <-] Hnone.
      destruct (proj1 Hret eq_refl) as ([rs Hrs] & _). congruence.
  - split; [reflexivity|]. split; [discriminate|].
    intros tf' _ _. split; [reflexivity|]. eauto.
  - destruct Hends as [Hends|[e Hends]]; discriminate Hends.
Qed.

End Rendering.

(** ** Command lines carried out in order *)

Lemma runs_app (l1 l2 : list event) : runs (l1 ++ l2) = runs l1 ++ runs l2.
Proof.
  induction l1 as [|e l1 IH]; [reflexivity|].
  destruct e; simpl; rewrite ?IH; reflexivity.
Qed.

Lemma runs_no_exec (l : list event) :
  Forall (fun e => is_exec e = false) l → runs l = [].
Proof.
  induction 1 as [|e l He _ IH]; [reflexivity|].
  destruct e; simpl in *; try assumption. discriminate.
Qed.

Lemma in_order_app (c1 c2 : list (list string))
  (r1 r2 : list (list string * proc_result)) (b : bool) :
  in_order c1 r1 true → in_order c2 r2 b → in_order (c1 ++ c2) (r1 ++ r2) b.
Proof.
  intros H1 H2. remember true as b1 eqn:Hb1.
  induction H1 as [|cmds|cmd cmds r Hr|cmd cmds r rs b' Hr H1 IH];
    try discriminate.
  - exact H2.
  - simpl. constructor; [exact Hr|]. apply IH. exact Hb1.
Qed.

Lemma in_order_app_stop (c1 c2 : list (list string))
  (r1 : list (list string * proc_result)) :
  in_order c1 r1 false → in_order (c1 ++ c2) r1 false.
Proof.
  intros H1. remember false as b1 eqn:Hb1.
  induction H1 as [|cmds|cmd cmds r Hr|cmd cmds r rs b' Hr H1 IH];
    try discriminate.
  - constructor.
  - simpl. constructor. exact Hr.
  - simpl. constructor; [exact Hr|]. apply IH. exact Hb1.
Qed.

Lemma in_order_nil (rs : list (list string * proc_result)) (b : bool) :
  in_order [] rs b → rs = [].
Proof. inversion 1; reflexivity. Qed.

Lemma in_order_is_ret {A} (cmds : list (list string))
  (rs : list (list string * proc_result)) (o : outcome A) :
  in_order cmds rs false → in_order cmds rs (is_ret o) ∨ is_ret o = true.
Proof. intros H. destruct o; simpl; auto. Qed.

#[global] Instance keeps_keys_preorder : PreOrder keeps_keys.
Proof.
  split.
  - intros s key v H. exact H.
  - intros s1 s2 s3 H1 H2 key v H. apply H2, H1, H.
Qed.

Lemma settled_refl (s : state) : settled s s.
Proof. split; reflexivity. Qed.

Lemma settled_step (s0 s s' : state) :
  settled s0 s → tools s' = tools s → keeps_keys s s' → settled s0 s'.
Proof.
  intros [Ht Hk] Ht' Hk'. split; [congruence|]. etransitivity; eassumption.
Qed.

Section InOrder.

Context (w : World).

Lemma settled_logged (s0 s : state) (e : event) (d : Z) :
  settled s0 s → settled s0 (logged w e d s).
Proof.
  intros H. apply (settled_step s0 s); [exact H|reflexivity|].
  intros key v Hkey. exact Hkey.
Qed.

Lemma co_bind {A B} (s0 : state) (c1 c2 : list (list string)) (m : M A)
  (k : A → M B) (post1 : A → Prop) (post2 : B → Prop) :
  carries_out s0 c1 m post1 →
  (∀ a, post1 a → carries_out s0 c2 (k a) post2) →
  carries_out s0 (c1 ++ c2) (m ≫= k) post2.
Proof.
  intros Hm Hk s Hs. rewrite mbind_run.
  destruct (Hm s Hs) as (l1 & Ht1 & Hs1 & Ho1 & Hp1).
  destruct (m s) as [[a|e|] s1]; cbn [fst snd is_ret] in *.
  - destruct (Hk a (Hp1 a eq_refl) s1 Hs1) as (l2 & Ht2 & Hs2 & Ho2 & Hp2).
    exists (l1 ++ l2). rewrite Ht2, Ht1, app_assoc, runs_app.
    split; [reflexivity|]. split; [exact Hs2|].
    split; [apply in_order_app; assumption|exact Hp2].
  - exists l1. split; [exact Ht1|]. split; [exact Hs1|].
    split; [apply in_order_app_stop; exact Ho1|discriminate].
  - exists l1. split; [exact Ht1|]. split; [exact Hs1|].
    split; [apply in_order_app_stop; exact Ho1|discriminate].
Qed.

Lemma co_weaken {A} (s0 : state) (cmds : list (list string)) (m : M A)
  (post1 post2 : A → Prop) :
  carries_out s0 cmds m post1 → (∀ a, post1 a → post2 a) →
  carries_out s0 cmds m post2.
Proof.
  intros Hm Hp s Hs. destruct (Hm s Hs) as (l & H1 & H2 & H3 & H4).
  exists l. repeat split; try assumption; try apply H2.
  intros a Ha. apply Hp, H4, Ha.
Qed.

Lemma co_ret {A} (s0 : state) (a : A) :
  carries_out s0 [] (ret a) (fun x => x = a).
Proof.
  intros s Hs. exists []. rewrite app_nil_r. simpl.
  repeat split; try apply Hs; [constructor|]. intros x [= <-]. reflexivity.
Qed.

Lemma co_lift {A} (s0 : state) (r : result A) :
  carries_out s0 [] (lift r) (fun a => r = Ok a).
Proof.
  intros s Hs. exists []. rewrite app_nil_r.
  destruct r as [a|e]; simpl; (repeat split; try apply Hs; [constructor|]).
  - intros x [= <-]. reflexivity.
  - discriminate.
Qed.

Lemma co_gets {A} (s0 : state) (f : state → A) (v : A) :
  (∀ s, settled s0 s → f s = v) →
  carries_out s0 [] (gets f) (fun a => a = v).
Proof.
  intros Hf s Hs. exists []. rewrite app_nil_r. simpl.
  repeat split; try apply Hs; [constructor|].
  intros x [= <-]. apply Hf, Hs.
Qed.

Lemma co_cc_get (s0 : state) (key : string) (v : json) :
  cluster_config s0 !! key = Some v →
  carries_out s0 [] (cc_get key) (fun a => a = v).
Proof.
  intros Hkey s Hs. exists []. rewrite app_nil_r.
  assert (Hk := proj2 Hs key v Hkey).
  unfold cc_get, dict_get. mrun. rewrite Hk. simpl.
  repeat split; try apply Hs; [constructor|].
  intros x [= <-]. reflexivity.
Qed.

Lemma co_check_call (s0 : state) (argv : list string) :
  carries_out s0 [argv] (check_call w argv) (fun _ => True).
Proof.
  intros s Hs. rewrite check_call_eq. cbv zeta.
  set (r := w_exec w (st_trace s) argv).
  exists [EvExec argv r]. cbn [fst snd].
  split; [reflexivity|]. split; [apply settled_logged; exact Hs|].
  split; [|auto]. simpl.
  destruct (proc_error argv r) as [e|] eqn:He; simpl.
  - constructor. destruct (succeeded r) eqn:Hr; [|reflexivity].
    apply (succeeded_proc_error argv) in Hr. congruence.
  - constructor; [|constructor]. apply (succeeded_proc_error argv). exact He.
Qed.

Lemma co_quiet {A} (s0 : state) (m : M A) (post : A → Prop) :
  preserves no_exec m → preserves same_tools m → preserves keeps_keys m →
  (∀ s a, fst (m s) = Ret a → post a) →
  carries_out s0 [] m post.
Proof.
  intros Hq Ht Hk Hp s Hs.
  destruct (Hq s) as (l & Hl & Hno). exists l.
  split; [exact Hl|].
  split; [apply (settled_step s0 s); [exact Hs|apply Ht|apply Hk]|].
  split; [|apply Hp].
  rewrite (runs_no_exec l Hno).
  destruct (fst (m s)); constructor.
Qed.

Lemma co_try {A} (s0 : state) (cmds : list (list string)) (m : M A)
  (h : exn → M A) (post : A → Prop) :
  carries_out s0 cmds m post →
  (∀ e, carries_out s0 [] (h e) (fun _ => False)) →
  carries_out s0 cmds (try_except m [(is_Exception, h)]) post.
Proof.
  intros Hm Hh s Hs. unfold try_except.
  destruct (Hm s Hs) as (l1 & Ht1 & Hs1 & Ho1 & Hp1).
  destruct (m s) as [[a|e|] s1]; cbn [fst snd is_ret find_handler] in *.
  - exists l1. auto.
  - destruct (is_Exception e).
    + destruct (Hh e s1 Hs1) as (l2 & Ht2 & Hs2 & Ho2 & Hp2).
      exists (l1 ++ l2). rewrite Ht2, Ht1, app_assoc, runs_app.
      split; [reflexivity|]. split; [exact Hs2|].
      rewrite (in_order_nil _ _ Ho2), app_nil_r.
      destruct (fst (h e s1)) as [a| |] eqn:Ho; cbn [is_ret].
      * destruct (Hp2 a eq_refl).
      * split; [exact Ho1|discriminate].
      * split; [exact Ho1|discriminate].
    + exists l1. cbn [fst snd is_ret]. auto.
  - exists l1. auto.
Qed.

Lemma co_report (s0 : state) (msg : string) :
  carries_out s0 []
    (print w Stderr msg;; sys_exit 1 : M unit) (fun _ => False).
Proof.
  intros s Hs. unfold print. mrun.
  exists [EvPrint Stderr msg].
  split; [reflexivity|]. split; [apply (settled_logged s0 s _ 0 Hs)|].
  split; [constructor|discriminate].
Qed.

End InOrder.

(** ** The commands of the flows *)

Lemma settled_bin (s0 s : state) (t : tool) :
  settled s0 s → tool_bin t s = tool_bin t s0.
Proof.
  intros [Ht _]. unfold tools in Ht. injection Ht as H1 H2 H3 H4.
  destruct t; assumption.
Qed.

(** Take a flow apart into its command lines. *)
Ltac co_step :=
  lazymatch goal with
  | |- carries_out ?s0 _ (mbind _ (gets terraform_bin)) _ =>
      eapply (co_bind s0 []);
      [apply (co_gets s0 terraform_bin (terraform_bin s0));
       intros ? ?; apply (settled_bin s0 _ Terraform); assumption
      |intros ? ->]
  | |- carries_out ?s0 _ (mbind _ (gets kops_bin)) _ =>
      eapply (co_bind s0 []);
      [apply (co_gets s0 kops_bin (kops_bin s0));
       intros ? ?; apply (settled_bin s0 _ Kops); assumption
      |intros ? ->]
  | |- carries_out ?s0 _ (mbind _ (gets helm_bin)) _ =>
      eapply (co_bind s0 []);
      [apply (co_gets s0 helm_bin (helm_bin s0));
       intros ? ?; apply (settled_bin s0 _ Helm); assumption
      |intros ? ->]
  | |- carries_out ?s0 _ (mbind _ (gets kubectl_bin)) _ =>
      eapply (co_bind s0 []);
      [apply (co_gets s0 kubectl_bin (kubectl_bin s0));
       intros ? ?; apply (settled_bin s0 _ Kubectl); assumption
      |intros ? ->]
  | |- carries_out ?s0 _ (mbind _ (lift _)) _ =>
      let Heq := fresh "Heq" in
      eapply (co_bind s0 []);
      [apply co_lift
      |intros ? Heq; simpl in Heq; try (injection Heq as <-)]
  | |- carries_out ?s0 _ (mbind _ (cc_get _)) _ =>
      eapply (co_bind s0 []);
      [apply co_cc_get; eassumption|intros ? ->]
  | |- carries_out ?s0 _ (check_call _ _) _ => apply co_check_call
  end.

Section FlowCommands.

Context (w : World).

Lemma co_terraform_apply (s0 : state) (dir state_path : string) :
  carries_out s0 [[terraform_bin s0; "apply"; "-state=" +:+ state_path; dir]]
    (terraform_apply w dir state_path) (fun _ => True).
Proof. unfold terraform_apply. repeat co_step. Qed.

Lemma co_kops_add_cluster (s0 : state) (path url : string) :
  carries_out s0 [[kops_bin s0; "create"; "-f"; path; "--state"; url]]
    (kops_add_cluster w path (JStr url)) (fun _ => True).
Proof. unfold kops_add_cluster. repeat co_step. Qed.

Lemma co_kops_add_ssh_key (s0 : state) (name key_path url : string) :
  carries_out s0 [kops_secret_argv s0 name key_path url]
    (kops_add_ssh_key w (JStr name) key_path (JStr url)) (fun _ => True).
Proof. unfold kops_add_ssh_key, kops_secret_argv. repeat co_step. Qed.

Lemma co_kops_update_cluster (s0 : state) (name url : string) :
  carries_out s0 [kops_update_argv s0 name url]
    (kops_update_cluster w (JStr name) (JStr url)) (fun _ => True).
Proof. unfold kops_update_cluster, kops_update_argv. repeat co_step. Qed.

Lemma co_kops_replace_cluster (s0 : state) (path url : string) :
  carries_out s0
    [[kops_bin s0; "replace"; "cluster"; "-f"; path; "--state"; url]]
    (kops_replace_cluster w path (JStr url)) (fun _ => True).
Proof. unfold kops_replace_cluster. repeat co_step. Qed.

Lemma co_kops_rolling_update (s0 : state) (name url : string) :
  carries_out s0 [kops_rolling_update_argv s0 name url]
    (kops_rolling_update w (JStr name) (JStr url)) (fun _ => True).
Proof.
  unfold kops_rolling_update, kops_rolling_update_argv. repeat co_step.
Qed.

Lemma generate_terraform_config_same (tpl out : string) :
  preserves same_cluster_config (generate_terraform_config w tpl out).
Proof. framed. Qed.

Lemma same_keeps (s s' : state) : same_cluster_config s s' → keeps_keys s s'.
Proof. intros H key v Hkey. rewrite H. exact Hkey. Qed.

Lemma generate_terraform_config_path (tpl out : string) (s : state)
  (p : string) :
  fst (generate_terraform_config w tpl out s) = Ret p →
  p = terraform_config_path out.
Proof.
  unfold generate_terraform_config, env_get_template, open_write, file_write,
    terraform_config_path.
  mrun.
  repeat (match goal with
          | |- context [match ?x with _ => _ end] => destruct x; simpl
          end);
    congruence.
Qed.

Lemma co_generate_terraform_config (s0 : state) (tpl out : string) :
  carries_out s0 [] (generate_terraform_config w tpl out)
    (fun p => p = terraform_config_path out).
Proof.
  apply co_quiet.
  - apply generate_terraform_config_quiet.
  - apply generate_terraform_config_tools.
  - intros s. apply same_keeps, generate_terraform_config_same.
  - intros s p. apply generate_terraform_config_path.
Qed.

Lemma generate_kops_config_keeps (tpl tfp out : string) :
  preserves keeps_keys (generate_kops_config w tpl tfp out).
Proof.
  intros s key v Hkey.
  rewrite generate_kops_config_eq, json_load_file_bind_run.
  destruct (w_load_json w (st_trace s) tfp) as [tf|e]; [|exact Hkey].
  set (s1 := logged w (EvLoadJson tfp) 0 s).
  destruct (enrichment_spec w tf s1) as (_ & Hkeep & _).
  specialize (Hkeep key v Hkey).
  rewrite mbind_run.
  destruct (enrichment w tf s1) as [[[]|e|] s2]; cbn [fst snd] in *;
    try exact Hkeep.
  rewrite (render_kops_config_same w tpl out s2). exact Hkeep.
Qed.

Lemma generate_kops_config_path (tpl tfp out : string) (s : state)
  (p : string) :
  fst (generate_kops_config w tpl tfp out s) = Ret p →
  p = kops_config_path out.
Proof.
  rewrite generate_kops_config_eq, json_load_file_bind_run.
  destruct (w_load_json w (st_trace s) tfp) as [tf|e]; [|discriminate].
  rewrite mbind_run.
  destruct (enrichment w tf _) as [[[]|e|] s2]; try discriminate.
  rewrite render_kops_config_run. cbv zeta.
  repeat (match goal with
          | |- context [match ?x with _ => _ end] => destruct x; simpl
          end);
    congruence.
Qed.

Lemma co_generate_kops_config (s0 : state) (tpl tfp out : string) :
  carries_out s0 [] (generate_kops_config w tpl tfp out)
    (fun p => p = kops_config_path out).
Proof.
  apply co_quiet.
  - apply generate_kops_config_quiet.
  - apply generate_kops_config_tools.
  - apply generate_kops_config_keeps.
  - intros s p. apply generate_kops_config_path.
Qed.

Lemma create_setup_carries_out (cfg : config) (s : state)
  (out key_path name url : string) :
  paths cfg !! "outputDir" = Some out →
  paths cfg !! "sshPublicKeyPath" = Some key_path →
  cluster_config s !! "FullyQualifiedName" = Some (JStr name) →
  cluster_config s !! "ConfigBaseURL" = Some (JStr url) →
  carries_out s (create_commands s out key_path name url)
    (create_setup w cfg) (fun _ => True).
Proof.
  intros Hout Hkey Hname Hurl.
  unfold create_setup, create_commands.
  rewrite (dict_get_some _ _ _ Hout), (dict_get_some _ _ _ Hkey).
  co_step. apply co_try; [|intros e; apply co_report].
  co_step.
  eapply (co_bind s []); [apply co_generate_terraform_config|intros _ _].
  eapply (co_bind s [_]); [apply co_terraform_apply|intros _ _].
  co_step.
  eapply (co_bind s []); [apply co_generate_kops_config|intros ? ->].
  co_step.
  eapply (co_bind s [_]); [apply co_kops_add_cluster|intros _ _].
  co_step. co_step. co_step.
  eapply (co_bind s [_]); [apply co_kops_add_ssh_key|intros _ _].
  co_step. co_step.
  apply co_kops_update_cluster.
Qed.

End FlowCommands.

Section CreateOrder.

Context (w : World).

Lemma create_rest_extends (fuel : nat) (cfg : config) (t1 t2 : Z) :
  preserves (extends_with (fun _ => True))
    (wait_cluster_available w fuel t1;; install_components w fuel cfg t2).
Proof.
  flow_all;
    first [apply extends_same_trace; reflexivity|apply extends_logged; exact I].
Qed.

(** X10. The subprocesses of [create] begin with [terraform apply],
    [kops create -f], [kops create secret ... sshpublickey] and [kops
    update cluster ... --yes], in this order, each started only after
    the one before it exited with status zero and none after one that
    failed.  Unless all four succeeded, nothing follows (no poller, no
    installation) and [create] does not return. *)
Theorem create_commands_in_order (fuel : nat) (cfg : config) (t1 t2 : Z)
  (s : state) (out key_path name url : string) :
  paths cfg !! "outputDir" = Some out →
  paths cfg !! "sshPublicKeyPath" = Some key_path →
  cluster_config s !! "FullyQualifiedName" = Some (JStr name) →
  cluster_config s !! "ConfigBaseURL" = Some (JStr url) →
  ∃ l rest b,
    st_trace (snd (create w fuel cfg t1 t2 s)) = st_trace s ++ l ++ rest
    ∧ in_order (create_commands s out key_path name url) (runs l) b
    ∧ (b = false →
       rest = [] ∧ is_ret (fst (create w fuel cfg t1 t2 s)) = false).
Proof.
  intros Hout Hkey Hname Hurl.
  destruct (create_setup_carries_out w cfg s out key_path name url
              Hout Hkey Hname Hurl s (settled_refl s))
    as (l & Htrace & _ & Horder & _).
  rewrite create_unfold.
  destruct (create_setup w cfg s) as [[[]|e|] s1]; cbn [fst snd is_ret] in *.
  - destruct (create_rest_extends fuel cfg t1 t2 s1) as (rest & Hrest & _).
    exists l, rest, true. rewrite Hrest, Htrace, app_assoc.
    split; [reflexivity|]. split; [exact Horder|discriminate].
  - exists l, [], false. rewrite app_nil_r. auto.
  - exists l, [], false. rewrite app_nil_r. auto.
Qed.

Lemma update_yes_carries_out (cfg : config) (s : state)
  (out name url : string) :
  paths cfg !! "outputDir" = Some out →
  cluster_config s !! "FullyQualifiedName" = Some (JStr name) →
  cluster_config s !! "ConfigBaseURL" = Some (JStr url) →
  carries_out s
    (update_commands s out name url ++ [kops_rolling_update_argv s name url])
    (update w cfg true) (fun _ => True).
Proof.
  intros Hout Hname Hurl.
  unfold update, update_commands. cbn [negb]. cbv iota.
  rewrite (dict_get_some _ _ _ Hout).
  co_step. co_step.
  eapply (co_bind s []); [apply co_ret|intros _ _].
  apply co_try; [|intros e; apply co_report].
  co_step.
  eapply (co_bind s []); [apply co_generate_terraform_config|intros _ _].
  eapply (co_bind s [_]); [apply co_terraform_apply|intros _ _].
  co_step.
  eapply (co_bind s []); [apply co_generate_kops_config|intros ? ->].
  co_step.
  eapply (co_bind s [_]); [apply co_kops_replace_cluster|intros _ _].
  co_step.
  eapply (co_bind s [_]); [apply co_kops_update_cluster|intros _ _].
  eapply (co_bind s []); [apply co_ret|intros ? ->].
  co_step.
  apply co_kops_rolling_update.
Qed.

(** X11. [update --yes] runs [terraform apply], [kops replace cluster],
    [kops update cluster] and [kops rolling-update cluster] in this
    order, each started only after the one before it succeeded; it
    returns only when all four succeeded, and it asks nothing. *)
Theorem update_yes_commands_in_order (cfg : config) (s : state)
  (out name url : string) :
  paths cfg !! "outputDir" = Some out →
  cluster_config s !! "FullyQualifiedName" = Some (JStr name) →
  cluster_config s !! "ConfigBaseURL" = Some (JStr url) →
  ∃ l,
    st_trace (snd (update w cfg true s)) = st_trace s ++ l
    ∧ in_order
        (update_commands s out name url
           ++ [kops_rolling_update_argv s name url])
        (runs l) (is_ret (fst (update w cfg true s)))
    ∧ Forall (fun e => is_confirm e = false) l.
Proof.
  intros Hout Hname Hurl.
  destruct (update_yes_carries_out cfg s out name url Hout Hname Hurl s
              (settled_refl s))
    as (l & Htrace & _ & Horder & _).
  exists l. split; [exact Htrace|]. split; [exact Horder|].
  assert (Hquiet : preserves (extends_with (fun e => is_confirm e = false))
                     (update w cfg true)).
  { unfold update. cbn [negb]. cbv iota. quiet. }
  destruct (Hquiet s) as (l' & Hl' & Hno).
  rewrite Htrace in Hl'. apply app_inv_head in Hl'. subst l'. exact Hno.
Qed.

End CreateOrder.

(** ** The rolling update of the update flow *)



Section RollingUpdate.

Context (w : World).

Lemma click_confirm_eq (prompt : string) (abort : bool) (s : state) :
  click_confirm w prompt abort s =
    (match w_confirm w (st_trace s) prompt with
     | AnsYes => Ret true
     | AnsNo => if abort then Raise Abort else Ret false
     | AnsEOF => Raise Abort
     end,
     logged w (EvConfirm prompt (w_confirm w (st_trace s) prompt)) 0 s).
Proof.
  unfold click_confirm, logged. mrun.
  destruct (w_confirm w (st_trace s) prompt); [|destruct abort|]; reflexivity.
Qed.




End RollingUpdate.

(** ** How the flows end *)

Section Ends.

Context (w : World).

Lemma ends_ret {A} (a : A) : ends (ret a).
Proof. intros s. discriminate. Qed.

Lemma ends_raise {A} (e : exn) : ends (raise e : M A).
Proof. intros s. discriminate. Qed.

Lemma ends_lift {A} (r : result A) : ends (lift r).
Proof. intros s. destruct r; discriminate. Qed.

Lemma ends_gets {A} (f : state → A) : ends (gets f).
Proof. intros s. discriminate. Qed.

Lemma ends_emit (e : event) (d : Z) : ends (emit w e d).
Proof. intros s. discriminate. Qed.

Lemma ends_bind {A B} (m : M A) (k : A → M B) :
  ends m → (∀ a, ends (k a)) → ends (m ≫= k).
Proof.
  intros Hm Hk s. rewrite mbind_run. specialize (Hm s).
  destruct (m s) as [[a|e|] s1]; simpl in *; try discriminate.
  - apply Hk.
  - congruence.
Qed.

Lemma ends_try_except {A} (m : M A) (accepts : exn → bool) (h : exn → M A) :
  ends m → (∀ e, ends (h e)) → ends (try_except m [(accepts, h)]).
Proof.
  intros Hm Hh s. unfold try_except. specialize (Hm s).
  destruct (m s) as [[a|e|] s1]; simpl in *; try discriminate.
  - destruct (accepts e); [apply Hh|discriminate].
  - congruence.
Qed.

End Ends.

Ltac ends_step :=
  lazymatch goal with
  | |- ends (mbind _ _) => apply ends_bind; [|intros]
  | |- ends (mret _) => apply ends_ret
  | |- ends (ret _) => apply ends_ret
  | |- ends (raise _) => apply ends_raise
  | |- ends (sys_exit _) => apply ends_raise
  | |- ends (lift _) => apply ends_lift
  | |- ends (gets _) => apply ends_gets
  | |- ends (emit _ _ _) => apply ends_emit
  | |- ends (try_except _ _) => apply ends_try_except; [|intros]
  | |- ends (if ?b then _ else _) => destruct b
  | |- ends (match ?x with _ => _ end) => destruct x
  | |- ends (set_cluster_config _) => intros ?; discriminate
  end.

Ltac ends_all := autounfold with ship; cbv zeta; repeat ends_step.

Lemma tracebacks_app (l1 l2 : list event) :
  tracebacks (l1 ++ l2) = tracebacks l1 ++ tracebacks l2.
Proof.
  induction l1 as [|e l1 IH]; [reflexivity|].
  destruct e; simpl; rewrite ?IH; reflexivity.
Qed.

Lemma tracebacks_none (l : list event) :
  Forall (fun e => is_traceback e = false) l → tracebacks l = [].
Proof.
  induction 1 as [|e l He _ IH]; [reflexivity|].
  destruct e; simpl in *; try assumption. discriminate.
Qed.

Section Reports.

Context (w : World).

(** What leaves a [try] statement that reports every [Exception] *)
Lemma reported_try {A} (m : M A) (h : exn → M A) (s : state) :
  ends m → (∀ e s', ∃ s'', h e s' = (Raise (SystemExit 1), s'')) →
  (∃ a, fst (try_except m [(is_Exception, h)] s) = Ret a)
  ∨ ∃ e, fst (try_except m [(is_Exception, h)] s) = Raise e
         ∧ is_Exception e = false.
Proof.
  intros Hm Hh. unfold try_except. specialize (Hm s).
  destruct (m s) as [[a|e|] s1]; simpl in *.
  - left. eauto.
  - destruct (is_Exception e) eqn:He.
    + destruct (Hh e s1) as [s2 ->]. right. eauto.
    + right. eauto.
  - congruence.
Qed.

Lemma report_exits (msg : string) (s : state) :
  ∃ s', (print w Stderr msg;; sys_exit 1 : M unit) s
        = (Raise (SystemExit 1), s').
Proof. unfold print. mrun. eauto. Qed.

Lemma update_outcome (cfg : config) (yes : bool) (s : state) :
  is_Some (paths cfg !! "outputDir") →
  is_Some (cluster_config s !! "FullyQualifiedName") →
  fst (update w cfg yes s) = Ret tt
  ∨ (fst (update w cfg yes s) = Raise Abort ∧ yes = false)
  ∨ ∃ e, fst (update w cfg yes s) = Raise e ∧ is_Exception e = false.
Proof.
  intros [out Hout] [name Hname].
  unfold update. rewrite cc_get_bind_run, Hname.
  rewrite (dict_get_some _ _ _ Hout), lift_bind_run.
  match goal with
  | |- context [try_except ?m [(is_Exception, ?h)]] =>
      assert (Htry : ∀ s1,
                (∃ a, fst (try_except m [(is_Exception, h)] s1) = Ret a)
                ∨ ∃ e, fst (try_except m [(is_Exception, h)] s1) = Raise e
                       ∧ is_Exception e = false);
      [intros s1; apply reported_try;
       [destruct yes; ends_all|intros e s'; apply report_exits]|];
      set (guarded := try_except m [(is_Exception, h)]) in *
  end.
  rewrite mbind_run. destruct yes; cbn [negb]; cbv iota.
  - cbn [ret fst snd]. destruct (Htry s) as [[[] Ha]|He]; auto.
  - rewrite mbind_run, click_confirm_eq.
    destruct (w_confirm w (st_trace s) _); cbn [ret mret M_ret fst snd]; auto.
    destruct (Htry (logged w
                      (EvConfirm
                         ("Are you sure you want to update "
                          +:+ str_json w name +:+ "?") AnsYes) 0 s))
      as [[[] Ha]|He]; auto.
Qed.

Lemma destroy_outcome (cfg : config) (yes : bool) (s : state) :
  is_Some (cluster_config s !! "FullyQualifiedName") →
  fst (destroy w cfg yes s) = Ret tt
  ∨ (fst (destroy w cfg yes s) = Raise Abort ∧ yes = false)
  ∨ ∃ e, fst (destroy w cfg yes s) = Raise e ∧ is_Exception e = false.
Proof.
  intros [name Hname].
  unfold destroy.
  match goal with
  | |- context [try_except ?m [(is_Exception, ?h)]] =>
      assert (Htry : ∀ s1,
                (∃ a, fst (try_except m [(is_Exception, h)] s1) = Ret a)
                ∨ ∃ e, fst (try_except m [(is_Exception, h)] s1) = Raise e
                       ∧ is_Exception e = false);
      [intros s1; apply reported_try;
       [ends_all|intros e s'; apply report_exits]|];
      set (guarded := try_except m [(is_Exception, h)]) in *
  end.
  rewrite mbind_run. destruct yes; cbn [negb]; cbv iota.
  - cbn [ret fst snd]. destruct (Htry s) as [[[] Ha]|He]; auto.
  - rewrite cc_get_bind_run, Hname, mbind_run, click_confirm_eq.
    destruct (w_confirm w (st_trace s) _); cbn [ret mret M_ret fst snd]; auto.
    destruct (Htry (logged w
                      (EvConfirm
                         ("Are you sure you want to destroy "
                          +:+ str_json w name +:+ "?") AnsYes) 0 s))
      as [[[] Ha]|He]; auto.
Qed.

Lemma cli_no_traceback (values : string) :
  preserves (extends_with (fun e => is_traceback e = false)) (cli w values).
Proof. quiet. Qed.

Lemma update_no_traceback (cfg : config) (yes : bool) :
  preserves (extends_with (fun e => is_traceback e = false))
    (update w cfg yes).
Proof. quiet. Qed.

Lemma destroy_no_traceback (cfg : config) (yes : bool) :
  preserves (extends_with (fun e => is_traceback e = false))
    (destroy w cfg yes).
Proof. quiet. Qed.

Lemma not_Exception (e : exn) :
  is_Exception e = false → ∃ code, e = SystemExit code.
Proof. destruct e; try discriminate. eauto. Qed.

(** How [main] ends a command that returns, aborts or exits *)
Lemma main_reported (fuel : nat) (values : string) (cmd : command)
  (cfg : config) (yes : bool) (s0 s : state) (m : M unit) :
  cli w values s0 = (Ret cfg, s) →
  invoke w fuel values cmd s0 = m s →
  preserves (extends_with (fun e => is_traceback e = false)) m →
  (fst (m s) = Ret tt
   ∨ (fst (m s) = Raise Abort ∧ yes = false)
   ∨ ∃ e, fst (m s) = Raise e ∧ is_Exception e = false) →
  tracebacks (st_trace (snd (main w fuel values cmd s0)))
  = tracebacks (st_trace s0)
  ∧ (fst (main w fuel values cmd s0) = Some 0
     ∨ (fst (main w fuel values cmd s0) = Some 1 ∧ yes = false
        ∧ fst (invoke w fuel values cmd s0) = Raise Abort)
     ∨ ∃ code,
         fst (main w fuel values cmd s0) = Some code
         ∧ fst (invoke w fuel values cmd s0) = Raise (SystemExit code)).
Proof.
  intros Hcli Hinvoke Hquiet Hends.
  destruct (cli_no_traceback values s0) as (l0 & Hl0 & Hno0).
  destruct (Hquiet s) as (l1 & Hl1 & Hno1).
  unfold main. rewrite Hinvoke. rewrite Hcli in Hl0. cbn [fst snd] in Hl0.
  destruct (m s) as [o s1]. cbn [fst snd] in *.
  destruct Hends as [->|[[-> ->]|(e & -> & He)]].
  - cbn [fst snd]. rewrite Hl1, Hl0, !tracebacks_app.
    rewrite (tracebacks_none l0 Hno0), (tracebacks_none l1 Hno1), !app_nil_r.
    split; [reflexivity|]. left. reflexivity.
  - cbn [fst snd print emit st_trace set_trace_now].
    rewrite Hl1, Hl0, !tracebacks_app.
    rewrite (tracebacks_none l0 Hno0), (tracebacks_none l1 Hno1), !app_nil_r.
    simpl. rewrite ?app_nil_r.
    split; [reflexivity|]. right. left. repeat split; reflexivity.
  - apply not_Exception in He as [code ->]. cbn [fst snd].
    rewrite Hl1, Hl0, !tracebacks_app.
    rewrite (tracebacks_none l0 Hno0), (tracebacks_none l1 Hno1), !app_nil_r.
    split; [reflexivity|]. right. right. exists code.
    split; reflexivity.
Qed.

(** X13. Once [cli] has returned and the configuration gives the name of
    the cluster, the commands [update] and [destroy] never end in a
    traceback: the process exits with status 0, or with status 1 after
    the user declined the first question, or with the status of a
    [sys.exit], which is how every failure of the guarded steps is
    reported. *)
Theorem update_and_destroy_never_traceback (fuel : nat) (values : string)
  (cfg : config) (yes : bool) (s0 s : state) (cmd : command) :
  cli w values s0 = (Ret cfg, s) →
  is_Some (clusterConfig cfg !! "FullyQualifiedName") →
  cmd = CmdUpdate yes ∨ cmd = CmdDestroy yes →
  tracebacks (st_trace (snd (main w fuel values cmd s0)))
  = tracebacks (st_trace s0)
  ∧ (fst (main w fuel values cmd s0) = Some 0
     ∨ (fst (main w fuel values cmd s0) = Some 1 ∧ yes = false
        ∧ fst (invoke w fuel values cmd s0) = Raise Abort)
     ∨ ∃ code,
         fst (main w fuel values cmd s0) = Some code
         ∧ fst (invoke w fuel values cmd s0) = Raise (SystemExit code)).
Proof.
  intros Hcli Hname Hcmd.
  destruct (cli_trace w values cfg s0 s Hcli) as (_ & _ & _ & _ & Hcc & Hout).
  rewrite <- Hcc in Hname.
  destruct Hcmd as [->| ->].
  - apply (main_reported fuel values _ cfg yes s0 s (update w cfg yes) Hcli).
    + unfold invoke. rewrite mbind_run, Hcli. reflexivity.
    + apply update_no_traceback.
    + apply update_outcome; assumption.
  - apply (main_reported fuel values _ cfg yes s0 s (destroy w cfg yes) Hcli).
    + unfold invoke. rewrite mbind_run, Hcli. reflexivity.
    + apply destroy_no_traceback.
    + apply destroy_outcome; assumption.
Qed.

End Reports.

(** ** What the commands ask and touch *)

Section Prompts.

Context (w : World).

(** X14. [create], [update --yes] and [destroy --yes] ask nothing: no
    run of the process with one of these commands contains a
    confirmation prompt, the group callback included. *)
Theorem unattended_never_prompts (fuel : nat) (values : string)
  (cmd : command) (s : state) :
  unattended cmd = true →
  ∃ l,
    st_trace (snd (main w fuel values cmd s)) = st_trace s ++ l
    ∧ Forall (fun e => is_confirm e = false) l.
Proof.
  intros Hcmd.
  assert (Hquiet : preserves (extends_with (fun e => is_confirm e = false))
                     (invoke w fuel values cmd)).
  { destruct cmd as [t1 t2|yes|yes]; simpl in Hcmd; subst;
      unfold invoke, update, destroy; cbn [negb]; cbv iota;
      flow_all;
      first [ apply extends_same_trace; reflexivity
            | apply extends_logged;
              match goal with
              | H : poller_event ?e |- _ => destruct e; simpl in H
              | _ => idtac
              end; first [reflexivity|contradiction] ]. }
  destruct (Hquiet s) as (l & Hl & Hno).
  unfold main. destruct (invoke w fuel values cmd s) as [[[]|e|] s1];
    cbn [fst snd] in *.
  - exists l. auto.
  - destruct e; cbn [fst snd print emit set_trace_now st_trace];
      first [ exists l; split; [exact Hl|exact Hno]
            | eexists (l ++ [_]); rewrite Hl, <- app_assoc;
              split; [reflexivity|];
              apply Forall_app; split; [exact Hno|];
              repeat constructor ].
  - exists l. auto.
Qed.

(** X15. [destroy] without [--yes], with a user who declines or whose
    input has ended: the command raises [click.Abort] straight after
    the question, which names the cluster; nothing is deleted, no
    subprocess is started, and the process writes [Aborted!] and exits
    with status 1. *)
Theorem destroy_declined_destroys_nothing (cfg : config) (s : state)
  (name : json) :
  cluster_config s !! "FullyQualifiedName" = Some name →
  w_confirm w (st_trace s) (destroy_question w name) ≠ AnsYes →
  destroy w cfg false s
  = (Raise Abort,
     logged w
       (EvConfirm (destroy_question w name)
          (w_confirm w (st_trace s) (destroy_question w name))) 0 s)
  ∧ ∀ fuel values s0,
      cli w values s0 = (Ret cfg, s) →
      main w fuel values (CmdDestroy false) s0
      = (Some 1,
         logged w (EvPrint Stderr "Aborted!") 0
           (logged w
              (EvConfirm (destroy_question w name)
                 (w_confirm w (st_trace s) (destroy_question w name))) 0 s)).
Proof.
  intros Hname Hno.
  assert (Hrun : destroy w cfg false s
    = (Raise Abort,
       logged w
         (EvConfirm (destroy_question w name)
            (w_confirm w (st_trace s) (destroy_question w name))) 0 s)).
  { unfold destroy, destroy_question in *. cbn [negb]. cbv iota.
    rewrite mbind_run, cc_get_bind_run, Hname, mbind_run, click_confirm_eq.
    destruct (w_confirm w (st_trace s) _); [destruct Hno| |]; reflexivity. }
  split; [exact Hrun|].
  intros fuel values s0 Hcli. unfold main, invoke.
  rewrite mbind_run, Hcli, Hrun. reflexivity.
Qed.

End Prompts.

Section Installation.

Context (w : World).

Lemma install_rest_extends (fuel : nat) (cfg : config) (t : Z) :
  preserves (extends_with (fun _ => True))
    (wait_tiller_available w fuel t;; install_loops w cfg).
Proof.
  unfold install_loops. flow_all;
    first [apply extends_same_trace; reflexivity|apply extends_logged; exact I].
Qed.

Lemma install_tools_carries_out (cfg : config) (s : state) (p : string) :
  paths cfg !! "tillerPermissions" = Some p →
  carries_out s [kubectl_apply_argv s p; helm_init_argv s]
    (install_tools w cfg) (fun _ => True).
Proof.
  intros Hp. unfold install_tools, kubectl_apply_argv, helm_init_argv.
  rewrite (dict_get_some _ _ _ Hp).
  co_step. co_step.
  eapply (co_bind s [_]); [apply co_check_call|intros _ _].
  co_step. apply co_check_call.
Qed.

(** X16. [install_components] without the key [tillerPermissions] raises
    [KeyError] before any subprocess.  With it, the subprocesses begin
    with [kubectl apply -f <tillerPermissions>] and [helm init
    --service-account tiller], the second started only after the first
    succeeded; unless both succeeded nothing follows (no poller, no
    chart) and the function does not return. *)
Theorem install_components_first_steps (fuel : nat) (cfg : config) (t : Z)
  (s : state) :
  (paths cfg !! "tillerPermissions" = None →
   install_components w fuel cfg t s
   = (Raise (KeyError "tillerPermissions"), s))
  ∧ ∀ p,
      paths cfg !! "tillerPermissions" = Some p →
      ∃ l rest b,
        st_trace (snd (install_components w fuel cfg t s))
        = st_trace s ++ l ++ rest
        ∧ in_order [kubectl_apply_argv s p; helm_init_argv s] (runs l) b
        ∧ (b = false →
           rest = []
           ∧ is_ret (fst (install_components w fuel cfg t s)) = false).
Proof.
  split.
  - intros Hnone. unfold install_components, dict_get. mrun.
    rewrite Hnone. reflexivity.
  - intros p Hp.
    destruct (install_tools_carries_out cfg s p Hp s (settled_refl s))
      as (l & Htrace & _ & Horder & _).
    rewrite install_components_poller.
    destruct (install_tools w cfg s) as [[[]|e|] s1]; cbn [fst snd is_ret] in *.
    + destruct (install_rest_extends fuel cfg t s1) as (rest & Hrest & _).
      exists l, rest, true. rewrite Hrest, Htrace, app_assoc.
      split; [reflexivity|]. split; [exact Horder|discriminate].
    + exists l, [], false. rewrite app_nil_r. auto.
    + exists l, [], false. rewrite app_nil_r. auto.
Qed.

End Installation.

Section ZeroTimeout.

Context (w : World).

Lemma poll_trace_no_probe (argv : list string) (answer : proc_result → bool)
  (msg : string) (interval timeout_time : Z) (b : bool) (l : list event) :
  poll_trace argv answer msg interval timeout_time b l →
  (length (execs l) ≤ 0)%nat →
  b = false ∧ ∃ t, l = [EvTime t].
Proof.
  intros H Hlen. destruct H; simpl in Hlen; try lia. eauto.
Qed.

(** X17. With a timeout of zero minutes or less, both pollers give up at
    once, whatever the state of the cluster: they read the clock twice,
    start no probe, write their message to the error stream and call
    [sys.exit(1)].  No fuel is needed. *)
Theorem pollers_give_up_at_once (fuel : nat) (timeout_minutes : Z)
  (s : state) :
  timeout_minutes ≤ 0 →
  (fst (wait_cluster_available w fuel timeout_minutes s)
   = Raise (SystemExit 1)
   ∧ ∃ t,
       st_trace (snd (wait_cluster_available w fuel timeout_minutes s))
       = st_trace s
           ++ [EvTime (st_now s); EvTime t;
               EvPrint Stderr cluster_unreachable_message])
  ∧ (fst (wait_tiller_available w fuel timeout_minutes s)
     = Raise (SystemExit 1)
     ∧ ∃ t,
         st_trace (snd (wait_tiller_available w fuel timeout_minutes s))
         = st_trace s
             ++ [EvTime (st_now s); EvTime t;
                 EvPrint Stderr tiller_unreachable_message]).
Proof.
  intros Ht. split.
  - destruct (wait_cluster_available_spec w fuel timeout_minutes s)
      as (b & l & H1 & H2 & _ & _ & H5 & H6 & _); [lia|].
    cbv zeta in *.
    destruct (poll_trace_no_probe _ _ _ _ _ _ _ H5) as (-> & t & ->); [lia|].
    split; [exact H1|]. exists t. exact H2.
  - destruct (wait_tiller_available_spec w fuel timeout_minutes s)
      as (b & l & H1 & H2 & _ & _ & H5 & H6 & _); [lia|].
    cbv zeta in *.
    destruct (poll_trace_no_probe _ _ _ _ _ _ _ H5) as (-> & t & ->); [lia|].
    split; [exact H1|]. exists t. exact H2.
Qed.

End ZeroTimeout.

Section FileAccess.

Context (w : World).

Ltac access_leaf :=
  first
    [ apply extends_same_trace; reflexivity
    | apply extends_logged;
      match goal with
      | H : poller_event ?e |- _ => destruct e; simpl in H
      | _ => idtac
      end;
      simpl; unfold terraform_config_path, kops_config_path, state_file_path;
      first [exact I|contradiction|left; reflexivity|right; reflexivity
            |reflexivity] ].

(** X18. The only files that [create] and [update] write are
    [networking.tf] and [kops.config] of the output directory, and the
    only state file they read is [terraform.tfstate] there; they load no
    YAML file and test no path.  [destroy] reads, writes and tests no
    file at all and fetches no template. *)
Theorem flows_touch_only_their_files (cfg : config) (out : string) :
  paths cfg !! "outputDir" = Some out →
  (∀ fuel t1 t2,
     preserves (extends_with (file_access out)) (create w fuel cfg t1 t2))
  ∧ (∀ yes, preserves (extends_with (file_access out)) (update w cfg yes))
  ∧ (∀ yes, preserves (extends_with touches_no_file) (destroy w cfg yes)).
Proof.
  intros Hout. repeat split.
  - intros fuel t1 t2. unfold create.
    rewrite (dict_get_some _ _ _ Hout). flow_all; access_leaf.
  - intros yes. unfold update.
    rewrite (dict_get_some _ _ _ Hout). flow_all; access_leaf.
  - intros yes. unfold destroy. flow_all; access_leaf.
Qed.

End FileAccess.

(** ** The subprocesses of an installation that returns *)

Lemma execs_runs (l : list event) : execs l = map fst (runs l).
Proof.
  induction l as [|e l IH]; [reflexivity|].
  destruct e; simpl; rewrite ?IH; reflexivity.
Qed.

Lemma in_order_complete (cmds : list (list string))
  (rs : list (list string * proc_result)) :
  in_order cmds rs true → map fst rs = cmds.
Proof.
  intros H. remember true as b eqn:Hb.
  induction H as [|cmds|cmd cmds r Hr|cmd cmds r rs b' Hr H IH];
    try discriminate.
  - reflexivity.
  - simpl. rewrite (IH Hb). reflexivity.
Qed.

Lemma execs_zip_with (cmds : list (list string)) (rs : list proc_result) :
  length rs = length cmds → execs (zip_with EvExec cmds rs) = cmds.
Proof.
  revert rs. induction cmds as [|cmd cmds IH]; intros [|r rs] Hlen;
    simpl in *; try discriminate; try reflexivity.
  rewrite IH; [reflexivity|]. congruence.
Qed.

Lemma poll_trace_execs (argv : list string) (answer : proc_result → bool)
  (msg : string) (interval timeout_time : Z) (l : list event) :
  poll_trace argv answer msg interval timeout_time true l →
  ∃ n, execs l = replicate (S n) argv.
Proof.
  intros H. remember true as b eqn:Hb.
  induction H as [t Ht|t r Ht Hr|t r b l Ht Hr H IH]; try discriminate.
  - exists 0%nat. reflexivity.
  - destruct (IH Hb) as [n Hn]. exists (S n). simpl. rewrite Hn. reflexivity.
Qed.

Section InstallationOrder.

Context (w : World).

(** X19. The subprocesses of an [install_components] that returns, in
    order: [kubectl apply -f] on the tiller permissions, [helm init],
    one or more [helm version --server] of the poller, then the [helm
    repo add] of the configured repositories and the [helm install] of
    the configured charts. *)
Theorem install_components_order (fuel : nat) (cfg : config) (t : Z)
  (s : state) (p : string) :
  (Z.to_nat (4 * t) ≤ fuel)%nat →
  paths cfg !! "tillerPermissions" = Some p →
  fst (install_components w fuel cfg t s) = Ret tt →
  ∃ l n,
    st_trace (snd (install_components w fuel cfg t s)) = st_trace s ++ l
    ∧ execs l
      = [kubectl_apply_argv s p; helm_init_argv s]
          ++ replicate (S n) (tiller_probe_argv s)
          ++ chart_commands (helm_bin s) cfg.
Proof.
  intros Hfuel Hp.
  destruct (install_tools_carries_out w cfg s p Hp s (settled_refl s))
    as (l1 & Ht1 & Hs1 & Ho1 & _).
  rewrite install_components_poller.
  destruct (install_tools w cfg s) as [[[]|e|] s1]; cbn [fst snd is_ret] in *;
    try discriminate.
  rewrite mbind_run.
  destruct (wait_tiller_available_spec w fuel t s1 Hfuel)
    as (b & l2 & H1 & H2 & H3 & _ & H5 & _).
  cbv zeta in *.
  destruct (wait_tiller_available w fuel t s1) as [o s2].
  cbn [fst snd] in *. subst o.
  destruct b; cbn [poller_outcome]; [|discriminate].
  rewrite install_loops_eq.
  destruct (check_call_each_spec w (chart_commands (helm_bin s2) cfg) s2)
    as (rs & Ht3 & _ & Hstop).
  destruct (check_call_each w (chart_commands (helm_bin s2) cfg) s2)
    as [o s3].
  cbn [fst snd] in *. intros ->. destruct Hstop as [Hlen _].
  destruct (poll_trace_execs _ _ _ _ _ _ H5) as [n Hn].
  assert (Hhelm1 : helm_bin s1 = helm_bin s)
    by (apply (settled_bin s s1 Helm Hs1)).
  assert (Hhelm2 : helm_bin s2 = helm_bin s).
  { unfold tools in H3. injection H3 as _ _ H3 _. congruence. }
  unfold tiller_probe_argv in Hn. rewrite Hhelm1 in Hn. rewrite Hhelm2 in *.
  eexists _, n. rewrite Ht3, H2, Ht1, <- !app_assoc.
  split; [reflexivity|].
  unfold poller_events. rewrite !execs_app. simpl.
  rewrite execs_app, Hn, (execs_zip_with _ _ Hlen), app_nil_r.
  rewrite execs_runs, (in_order_complete _ _ Ho1). reflexivity.
Qed.

End InstallationOrder.

(** ** The theorems on concrete runs, continued *)

(** The values file cannot be opened. *)
Lemma cli_values_file_errors_no_file :
  cli no_values_file "values.yaml" (initial_state 0)
  = (Raise (SystemExit 1),
     logged no_values_file
       (EvPrint Stderr
          "Failed to read values file: No such file or directory") 0
       (logged no_values_file (EvLoadYaml "values.yaml") 0 (initial_state 0))).
Proof.
  apply (cli_values_file_errors no_values_file "values.yaml" (initial_state 0)
           (IOError "No such file or directory")).
  reflexivity.
Defined.

(** The public key is not there. *)
Lemma cli_validation_failure_no_key :
  cli (missing "id_rsa.pub") "values.yaml" (initial_state 0)
  = (Raise (SystemExit 1),
     logged (missing "id_rsa.pub")
       (EvPrint Stderr
          "Config validation failed: SSH Public Key not found at id_rsa.pub")
       0
       (snd (validate_config (missing "id_rsa.pub") demo_config
               (logged (missing "id_rsa.pub") (EvLoadYaml "values.yaml") 0
                  (initial_state 0))))).
Proof.
  apply (cli_validation_failure (missing "id_rsa.pub") "values.yaml"
           demo_config (initial_state 0) _
           (IOError "SSH Public Key not found at id_rsa.pub")).
  - reflexivity.
  - vm_compute. reflexivity.
  - reflexivity.
Defined.

Lemma validate_config_passes_calm :
  ∃ key_path terraform_template kops_template output_dir,
    paths demo_config !! "sshPublicKeyPath" = Some key_path
    ∧ paths demo_config !! "terraformTemplatePath" = Some terraform_template
    ∧ paths demo_config !! "kopsTemplatePath" = Some kops_template
    ∧ paths demo_config !! "outputDir" = Some output_dir
    ∧ st_trace (snd (validate_config calm demo_config (initial_state 0)))
      = st_trace (initial_state 0)
          ++ [EvLoadYaml "values.schema"; EvIsFile key_path true;
              EvIsFile terraform_template true; EvIsFile kops_template true;
              EvIsDir output_dir true]
          ++ override_tests demo_config.
Proof.
  apply (validate_config_passes calm demo_config (initial_state 0)).
  vm_compute. reflexivity.
Defined.

(** The output directory is not there: the test of the directory is the
    last event. *)
Lemma validate_config_first_missing_no_dir :
  fst (validate_config no_output_dir demo_config (initial_state 0))
  = Raise (IOError "output directory 'out' does not exist").
Proof.
  apply (proj2 (validate_config_first_missing no_output_dir demo_config
                  (initial_state 0))
           [EvLoadYaml "values.schema"; EvIsFile "id_rsa.pub" true;
            EvIsFile "networking.tf.j2" true; EvIsFile "kops.config.j2" true]
           [] "out").
  vm_compute. reflexivity.
Defined.

(** The four identifiers are given and the state file has no module:
    the function fails all the same. *)
Lemma enrichment_given_identifiers_empty_state :
  ∃ e,
    fst (generate_kops_config empty_tf_state "kops.config.j2"
           "out/terraform.tfstate" "out"
           (snd (set_cluster_config given_cluster_config (initial_state 0))))
    = Raise e.
Proof.
  apply (enrichment_given_identifiers empty_tf_state "kops.config.j2"
           "out/terraform.tfstate" "out"
           (snd (set_cluster_config given_cluster_config (initial_state 0))))
    with (tf := JObj {[ "modules" := JArr [] ]}).
  - intros key Hin. unfold enriched_keys in Hin.
    repeat (apply elem_of_cons in Hin as [->|Hin]);
      [eexists; vm_compute; reflexivity..|].
    apply elem_of_nil in Hin. destruct Hin.
  - reflexivity.
  - vm_compute. reflexivity.
Defined.

Lemma create_commands_in_order_calm :
  ∃ l rest b,
    st_trace (snd (create calm 20 demo_config 5 5 demo_state))
    = st_trace demo_state ++ l ++ rest
    ∧ in_order
        (create_commands demo_state "out" "id_rsa.pub" "demo.example.com"
           "s3://demo-state")
        (runs l) b
    ∧ (b = false →
       rest = []
       ∧ is_ret (fst (create calm 20 demo_config 5 5 demo_state)) = false).
Proof.
  apply (create_commands_in_order calm 20 demo_config 5 5 demo_state);
    vm_compute; reflexivity.
Defined.

Lemma update_yes_commands_in_order_calm :
  ∃ l,
    st_trace (snd (update calm demo_config true demo_state))
    = st_trace demo_state ++ l
    ∧ in_order
        (update_commands demo_state "out" "demo.example.com" "s3://demo-state"
           ++ [kops_rolling_update_argv demo_state "demo.example.com"
                 "s3://demo-state"])
        (runs l) (is_ret (fst (update calm demo_config true demo_state)))
    ∧ Forall (fun e => is_confirm e = false) l.
Proof.
  apply (update_yes_commands_in_order calm demo_config demo_state);
    vm_compute; reflexivity.
Defined.


Example update_declined_rolling_update :
  fst (update cautious demo_config false demo_state) = Ret tt
  ∧ execs (st_trace (snd (update cautious demo_config false demo_state)))
    = update_commands demo_state "out" "demo.example.com" "s3://demo-state".
Proof. vm_compute. split; reflexivity. Qed.

Lemma update_and_destroy_never_traceback_calm :
  tracebacks
    (st_trace (snd (main calm 0 "values.yaml" (CmdUpdate true)
                      (initial_state 0))))
  = tracebacks (st_trace (initial_state 0)).
Proof.
  apply (update_and_destroy_never_traceback calm 0 "values.yaml" demo_config
           true (initial_state 0)
           (snd (cli calm "values.yaml" (initial_state 0)))
           (CmdUpdate true)).
  - exact cli_calm.
  - eexists. vm_compute. reflexivity.
  - left. reflexivity.
Defined.

Lemma unattended_never_prompts_create :
  ∃ l,
    st_trace (snd (main calm 20 "values.yaml" (CmdCreate 5 5)
                     (initial_state 0)))
    = st_trace (initial_state 0) ++ l
    ∧ Forall (fun e => is_confirm e = false) l.
Proof.
  apply (unattended_never_prompts calm 20 "values.yaml" (CmdCreate 5 5)
           (initial_state 0)).
  reflexivity.
Defined.

Lemma destroy_declined_destroys_nothing_calm :
  destroy calm demo_config false demo_state
  = (Raise Abort,
     logged calm
       (EvConfirm (destroy_question calm (JStr "demo.example.com"))
          (w_confirm calm (st_trace demo_state)
             (destroy_question calm (JStr "demo.example.com")))) 0
       demo_state).
Proof.
  apply (destroy_declined_destroys_nothing calm demo_config demo_state
           (JStr "demo.example.com")).
  - vm_compute. reflexivity.
  - vm_compute. discriminate.
Defined.

Lemma install_components_first_steps_calm :
  ∃ l rest b,
    st_trace (snd (install_components calm 20 demo_config 5 demo_state))
    = st_trace demo_state ++ l ++ rest
    ∧ in_order
        [kubectl_apply_argv demo_state "tiller.yaml"; helm_init_argv demo_state]
        (runs l) b
    ∧ (b = false →
       rest = []
       ∧ is_ret (fst (install_components calm 20 demo_config 5 demo_state))
         = false).
Proof.
  apply (install_components_first_steps calm 20 demo_config 5 demo_state).
  vm_compute. reflexivity.
Defined.

(** A timeout of zero minutes, with a cluster that would answer *)
Lemma pollers_give_up_at_once_calm :
  fst (wait_cluster_available calm 0 0 (initial_state 0))
  = Raise (SystemExit 1)
  ∧ ∃ t,
      st_trace (snd (wait_cluster_available calm 0 0 (initial_state 0)))
      = st_trace (initial_state 0)
          ++ [EvTime (st_now (initial_state 0)); EvTime t;
              EvPrint Stderr cluster_unreachable_message].
Proof.
  apply (pollers_give_up_at_once calm 0 0 (initial_state 0)). lia.
Defined.

Lemma flows_touch_only_their_files_calm :
  preserves (extends_with (file_access "out"))
    (create calm 20 demo_config 5 5).
Proof.
  apply (flows_touch_only_their_files calm demo_config "out").
  vm_compute. reflexivity.
Defined.

Lemma install_components_order_calm :
  ∃ l n,
    st_trace (snd (install_components calm 20 demo_config 5 demo_state))
    = st_trace demo_state ++ l
    ∧ execs l
      = [kubectl_apply_argv demo_state "tiller.yaml"; helm_init_argv demo_state]
          ++ replicate (S n) (tiller_probe_argv demo_state)
          ++ chart_commands (helm_bin demo_state) demo_config.
Proof.
  apply (install_components_order calm 20 demo_config 5 demo_state
           "tiller.yaml").
  - vm_compute. lia.
  - vm_compute. reflexivity.
  - vm_compute. reflexivity.
Defined.

Example install_components_calm_commands :
  execs (st_trace (snd (install_components calm 20 demo_config 5 demo_state)))
  = [["kubectl"; "apply"; "-f"; "tiller.yaml"];
     ["helm"; "init"; "--service-account"; "tiller"];
     ["helm"; "version"; "--server"];
     ["helm"; "repo"; "add"; "stable"; "https://charts"];
     ["helm"; "install"; "--name"; "web"; "stable/nginx"; "--namespace";
      "infra"; "--set"; "replicas=2"]].
Proof. vm_compute. reflexivity. Qed.
